(** * galaxy_codex: the tool-extraction helpers of [sources/bin]

    A shallow embedding of [sources/bin/shared.py] and of the command
    dispatch of [sources/bin/extract_galaxy_tools.py], with the properties
    stated for them in the repository's specification.

    Python values are embedded as follows: [str] is [string] (one [ascii]
    per code point below 256), a Python [list] is a [list], a [dict] is an
    association list in insertion order where its order can be observed and a
    [gmap] where only lookups matter, [None] is [option]'s [None], and a raised
    exception is the [Raise] branch of [result]. *)

From Stdlib Require Import ZArith Ascii String List Lia Bool QArith.
From Stdlib Require DecimalString DecimalPos DecimalZ SpecFloat.
From stdpp Require Import base option list gmap strings sorting.

Local Open Scope Z_scope.

(** * Part I: the embedding *)

(** ** Exceptions *)

Inductive exn : Type :=
| ValueError
| IndexError
| KeyError
| TypeError
| FileNotFoundError
| IsADirectoryError
| AttributeError
| ConnectionError      (* requests.exceptions.ConnectionError *)
| HTTPError            (* requests.exceptions.HTTPError *)
| Timeout              (* requests.exceptions.Timeout *)
| JSONDecodeError      (* requests.exceptions.JSONDecodeError *)
| GithubException
| OverflowError
| NotADirectoryError
| SystemExit
| Unmodelled.          (* no exception: the run has left what the model covers *)

(** The class hierarchy the [except] clauses of the sources test. *)
Definition is_ConnectionError (e : exn) : bool :=
  match e with ConnectionError => true | _ => false end.

Definition is_RequestException (e : exn) : bool :=
  match e with
  | ConnectionError | HTTPError | Timeout | JSONDecodeError => true
  | _ => false
  end.

Definition is_ValueError (e : exn) : bool :=
  match e with ValueError | JSONDecodeError => true | _ => false end.

(** [SystemExit] derives from [BaseException] only. [Unmodelled] stands for
    a run of which the model says nothing (a JSON text with a number or a
    character it does not cover, say): no handler catches it, so that it
    ends every run it occurs in, and no statement below concludes it. *)
Definition is_Exception (e : exn) : bool :=
  match e with SystemExit | Unmodelled => false | _ => true end.

Inductive result (A : Type) : Type :=
| Ok (a : A)
| Raise (e : exn).

Arguments Ok {A} a.
Arguments Raise {A} e.

#[global] Instance result_ret : MRet result := fun A a => Ok a.
#[global] Instance result_bind : MBind result := fun A B k r =>
  match r with
  | Ok a => k a
  | Raise e => Raise e
  end.

Definition of_option {A : Type} (e : exn) (o : option A) : result A :=
  match o with
  | Some a => Ok a
  | None => Raise e
  end.

(** [[f(x) for x in l]] where [f] may raise *)
Fixpoint traverse {A B : Type} (f : A -> result B) (l : list A) : result (list B) :=
  match l with
  | [] => Ok []
  | x :: l' => y ← f x; ys ← traverse f l'; Ok (y :: ys)
  end.

(** [for x in l: s = f(s, x)] where [f] may raise *)
Fixpoint fold_result {A S : Type} (f : S -> A -> result S) (l : list A) (s : S)
  : result S :=
  match l with
  | [] => Ok s
  | x :: l' => s' ← f s x; fold_result f l' s'
  end.

(** ** The [str] and [list] operations the sources use *)

Module PyStr.

(** [s.startswith(p)] *)
Fixpoint startswith (s p : string) {struct p} : bool :=
  match p with
  | EmptyString => true
  | String a p' =>
      match s with
      | EmptyString => false
      | String b s' => if Ascii.eqb a b then startswith s' p' else false
      end
  end.

(** [sub in s] *)
Fixpoint contains (sub s : string) : bool :=
  startswith s sub ||
  match s with
  | EmptyString => false
  | String _ s' => contains sub s'
  end.

(** [s.endswith(p)] *)
Fixpoint endswith (s p : string) : bool :=
  String.eqb s p ||
  match s with
  | EmptyString => false
  | String _ s' => endswith s' p
  end.

(** [s[:-n]] for a positive literal [n] *)
Definition drop_last (n : nat) (s : string) : string :=
  String.substring 0 (String.length s - n) s.

(** [s.split(sep)] for a one-character separator: never the empty list *)
Fixpoint split (sep : ascii) (s : string) : list string :=
  match s with
  | EmptyString => [EmptyString]
  | String c s' =>
      if Ascii.eqb c sep then EmptyString :: split sep s'
      else match split sep s' with
           | seg :: segs => String c seg :: segs
           | [] => [String c EmptyString]
           end
  end.

(** [sep.join(l)] *)
Fixpoint join (sep : string) (l : list string) : string :=
  match l with
  | [] => EmptyString
  | s :: l' =>
      match l' with
      | [] => s
      | _ :: _ => s +:+ sep +:+ join sep l'
      end
  end.

(** [c not in s] for a character [c] *)
Fixpoint free_of (c : ascii) (s : string) : bool :=
  match s with
  | EmptyString => true
  | String a s' => negb (Ascii.eqb a c) && free_of c s'
  end.

(** [str.isspace] on the code points below 256 *)
Definition isspace (c : ascii) : bool :=
  let n := nat_of_ascii c in
  ((9 <=? n) && (n <=? 13) || (28 <=? n) && (n <=? 32)
   || (n =? 133) || (n =? 160))%nat.

(** [s.rstrip(chars)], [chars] given as a predicate *)
Fixpoint rstrip_by (p : ascii -> bool) (s : string) : string :=
  match s with
  | EmptyString => EmptyString
  | String c s' =>
      match rstrip_by p s' with
      | EmptyString => if p c then EmptyString else String c EmptyString
      | String _ _ as r => String c r
      end
  end.

(** [s.rstrip()] *)
Definition rstrip : string -> string := rstrip_by isspace.

(** [l[i]] with Python's negative indices; [None] stands for [IndexError] *)
Definition index {A : Type} (l : list A) (i : Z) : option A :=
  let n := Z.of_nat (length l) in
  let j := if i <? 0 then i + n else i in
  if (0 <=? j) && (j <? n) then l !! Z.to_nat j else None.

(** The last character of [s], if any. *)
Fixpoint last_char (s : string) : option ascii :=
  match s with
  | EmptyString => None
  | String c s' =>
      match s' with
      | EmptyString => Some c
      | String _ _ => last_char s'
      end
  end.

End PyStr.

(** [str(x)], as far as the exported columns need it. *)
Class Str (A : Type) := str : A -> string.

#[global] Instance str_string : Str string := fun s => s.
#[global] Instance str_Z : Str Z :=
  fun z => DecimalString.NilZero.string_of_int (Z.to_int z).
#[global] Instance str_bool : Str bool :=
  fun b => if b then "True" else "False".

(** Every character of [s] satisfies [p]. *)
Fixpoint all_chars (p : ascii -> bool) (s : string) : bool :=
  match s with
  | EmptyString => true
  | String c s' => p c && all_chars p s'
  end.

(** ** Floats *)

(** A Python [float] other than NaN: [(-1)^negative * m * 2^e] as a double
    has it, with [m] below [2^53] and with 53 bits where [e] is above
    [-1074], or an infinity. The zeros are [Double false 0 0] and
    [Double true 0 0]. NaN is left out: whether a NaN is equal to a value,
    itself included, depends on the objects compared, and the values here
    stand for no object. *)
Inductive pyfloat : Type :=
| Double (negative : bool) (m : N) (e : Z)
| Inf (negative : bool).

Module PyFloatOps.

(** The same double *)
Definition same (x y : pyfloat) : bool :=
  match x, y with
  | Double s1 m1 e1, Double s2 m2 e2 => Bool.eqb s1 s2 && N.eqb m1 m2 && Z.eqb e1 e2
  | Inf s1, Inf s2 => Bool.eqb s1 s2
  | _, _ => false
  end.

(** [x == y] on floats: by value, and the two zeros are equal. *)
Definition eqb (x y : pyfloat) : bool :=
  match x, y with
  | Double s1 m1 e1, Double s2 m2 e2 =>
      let e := Z.min e1 e2 in
      (Z.of_N m1 * 2 ^ (e1 - e) =? Z.of_N m2 * 2 ^ (e2 - e))
      && (Bool.eqb s1 s2 || N.eqb m1 0)
  | Inf s1, Inf s2 => Bool.eqb s1 s2
  | _, _ => false
  end.

(** [x == z] for an [int] [z]: the comparison is exact. *)
Definition eqb_int (x : pyfloat) (z : Z) : bool :=
  match x with
  | Double s m e =>
      let v := if s then - Z.of_N m else Z.of_N m in
      if 0 <=? e then z =? v * 2 ^ e else v =? z * 2 ^ (- e)
  | Inf _ => false
  end.

Definition of_spec (x : SpecFloat.spec_float) : option pyfloat :=
  match x with
  | SpecFloat.S754_zero s => Some (Double s 0 0)
  | SpecFloat.S754_finite s m e => Some (Double s (Npos m) e)
  | SpecFloat.S754_infinity s => Some (Inf s)
  | SpecFloat.S754_nan => None
  end.

(** The double nearest to [digits * 10^exponent], with its sign: what
    [float] makes of a decimal writing. The roundings are those of the
    Standard Library's binary64 ([prec = 53], [emax = 1024]), to nearest and
    to even on a tie. The first two cases decide an exponent far out without
    computing its power of ten: [d * 10^exponent] is at least [2^1024] in the
    first and below [2^-1075] in the second. *)
Definition float_of_decimal (negative : bool) (digits : N) (exponent : Z)
  : option pyfloat :=
  match digits with
  | N0 => Some (Double negative 0 0)
  | Npos d =>
      let b := Z.log2 (Z.pos d) in
      if (0 <=? exponent) && (1024 <=? b + 3 * exponent)
      then Some (Inf negative)
      else if (exponent <? 0) && (b + 1 + 3 * exponent <=? -1075)
      then Some (Double negative 0 0)
      else if 0 <=? exponent
      then of_spec (SpecFloat.binary_normalize 53 1024
                      ((if negative then Z.neg d else Z.pos d) * 10 ^ exponent)
                      0 negative)
      else of_spec (SpecFloat.SFdiv 53 1024
                      (SpecFloat.S754_finite negative d 0)
                      (SpecFloat.S754_finite false (Z.to_pos (10 ^ (- exponent))) 0))
  end.

Definition is_digit (c : ascii) : bool :=
  let n := nat_of_ascii c in (48 <=? n)%nat && (n <=? 57)%nat.

(** The digits [s] begins with, and what follows them. *)
Fixpoint span_digits (s : string) : string * string :=
  match s with
  | EmptyString => (EmptyString, EmptyString)
  | String c s' =>
      if is_digit c
      then let '(ds, rest) := span_digits s' in (String c ds, rest)
      else (EmptyString, s)
  end.

(** The number the digits [ds] write after those of [acc]. *)
Fixpoint digits_value (acc : N) (ds : string) : N :=
  match ds with
  | EmptyString => acc
  | String c ds' =>
      digits_value (10 * acc + N.of_nat (nat_of_ascii c - 48)) ds'
  end.

(** The exponent part of a number, if it has one: [e] or [E], a sign or
    none, digits. *)
Definition parse_exponent (s : string) : option Z :=
  match s with
  | EmptyString => Some 0
  | String c r =>
      if Ascii.eqb c "e" || Ascii.eqb c "E" then
        let '(negative, r') :=
          match r with
          | String "+" r' => (false, r')
          | String "-" r' => (true, r')
          | _ => (false, r)
          end in
        match span_digits r' with
        | (String d ds, EmptyString) =>
            let v := Z.of_N (digits_value 0 (String d ds)) in
            Some (if negative then - v else v)
        | _ => None
        end
      else None
  end.

(** [float(token)] for a token of the JSON grammar: a minus sign or none, an
    integer part without leading zeros, a fraction or none, an exponent or
    none. *)
Definition parse_float (token : string) : option pyfloat :=
  let '(negative, s1) :=
    match token with
    | String "-" r => (true, r)
    | _ => (false, token)
    end in
  match span_digits s1 with
  | (EmptyString, _) => None
  | (String d ds as int_part, s2) =>
      if Ascii.eqb d "0" && negb (String.eqb ds "") then None
      else
        let fraction :=
          match s2 with
          | String "." r =>
              match span_digits r with
              | (EmptyString, _) => None
              | (frac, s3) => Some (frac, s3)
              end
          | _ => Some (EmptyString, s2)
          end in
        match fraction with
        | None => None
        | Some (frac, s3) =>
            match parse_exponent s3 with
            | None => None
            | Some ex =>
                float_of_decimal negative (digits_value 0 (int_part +:+ frac))
                  (ex - Z.of_nat (String.length frac))
            end
        end
  end.

(** [digits * 10^exponent] is read as [x]. *)
Definition reads_as (x : pyfloat) (digits exponent : Z) : bool :=
  match float_of_decimal false (Z.to_N digits) exponent with
  | Some y => same y x
  | None => false
  end.

(** The shortest decimal writing that is read as [x], the nearest to [x]
    where there are two: with [k] digits the candidates are the two
    neighbours of [x], which is [num / den * 10^-scale] and has [L] digits
    before the point once scaled. *)
Fixpoint shortest (fuel : nat) (k : Z) (x : pyfloat) (num den L scale : Z)
  : option (Z * Z) :=
  match fuel with
  | O => None
  | S fuel' =>
      let step := 10 ^ (L - k) in
      let lo := (num / den) / step in
      let hi := lo + 1 in
      let ex := L - k - scale in
      let lo_ok := reads_as x lo ex in
      let hi_ok := reads_as x hi ex in
      if lo_ok && hi_ok then
        match 2 * num ?= (lo + hi) * step * den with
        | Lt => Some (lo, ex)
        | Gt => Some (hi, ex)
        | Eq => Some (if Z.even lo then lo else hi, ex)
        end
      else if lo_ok then Some (lo, ex)
      else if hi_ok then Some (hi, ex)
      else shortest fuel' (k + 1) x num den L scale
  end.

(** [d * 10^ex] without the zeros [d] ends with. *)
Fixpoint strip_zeros (fuel : nat) (d ex : Z) : Z * Z :=
  match fuel with
  | O => (d, ex)
  | S fuel' =>
      if (d mod 10 =? 0) && negb (d =? 0)
      then strip_zeros fuel' (d / 10) (ex + 1)
      else (d, ex)
  end.

Fixpoint zeros (n : nat) : string :=
  match n with
  | O => EmptyString
  | S n' => String "0" (zeros n')
  end.

(** The writing of [float.__repr__] for the digits [ds] with the point
    after the first [decpt] of them: with an exponent where the point is
    far from the digits, [decpt <= -4] or [decpt > 16], in full otherwise. *)
Definition format_digits (ds : string) (decpt : Z) : string :=
  let n := Z.of_nat (String.length ds) in
  if (decpt <=? -4) || (16 <? decpt) then
    let exponent := decpt - 1 in
    let mantissa :=
      match ds with
      | String c (String c' rest) => String c ("." +:+ String c' rest)
      | _ => ds
      end in
    mantissa +:+ "e" +:+ (if exponent <? 0 then "-" else "+")
    +:+ (if Z.abs exponent <? 10 then "0" else "") +:+ str (Z.abs exponent)
  else if decpt <=? 0 then "0." +:+ zeros (Z.to_nat (- decpt)) +:+ ds
  else if decpt <? n then
    substring 0 (Z.to_nat decpt) ds +:+ "."
    +:+ substring (Z.to_nat decpt) (Z.to_nat (n - decpt)) ds
  else ds +:+ zeros (Z.to_nat (decpt - n)) +:+ ".0".

(** [repr(x)] of a finite [x]: the shortest digits that are read as [x], at
    most 17; [None] when there are none, which is so for no double. The
    scale makes of [x] a number of 18 digits or more before the point. *)
Definition float_repr (x : pyfloat) : option string :=
  match x with
  | Inf s => Some (if s then "-inf" else "inf")
  | Double s N0 _ => Some (if s then "-0.0" else "0.0")
  | Double s m e =>
      let scale := 18 - (Z.log2 (Z.of_N m) + e) * 30103 / 100000 in
      let num := Z.of_N m * 2 ^ Z.max e 0 * 10 ^ Z.max scale 0 in
      let den := 2 ^ Z.max (- e) 0 * 10 ^ Z.max (- scale) 0 in
      let L := Z.of_nat (String.length (str (num / den))) in
      match shortest 17 1 (Double false m e) num den L scale with
      | Some (d, ex) =>
          let '(d, ex) := strip_zeros 20 d ex in
          let ds := str d in
          Some ((if s then "-" else "")
                +:+ format_digits ds (Z.of_nat (String.length ds) + ex))
      | None => None
      end
  end.

End PyFloatOps.


(** ** Python values and JSON documents *)

(** The values a suite dictionary is made of. A [dict] keeps its items in
    insertion order, a [set] its elements in iteration order. *)
#[local] Unset Elimination Schemes.

Inductive pyval : Type :=
| PyNone
| PyBool (b : bool)
| PyInt (z : Z)
| PyFloat (x : pyfloat)
| PyStr (s : string)
| PyList (l : list pyval)
| PyTuple (l : list pyval)
| PySet (elems : list pyval)
| PyDict (items : list (string * pyval)).

(** A JSON document; an object keeps its members in document order. *)
Inductive json : Type :=
| JNull
| JBool (b : bool)
| JNumber (z : Z)
| JFloat (x : pyfloat)
| JString (s : string)
| JArray (l : list json)
| JObject (members : list (string * json)).

#[local] Set Elimination Schemes.

Module PyDictOps.
Section Dict.
Context {V : Type}.

(** [d.get(k)] *)
Fixpoint get (d : list (string * V)) (k : string) : option V :=
  match d with
  | [] => None
  | (k', v) :: d' => if String.eqb k' k then Some v else get d' k
  end.

(** [d[k] = v]: an existing key keeps its place, a new one goes last *)
Fixpoint set (d : list (string * V)) (k : string) (v : V) : list (string * V) :=
  match d with
  | [] => [(k, v)]
  | (k', v') :: d' =>
      if String.eqb k' k then (k', v) :: d' else (k', v') :: set d' k v
  end.

(** [dict(pairs)] *)
Definition of_pairs (l : list (string * V)) : list (string * V) :=
  fold_left (fun d kv => set d kv.1 kv.2) l [].

(** [sorted(d.items())]: the keys of a dict are distinct, so the order of
    the items is the order of their keys. *)
Definition sorted_items (d : list (string * V)) : list (string * V) :=
  merge_sort (fun x y => String.le x.1 y.1) d.
End Dict.
End PyDictOps.

(** Python's [==] on [pyval]: [bool] is a subclass of [int], an [int] and a
    [float] are compared by value, sequences are compared element by
    element, sets and dicts regardless of order. *)
Fixpoint py_eqb (a b : pyval) {struct a} : bool :=
  match a, b with
  | PyNone, PyNone => true
  | PyBool x, PyBool y => Bool.eqb x y
  | PyBool x, PyInt y => Z.eqb (Z.b2z x) y
  | PyInt x, PyBool y => Z.eqb x (Z.b2z y)
  | PyInt x, PyInt y => Z.eqb x y
  | PyFloat x, PyFloat y => PyFloatOps.eqb x y
  | PyFloat x, PyInt y | PyInt y, PyFloat x => PyFloatOps.eqb_int x y
  | PyFloat x, PyBool y | PyBool y, PyFloat x => PyFloatOps.eqb_int x (Z.b2z y)
  | PyStr x, PyStr y => String.eqb x y
  | PyList l1, PyList l2 | PyTuple l1, PyTuple l2 =>
      (fix go (l1 l2 : list pyval) {struct l1} : bool :=
         match l1, l2 with
         | [], [] => true
         | x :: l1', y :: l2' => py_eqb x y && go l1' l2'
         | _, _ => false
         end) l1 l2
  | PySet s1, PySet s2 =>
      (length s1 =? length s2)%nat
      && forallb (fun x => existsb (py_eqb x) s2) s1
  | PyDict d1, PyDict d2 =>
      (length d1 =? length d2)%nat
      && forallb (fun kv => match PyDictOps.get d2 kv.1 with
                            | Some v2 => py_eqb kv.2 v2
                            | None => false
                            end) d1
  | _, _ => false
  end.

(** The document [json.dump(v, f, indent=4, sort_keys=sort_keys,
    default=list)] writes: a tuple is written as an array, and a set, which
    the encoder cannot write, goes through [default] and is written as the
    array of [list(v)]. With [sort_keys] the members of an object are in the
    order of their keys. *)
Fixpoint json_dump (sort_keys : bool) (v : pyval) : json :=
  match v with
  | PyNone => JNull
  | PyBool b => JBool b
  | PyInt z => JNumber z
  | PyFloat x => JFloat x
  | PyStr s => JString s
  | PyList l | PyTuple l | PySet l => JArray (map (json_dump sort_keys) l)
  | PyDict items =>
      let members := map (fun kv => (kv.1, json_dump sort_keys kv.2)) items in
      JObject (if sort_keys then PyDictOps.sorted_items members else members)
  end.

(** The value [json.load(f)] makes of a document: of the members of an
    object with the same key, the last one stays. *)
Fixpoint json_load (j : json) : pyval :=
  match j with
  | JNull => PyNone
  | JBool b => PyBool b
  | JNumber z => PyInt z
  | JFloat x => PyFloat x
  | JString s => PyStr s
  | JArray l => PyList (map json_load l)
  | JObject members =>
      PyDict (PyDictOps.of_pairs (map (fun kv => (kv.1, json_load kv.2)) members))
  end.

(** The values [json.load] can return: no tuple, no set, and every dict a
    Python dict (distinct keys). *)
Fixpoint json_native (v : pyval) : bool :=
  match v with
  | PyNone | PyBool _ | PyInt _ | PyFloat _ | PyStr _ => true
  | PyList l => forallb json_native l
  | PyTuple _ | PySet _ => false
  | PyDict items =>
      bool_decide (NoDup items.*1) && forallb (fun kv => json_native kv.2) items
  end.

(** ** The text of a JSON document *)

(** The text [json.dump(..., indent=4)] writes for a document and the
    document [json.load] reads from a text, as far as the documents above go:
    [NaN] and a code point above 255 are outside the model, and so are the
    documents [covered] does not hold of. *)
Module JsonText.
#[local] Open Scope nat_scope.

Definition dquote : ascii := "034".
Definition backslash : ascii := "092".

Definition hex_digit (n : nat) : ascii :=
  match n with
  | 0 => "0" | 1 => "1" | 2 => "2" | 3 => "3" | 4 => "4" | 5 => "5" | 6 => "6"
  | 7 => "7" | 8 => "8" | 9 => "9" | 10 => "a" | 11 => "b" | 12 => "c"
  | 13 => "d" | 14 => "e" | _ => "f"
  end%char.

Definition hex_value (c : ascii) : option nat :=
  let n := nat_of_ascii c in
  if (48 <=? n) && (n <=? 57) then Some (n - 48)
  else if (97 <=? n) && (n <=? 102) then Some (n - 87)
  else if (65 <=? n) && (n <=? 70) then Some (n - 55)
  else None.

(** The encoder's [ensure_ascii] escapes: the short ones, and [\uXXXX] for
    what is not between the space and the tilde. *)
Definition escape_char (c : ascii) : string :=
  let n := nat_of_ascii c in
  if n =? 34 then String backslash (String dquote "")
  else if n =? 92 then String backslash (String backslash "")
  else if n =? 8 then String backslash "b"
  else if n =? 12 then String backslash "f"
  else if n =? 10 then String backslash "n"
  else if n =? 13 then String backslash "r"
  else if n =? 9 then String backslash "t"
  else if (32 <=? n) && (n <=? 126) then String c ""
  else String backslash
         (String "u" (String "0" (String "0"
            (String (hex_digit (n / 16)) (String (hex_digit (n mod 16)) ""))))).

Fixpoint escape (s : string) : string :=
  match s with
  | EmptyString => EmptyString
  | String c s' => escape_char c +:+ escape s'
  end.

Definition quoted (s : string) : string :=
  String dquote (escape s +:+ String dquote "").

Fixpoint spaces (n : nat) : string :=
  match n with
  | O => EmptyString
  | S n' => String " " (spaces n')
  end.

(** The line break before an item at nesting depth [level]. *)
Definition newline_indent (level : nat) : string :=
  String "010" (spaces (4 * level)).

(** The text of a float: its [repr], and the constants of JavaScript for
    the infinities ([allow_nan] is left at [True]). *)
Definition float_text (x : pyfloat) : string :=
  match x with
  | Inf s => if s then "-Infinity" else "Infinity"
  | Double _ _ _ => default EmptyString (PyFloatOps.float_repr x)
  end.

(** The text of a document at nesting depth [level]: an empty array or
    object on one line, the items of the others one per line, separated by
    a comma, a key and its value by a colon and a space. *)
Fixpoint json_text (level : nat) (j : json) : string :=
  match j with
  | JNull => "null"
  | JBool b => if b then "true" else "false"
  | JNumber z => str z
  | JFloat x => float_text x
  | JString s => quoted s
  | JArray l =>
      match l with
      | [] => "[]"
      | _ :: _ =>
          "[" +:+ newline_indent (S level)
          +:+ PyStr.join ("," +:+ newline_indent (S level))
                (map (json_text (S level)) l)
          +:+ newline_indent level +:+ "]"
      end
  | JObject members =>
      match members with
      | [] => "{}"
      | _ :: _ =>
          "{" +:+ newline_indent (S level)
          +:+ PyStr.join ("," +:+ newline_indent (S level))
                (map (fun kv => quoted kv.1 +:+ ": " +:+ json_text (S level) kv.2)
                     members)
          +:+ newline_indent level +:+ "}"
      end
  end.

(** The decoder's whitespace. *)
Definition is_ws (c : ascii) : bool :=
  let n := nat_of_ascii c in
  (n =? 32) || (n =? 9) || (n =? 10) || (n =? 13).

Fixpoint skip_ws (s : string) : string :=
  match s with
  | EmptyString => EmptyString
  | String c s' => if is_ws c then skip_ws s' else s
  end.

(** The character after a backslash, for the short escapes. *)
Definition unescape_char (e : ascii) : option ascii :=
  let n := nat_of_ascii e in
  if n =? 34 then Some dquote
  else if n =? 92 then Some backslash
  else if n =? 47 then Some "/"%char
  else if n =? 98 then Some "008"%char
  else if n =? 102 then Some "012"%char
  else if n =? 110 then Some "010"%char
  else if n =? 114 then Some "013"%char
  else if n =? 116 then Some "009"%char
  else None.

(** The code point of four hexadecimal digits, when it is below 256. *)
Definition unicode_escape (h1 h2 h3 h4 : ascii) : option ascii :=
  match hex_value h1, hex_value h2, hex_value h3, hex_value h4 with
  | Some 0, Some 0, Some hi, Some lo => Some (ascii_of_nat (16 * hi + lo))
  | _, _, _, _ => None
  end.

(** A string, from after its opening quote: its characters and what follows
    its closing quote. A control character must be escaped. *)
Fixpoint parse_string (s : string) : option (string * string) :=
  match s with
  | EmptyString => None
  | String c s' =>
      if Ascii.eqb c dquote then Some (EmptyString, s')
      else if Ascii.eqb c backslash then
        match s' with
        | EmptyString => None
        | String e s'' =>
            if Ascii.eqb e "u" then
              match s'' with
              | String h1 (String h2 (String h3 (String h4 s3))) =>
                  match unicode_escape h1 h2 h3 h4 with
                  | Some c' =>
                      match parse_string s3 with
                      | Some (chars, rest) => Some (String c' chars, rest)
                      | None => None
                      end
                  | None => None
                  end
              | _ => None
              end
            else
              match unescape_char e with
              | Some c' =>
                  match parse_string s'' with
                  | Some (chars, rest) => Some (String c' chars, rest)
                  | None => None
                  end
              | None => None
              end
        end
      else if nat_of_ascii c <? 32 then None
      else
        match parse_string s' with
        | Some (chars, rest) => Some (String c chars, rest)
        | None => None
        end
  end.

(** [s[n:]] *)
Fixpoint skip (n : nat) (s : string) : string :=
  match n, s with
  | S n', String _ s' => skip n' s'
  | _, _ => s
  end.

(** The characters a number is made of. *)
Definition is_number_char (c : ascii) : bool :=
  let n := nat_of_ascii c in
  (48 <=? n) && (n <=? 57) || (n =? 45) || (n =? 43) || (n =? 46)
  || (n =? 101) || (n =? 69).

(** The characters of an integer: digits and the minus sign. *)
Definition is_int_char (c : ascii) : bool :=
  PyFloatOps.is_digit c || Ascii.eqb c "-".

Fixpoint span_number (s : string) : string * string :=
  match s with
  | EmptyString => (EmptyString, EmptyString)
  | String c s' =>
      if is_number_char c
      then let '(token, rest) := span_number s' in (String c token, rest)
      else (EmptyString, s)
  end.

(** The integer a token stands for: the token is the decimal writing of the
    integer, without a sign for the positive ones and without leading zeros,
    or it is [-0]. *)
Definition parse_int (token : string) : option Z :=
  match DecimalString.NilZero.int_of_string token with
  | Some d =>
      let z := Z.of_int d in
      if String.eqb (str z) token || String.eqb token "-0" then Some z else None
  | None => None
  end.

(** A token with a fraction or an exponent is a float, another an integer. *)
Definition is_float_token (token : string) : bool :=
  negb (all_chars (fun c => negb (Ascii.eqb c "." || Ascii.eqb c "e" || Ascii.eqb c "E"))
                  token).

Definition parse_number (token : string) : option json :=
  if is_float_token token
  then JFloat <$> PyFloatOps.parse_float token
  else JNumber <$> parse_int token.

(** A value and what follows it, [parse_elements] the elements of an array
    from its first element to its closing bracket, [parse_members] the
    members of an object likewise; [None] for a text that is not JSON and when
    [fuel] runs out. *)
Fixpoint parse_value (fuel : nat) (s : string) : option (json * string) :=
  match fuel with
  | O => None
  | S fuel' =>
      match skip_ws s with
      | EmptyString => None
      | String c rest =>
          if Ascii.eqb c "n" then
            if PyStr.startswith rest "ull"
            then Some (JNull, skip 3 rest)
            else None
          else if Ascii.eqb c "t" then
            if PyStr.startswith rest "rue"
            then Some (JBool true, skip 3 rest)
            else None
          else if Ascii.eqb c "f" then
            if PyStr.startswith rest "alse"
            then Some (JBool false, skip 4 rest)
            else None
          else if Ascii.eqb c dquote then
            match parse_string rest with
            | Some (chars, rest') => Some (JString chars, rest')
            | None => None
            end
          else if Ascii.eqb c "[" then
            match skip_ws rest with
            | String c' rest' =>
                if Ascii.eqb c' "]" then Some (JArray [], rest')
                else
                  match parse_elements fuel' (String c' rest') with
                  | Some (l, rest'') => Some (JArray l, rest'')
                  | None => None
                  end
            | EmptyString => None
            end
          else if Ascii.eqb c "{" then
            match skip_ws rest with
            | String c' rest' =>
                if Ascii.eqb c' "}" then Some (JObject [], rest')
                else
                  match parse_members fuel' (String c' rest') with
                  | Some (members, rest'') => Some (JObject members, rest'')
                  | None => None
                  end
            | EmptyString => None
            end
          else if Ascii.eqb c "I" then
            if PyStr.startswith rest "nfinity"
            then Some (JFloat (Inf false), skip 7 rest)
            else None
          else if is_number_char c then
            if Ascii.eqb c "-" && PyStr.startswith rest "Infinity"
            then Some (JFloat (Inf true), skip 8 rest)
            else
              let '(token, rest') := span_number (String c rest) in
              match parse_number token with
              | Some x => Some (x, rest')
              | None => None
              end
          else None
      end
  end

with parse_elements (fuel : nat) (s : string) : option (list json * string) :=
  match fuel with
  | O => None
  | S fuel' =>
      match parse_value fuel' s with
      | Some (x, rest) =>
          match skip_ws rest with
          | String c rest' =>
              if Ascii.eqb c "," then
                match parse_elements fuel' rest' with
                | Some (l, rest'') => Some (x :: l, rest'')
                | None => None
                end
              else if Ascii.eqb c "]" then Some ([x], rest')
              else None
          | EmptyString => None
          end
      | None => None
      end
  end

with parse_members (fuel : nat) (s : string)
  : option (list (string * json) * string) :=
  match fuel with
  | O => None
  | S fuel' =>
      match skip_ws s with
      | String q rest0 =>
          if Ascii.eqb q dquote then
            match parse_string rest0 with
            | Some (key, rest1) =>
                match skip_ws rest1 with
                | String colon rest2 =>
                    if Ascii.eqb colon ":" then
                      match parse_value fuel' rest2 with
                      | Some (x, rest) =>
                          match skip_ws rest with
                          | String c rest' =>
                              if Ascii.eqb c "," then
                                match parse_members fuel' rest' with
                                | Some (l, rest'') => Some ((key, x) :: l, rest'')
                                | None => None
                                end
                              else if Ascii.eqb c "}" then Some ([(key, x)], rest')
                              else None
                          | EmptyString => None
                          end
                      | None => None
                      end
                    else None
                | EmptyString => None
                end
            | None => None
            end
          else None
      | EmptyString => None
      end
  end.

(** What may follow a value in a text: not a character that a number could
    go on with. *)
Definition ends_value (rest : string) : Prop :=
  match rest with
  | EmptyString => True
  | String c _ => is_number_char c = false
  end.

(** A bound on the calls the parser makes for a document. *)
Fixpoint json_size (j : json) : nat :=
  match j with
  | JNull | JBool _ | JNumber _ | JFloat _ | JString _ => 1
  | JArray l => S (list_sum (map (fun x => S (json_size x)) l))
  | JObject members =>
      S (list_sum (map (fun kv => S (json_size kv.2)) members))
  end.

(** The text of [x] is parsed back to [x], whatever its depth and what
    follows it, with fuel for [x]. *)
Definition parses (x : json) : Prop :=
  forall (level : nat) (rest : string) (fuel : nat),
    json_size x <= fuel -> ends_value rest ->
    parse_value fuel (json_text level x +:+ rest) = Some (x, rest).

(** The integers Python writes and reads in decimal: those of 4300 digits at
    most. *)
Definition int_covered (z : Z) : bool :=
  (String.length (str (Z.abs z)) <=? 4300)%nat.

(** The floats with a writing that is read as them: all doubles, by the
    design of [repr]; it is tested here, double by double, not proved. *)
Definition float_covered (x : pyfloat) : bool :=
  match x with
  | Inf _ => true
  | Double _ _ _ =>
      match PyFloatOps.float_repr x with
      | Some token =>
          all_chars is_number_char token
          && match parse_number token with
             | Some (JFloat y) => PyFloatOps.same y x
             | _ => false
             end
      | None => false
      end
  end.

Fixpoint numbers_covered (j : json) : bool :=
  match j with
  | JNull | JBool _ | JString _ => true
  | JNumber z => int_covered z
  | JFloat x => float_covered x
  | JArray l => forallb numbers_covered l
  | JObject members => forallb (fun kv => numbers_covered kv.2) members
  end.

(** The arrays and objects a value is nested in, at most. *)
Fixpoint json_depth (j : json) : nat :=
  match j with
  | JNull | JBool _ | JNumber _ | JFloat _ | JString _ => 0
  | JArray l => S (list_max (map json_depth l))
  | JObject members => S (list_max (map (fun kv => json_depth kv.2) members))
  end.

(** Python's recursion limit, 1000 frames unless it is set, ends the
    encoding and the decoding of a document nested deeper than that, and of
    less deep ones when the call is itself deep in the stack. *)
Definition max_depth : nat := 500.

(** The documents the model writes and reads. *)
Definition covered (j : json) : bool :=
  numbers_covered j && (json_depth j <=? max_depth)%nat.

(** [json.loads(text)]: one value, with nothing but whitespace after it. The
    text has more characters than the parser has calls to make. *)
Definition json_parse (text : string) : option json :=
  match parse_value (S (String.length text)) text with
  | Some (j, rest) =>
      match skip_ws rest with
      | EmptyString => if covered j then Some j else None
      | String _ _ => None
      end
  | None => None
  end.

End JsonText.

(** ** Files *)

(** What a path names: a regular file with its text, as Python decodes it,
    or a directory. *)
Inductive node : Type :=
| RegularFile (content : string)
| Directory.

(** The files of a machine: what each of them holds, and the file a path
    names. Two paths that reach one file, through [.], [..], the working
    directory or a link, resolve alike; a path that names nothing resolves
    to the file that creating it would make. The process may read and write
    every file there is. *)
Record filesystem : Type := {
  nodes : gmap string node;
  resolve : string -> string
}.

(** What the path [p] names. *)
#[global] Instance filesystem_lookup : Lookup string node filesystem :=
  fun p fs => nodes fs !! resolve fs p.

(** The file system with [n] for what [p] names; the paths resolve as they
    did. *)
#[global] Instance filesystem_insert : Insert string node filesystem :=
  fun p n fs => {| nodes := <[resolve fs p := n]> (nodes fs); resolve := resolve fs |}.

(** [Path(p).is_file()] *)
Definition is_file (fs : filesystem) (p : string) : bool :=
  match fs !! p with
  | Some (RegularFile _) => true
  | _ => false
  end.

(** The content of the file at [p], empty for what is not a file. *)
Definition file_content (fs : filesystem) (p : string) : string :=
  match fs !! p with
  | Some (RegularFile content) => content
  | _ => EmptyString
  end.

(** [Path(p).parts] without the root: the segments of [p] between slashes,
    the empty ones and the dots dropped. *)
Definition path_parts (p : string) : list string :=
  List.filter (fun s => negb (String.eqb s "") && negb (String.eqb s "."))
              (PyStr.split "/" p).

(** The path of the segments [parts], from the root or from the working
    directory. *)
Definition path_of_parts (absolute : bool) (parts : list string) : string :=
  match parts with
  | [] => if absolute then "/" else "."
  | _ :: _ => (if absolute then "/" else "") +:+ PyStr.join "/" parts
  end.

(** [str(Path(p))] *)
Definition path_str (p : string) : string :=
  path_of_parts (PyStr.startswith p "/") (path_parts p).

(** The lists [l] begins with, but [l] itself, the longest first. *)
Fixpoint proper_prefixes {A : Type} (l : list A) : list (list A) :=
  match l with
  | [] => []
  | x :: l' => map (cons x) (proper_prefixes l') ++ [[]]
  end.

(** [Path(p).parents]: the directories on the way to [p], the nearest
    first. *)
Definition parents (p : string) : list string :=
  map (path_of_parts (PyStr.startswith p "/")) (proper_prefixes (path_parts p)).

(** The error of opening a path that names nothing: [ENOTDIR] when the
    nearest of its parents that exists is a file, [ENOENT] otherwise. *)
Fixpoint missing_error (fs : filesystem) (parents : list string) : exn :=
  match parents with
  | [] => FileNotFoundError
  | q :: parents' =>
      match fs !! q with
      | Some (RegularFile _) => NotADirectoryError
      | Some Directory => FileNotFoundError
      | None => missing_error fs parents'
      end
  end.

(** A path with a NUL in it is refused before the file system is asked. *)
Definition has_nul (p : string) : bool := negb (PyStr.free_of "000" p).

(** [Path(p).open("r")] and [f.read()]: the text of the file. *)
Definition open_r (fs : filesystem) (p : string) : result string :=
  if has_nul p then Raise ValueError
  else
    match fs !! p with
    | Some (RegularFile content) => Ok content
    | Some Directory => Raise IsADirectoryError
    | None => Raise (missing_error fs (parents p))
    end.

(** [Path(p).open("w")]: a file there is is emptied, a file there is not is
    made in its directory, which has to be there. *)
Definition open_w (fs : filesystem) (p : string) : result unit :=
  if has_nul p then Raise ValueError
  else
    match fs !! p with
    | Some (RegularFile _) => Ok tt
    | Some Directory => Raise IsADirectoryError
    | None =>
        match parents p with
        | q :: _ =>
            match fs !! q with
            | Some Directory => Ok tt
            | _ => Raise (missing_error fs (parents p))
            end
        | [] => Raise FileNotFoundError
        end
    end.

(** The text of a file as Python reads it in text mode: a carriage return,
    alone or before a line feed, is read as one line feed. *)
Fixpoint universal_newlines (s : string) : string :=
  match s with
  | EmptyString => EmptyString
  | String c s' =>
      if Ascii.eqb c "013" then
        match s' with
        | String c' s'' =>
            if Ascii.eqb c' "010" then String "010" (universal_newlines s'')
            else String "010" (universal_newlines s')
        | EmptyString => String "010" EmptyString
        end
      else String c (universal_newlines s')
  end.

(** The lines of a text, each with its line feed when it has one. *)
Fixpoint lines_keepends (s : string) : list string :=
  match s with
  | EmptyString => []
  | String c s' =>
      if Ascii.eqb c "010" then String c EmptyString :: lines_keepends s'
      else match lines_keepends s' with
           | [] => [String c EmptyString]
           | l :: ls => String c l :: ls
           end
  end.

(** [f.readlines()] *)
Definition readlines (content : string) : list string :=
  lines_keepends (universal_newlines content).

(** ** [shared.format_list_column] *)

(** A column is the list of its cells, in row order. *)
Definition format_list_column {A : Type} `{Str A} (col : list (list A)) : list string :=
  map (fun x => PyStr.join ", " (map str x)) col.

(** ** [shared.read_file] *)

Definition read_file (fs : filesystem) (filepath : option string) : list string :=
  match filepath with
  | None => []
  | Some fp =>
      if is_file fs fp
      then map PyStr.rstrip (readlines (file_content fs fp))
      else []
  end.

(** ** [shared.export_to_json] and [shared.load_json] *)

(** The file is opened first; the text is that of the document dumped. The
    callers leave [default] at [list], which [json_dump] has built in. A
    document [JsonText.covered] does not hold of is outside the model. *)
Definition export_to_json (data : pyval) (output_fp : string) (sort_keys : bool)
    (fs : filesystem) : result filesystem :=
  _ ← open_w fs output_fp;
  let document := json_dump sort_keys data in
  if JsonText.covered document
  then Ok (<[output_fp := RegularFile (JsonText.json_text 0 document)]> fs)
  else Raise Unmodelled.

(** The model reads the texts [JsonText.json_parse] reads. A text it does
    not read is either no JSON, and [json.load] raises a [ValueError], or
    JSON outside the model; the model does not tell which. *)
Definition load_json (input_df : string) (fs : filesystem) : result pyval :=
  content ← open_r fs input_df;
  match JsonText.json_parse (universal_newlines content) with
  | Some content => Ok (json_load content)
  | None => Raise Unmodelled
  end.

(** ** [shared.shorten_tool_id] *)

Definition shorten_tool_id (tool : string) : result string :=
  if PyStr.contains "toolshed" tool
  then of_option IndexError (PyStr.index (PyStr.split "/" tool) (-2))
  else Ok tool.

(** ** [shared.get_last_url_position] *)

Definition get_last_url_position (toot_id : string) : result string :=
  if PyStr.contains "/" toot_id
  then of_option IndexError (PyStr.index (PyStr.split "/" toot_id) (-1))
  else Ok toot_id.

(** ** [shared.get_github_repo] *)

(** The two calls made on the [Github] instance. *)
Record Github (U R : Type) : Type := {
  get_user : string -> result U;
  get_repo : U -> string -> result R
}.

Arguments get_user {U R} g login.
Arguments get_repo {U R} g user name.

Definition get_github_repo {U R : Type} (url : string) (g : Github U R) : result R :=
  if negb (PyStr.startswith url "https://github.com/") then Raise ValueError
  else
    let url := if PyStr.endswith url "/" then PyStr.drop_last 1 url else url in
    let url := if PyStr.endswith url ".git" then PyStr.drop_last 4 url else url in
    let u_split := PyStr.split "/" url in
    owner ← of_option IndexError (PyStr.index u_split (-2));
    user ← get_user g owner;
    name ← of_option IndexError (PyStr.index u_split (-1));
    get_repo g user name.

(** ** [shared.reduce_ontology_terms] *)

(** What the function asks of the ontology and of its classes:
    [ontology.search_one(label=term)], [list(cla.subclasses())], which may
    raise, [cla.label], and [==] on classes. *)
Record Ontology (C : Type) : Type := {
  search_one : string -> option C;
  subclasses : C -> result (list C);
  label : C -> list string;
  class_eqb : C -> C -> bool
}.

Arguments search_one {C} o term.
Arguments subclasses {C} o cla.
Arguments label {C} o cla.
Arguments class_eqb {C} o c1 c2.

Section ReduceOntologyTerms.
Context {C : Type} (ontology : Ontology C).

(** The flag after the two nested loops over [subclasses] and [check_classes]. *)
Definition include_class (subs check_classes : list C) : bool :=
  fold_left
    (fun inc subcla =>
       fold_left
         (fun inc cla2 => if class_eqb ontology subcla cla2 then false else inc)
         check_classes inc)
    subs true.

(** The loop over [check_classes]: a class whose [subclasses] call raises an
    [Exception] is reported and left out; what is no [Exception] is not
    caught. *)
Definition add_class (check_classes new_classes : list C) (cla : C)
  : result (list C) :=
  match subclasses ontology cla with
  | Ok subs =>
      Ok (if include_class subs check_classes then new_classes ++ [cla]
          else new_classes)
  | Raise e => if is_Exception e then Ok new_classes else Raise e
  end.

Definition new_classes (check_classes : list C) : result (list C) :=
  fold_result (add_class check_classes) check_classes [].

Definition reduce_ontology_terms (terms : list string) : result (list string) :=
  match terms with
  | [] => Ok terms
  | _ :: _ =>
      let classes := map (search_one ontology) terms in
      let check_classes := omap id classes in
      new_classes ← new_classes check_classes;
      traverse (fun cla => of_option IndexError (PyStr.index (label ontology cla) 0))
               new_classes
  end.

End ReduceOntologyTerms.

(** ** HTTP requests *)

Record request : Type := {
  req_url : string;
  req_headers : gmap string string;
  req_params : list (string * pyval)
}.

(** A response: its status code and what [r.json()] gives. *)
Record response : Type := {
  status_code : Z;
  json_body : result pyval
}.

(** [r.raise_for_status()] *)
Definition raise_for_status (r : response) : result unit :=
  if (400 <=? status_code r) && (status_code r <? 600) then Raise HTTPError
  else Ok tt.

(** What is observable of a run besides its result: the number of requests
    sent and the delays slept, latest first. *)
Record world : Type := {
  requests_made : nat;
  slept : list Q
}.

Definition count_request (w : world) : world :=
  {| requests_made := S (requests_made w); slept := slept w |}.

(** What [time.sleep(delay)] raises, if it raises: [ValueError] on a
    negative delay, [OverflowError] on one whose nanoseconds do not fit 64
    bits, which is checked first. A delay is a rational here and a float in
    the program: within a second of the limit, at 9223372036.85 seconds, the
    rounding of the float decides, and the model leaves it open. *)
Definition sleep_error (delay : Q) : option exn :=
  if Qle_bool 0 delay && Qle_bool delay 9223372036 then None
  else if Qle_bool (-9223372036) delay && Qle_bool delay 0 then Some ValueError
  else if Qle_bool 9223372037 delay || Qle_bool delay (-9223372037)
       then Some OverflowError
  else Some Unmodelled.

(** [time.sleep(delay)] *)
Definition sleep (delay : Q) (w : world) : result world :=
  match sleep_error delay with
  | None => Ok {| requests_made := requests_made w; slept := delay :: slept w |}
  | Some e => Raise e
  end.

(** ** [shared.get_request_json] *)

Section GetRequestJson.
(** [net n req] is the outcome of [requests.get] when it is the [n]-th request
    of the run. *)
Variable net : nat -> request -> result response.
Variables (url : string) (headers : gmap string string).
Variables (retries : Z) (delay : Q).

(** The body of the [try]. *)
Definition get_json_once (w : world) : result pyval :=
  r ← net (requests_made w)
        {| req_url := url; req_headers := headers; req_params := [] |};
  _ ← raise_for_status r;
  json_body r.

(** The [while] loop, entered with [attempt]; [None] when [fuel] iterations
    were not enough to leave it. *)
Fixpoint get_request_json_loop (fuel : nat) (attempt : Z) (w : world)
  : option (result pyval * world) :=
  match fuel with
  | O => None
  | S fuel' =>
      if attempt <? retries then
        let w1 := count_request w in
        match get_json_once w with
        | Ok j => Some (Ok j, w1)
        | Raise e =>
            if is_ConnectionError e then
              let attempt := attempt + 1 in
              if attempt =? retries then Some (Raise ConnectionError, w1)
              else
                (* raised in the handler, [time.sleep]'s exception is not
                   caught by the clauses after it *)
                match sleep delay w1 with
                | Ok w2 => get_request_json_loop fuel' attempt w2
                | Raise e' => Some (Raise e', w1)
                end
            else if is_RequestException e then Some (Raise SystemExit, w1)
            else if is_ValueError e then Some (Raise ValueError, w1)
            else Some (Raise e, w1)
        end
      else Some (Ok (PyDict []), w)
  end.

Definition get_request_json (w : world) : option (result pyval * world) :=
  get_request_json_loop (S (Z.to_nat retries)) 0 w.

End GetRequestJson.

(** The defaults of the signature: [retries = 3], [delay = 2.0]. *)
Definition default_retries : Z := 3.
Definition default_delay : Q := 2 # 1.

(** ** [extract_galaxy_tools.get_all_installed_tool_ids_on_server] *)

Definition USEGALAXY_SERVER_URLS : list (string * string) :=
  [("UseGalaxy.org (Main)", "https://usegalaxy.org");
   ("UseGalaxy.org.au", "https://usegalaxy.org.au");
   ("UseGalaxy.eu", "https://usegalaxy.eu");
   ("UseGalaxy.fr", "https://usegalaxy.fr")].

(** [for x in v] *)
Definition py_iter (v : pyval) : result (list pyval) :=
  match v with
  | PyList l | PyTuple l | PySet l => Ok l
  | PyDict items => Ok (map (fun kv => PyStr kv.1) items)
  | PyStr s => Ok (map (fun c => PyStr (String c EmptyString)) (list_ascii_of_string s))
  | PyNone | PyBool _ | PyInt _ | PyFloat _ => Raise TypeError
  end.

(** [v[k]] for a string [k] *)
Definition py_getitem (v : pyval) (k : string) : result pyval :=
  match v with
  | PyDict items => of_option KeyError (PyDictOps.get items k)
  | _ => Raise TypeError
  end.

Section InstalledTools.
(** The outcome of [requests.get] on a request. *)
Variable http : request -> result response.

(** The body of the [try]. *)
Definition query_tool_ids (galaxy_url : string) : result (list pyval) :=
  let base_url := galaxy_url +:+ "/api" in
  r ← http {| req_url := base_url +:+ "/tools"; req_headers := ∅;
              req_params := [("in_panel", PyBool false)] |};
  _ ← raise_for_status r;
  tool_dict_list ← json_body r;
  tool_dicts ← py_iter tool_dict_list;
  traverse (fun tool_dict => py_getitem tool_dict "id") tool_dicts.

(** The function under its decorator; [except Exception] lets through what
    derives from [BaseException] only. *)
Definition get_all_installed_tool_ids_on_server (galaxy_url : string)
  : result (list pyval) :=
  let galaxy_url := PyStr.rstrip_by (Ascii.eqb "/") galaxy_url in
  match query_tool_ids galaxy_url with
  | Ok tools => Ok tools
  | Raise ex => if is_Exception ex then Ok [] else Raise ex
  end.

(** [@lru_cache], with its default size of 128. The cache keeps its entries
    latest first. A call with an argument it holds answers from the cache, and
    the entry becomes the latest; a result that is computed is stored as the
    latest, and the entry used longest ago goes when the cache is full. A
    call that raises stores nothing. *)
Definition lru_maxsize : nat := 128.

Definition lru_cache {A : Type} (f : string -> result A)
    (cache : list (string * A)) (arg : string) : result A * list (string * A) :=
  match PyDictOps.get cache arg with
  | Some a =>
      (Ok a, (arg, a) :: List.filter (fun kv => negb (String.eqb kv.1 arg)) cache)
  | None =>
      match f arg with
      | Ok a => (Ok a, take lru_maxsize ((arg, a) :: cache))
      | Raise e => (Raise e, cache)
      end
  end.

Definition get_all_installed_tool_ids_on_server_cached :=
  lru_cache get_all_installed_tool_ids_on_server.

End InstalledTools.

(** Modelled from the spec: the installation check of the metadata builder
    ([tool.py] and [tools.py] are not among the sources). "checks set
    membership for each extracted tool id": a tool id counts 1 for a server
    when it is among the ids installed there, and 0 otherwise. *)
Definition reported_installed (installed : list pyval) (tool_id : string) : Z :=
  if existsb (py_eqb (PyStr tool_id)) installed then 1 else 0.

(** ** Tool suites and the status table *)

(** Modelled from the spec: a tool suite ([tool.py] is not among the
    sources), with the attributes of the data model: "wrapper id, owner,
    source repository URL, homepage, list of contained tool ids, EDAM
    operation/topic annotations, ToolShed categories, bio.tools linkage (name,
    id), Conda package reference, deprecated/keep status, first-commit date". *)
Record suite : Type := {
  suite_id : string;
  suite_owner : string;
  suite_source : string;
  homepage : string;
  tool_ids : list string;
  edam_operations : list string;
  edam_topics : list string;
  toolshed_categories : list string;
  biotool_name : option string;
  biotool_id : option string;
  conda_package : option string;
  to_keep : option bool;
  deprecated : option bool;
  first_commit : string
}.

(** A row of the status table, as [to_dict("index")] gives it: the columns
    [To keep] and [Deprecated] under the suite id. *)
Record status_entry : Type := {
  status_keep : bool;
  status_deprecated : bool
}.

(** Modelled from the spec: the annotation of a suite with its status entry
    ([tools.py] is not among the sources). "Deprecated-flagged suites are
    annotated but not necessarily dropped (policy is a pass-through of the
    status file)". *)
Definition assign_status (status : gmap string status_entry) (s : suite) : suite :=
  match status !! suite_id s with
  | None => s
  | Some e =>
      {| suite_id := suite_id s; suite_owner := suite_owner s;
         suite_source := suite_source s; homepage := homepage s;
         tool_ids := tool_ids s; edam_operations := edam_operations s;
         edam_topics := edam_topics s;
         toolshed_categories := toolshed_categories s;
         biotool_name := biotool_name s; biotool_id := biotool_id s;
         conda_package := conda_package s;
         to_keep := Some (status_keep e);
         deprecated := Some (status_deprecated e);
         first_commit := first_commit s |}
  end.

(** Modelled from the spec: "its ToolShed category intersects an allow-list". *)
Definition in_categories (categories : list string) (s : suite) : bool :=
  existsb (fun c => existsb (String.eqb c) categories) (toolshed_categories s).

(** Modelled from the spec: "no status override exists OR the override's keep
    flag is true". *)
Definition status_allows (status : gmap string status_entry) (s : suite) : bool :=
  match status !! suite_id s with
  | None => true
  | Some e => status_keep e
  end.

(** Modelled from the spec: [Tools.filter_tools] ([tools.py] is not among
    the sources). "keep a suite if its ToolShed category intersects an
    allow-list AND (no status override exists OR the override's keep flag is
    true)"; the suites kept carry their status. *)
Definition filter_tools (categories : list string)
    (status : gmap string status_entry) (tools : list suite) : list suite :=
  map (assign_status status)
      (List.filter (fun s => in_categories categories s && status_allows status s) tools).

(** Modelled from the spec: "a non-empty bio.tools linkage field". *)
Definition has_biotools (s : suite) : bool :=
  match biotool_id s with
  | Some (String _ _) => true
  | Some EmptyString | None => false
  end.

(** Modelled from the spec: [Tools.curate_tools] ([tools.py] is not among
    the sources). "Partitions the filtered set into two disjoint output
    collections based solely on presence/absence of a non-empty bio.tools
    linkage field": the suites without the linkage first, as the caller
    unpacks them. *)
Definition curate_tools (status : gmap string status_entry) (tools : list suite)
  : list suite * list suite :=
  let curated := map (assign_status status) tools in
  (List.filter (fun s => negb (has_biotools s)) curated,
   List.filter has_biotools curated).

(** ** The command dispatch of [extract_galaxy_tools.py] *)

(** The namespace [parse_args] returns: the attributes of the main parser and
    of the sub-parser of the command given, and no other. *)
Definition filter_args (all : string) (categories : option string)
    (filtered tsv_filtered : string) (status : option string)
  : gmap string (option string) :=
  list_to_map
    [("command", Some "filter"); ("all", Some all); ("categories", categories);
     ("filtered", Some filtered); ("tsv_filtered", Some tsv_filtered);
     ("status", status)].

Definition curate_args (filtered curated wo_biotools w_biotools : string)
    (status : option string) : gmap string (option string) :=
  list_to_map
    [("command", Some "curate"); ("filtered", Some filtered);
     ("curated", Some curated); ("wo_biotools", Some wo_biotools);
     ("w_biotools", Some w_biotools); ("status", status)].

(** [args.name] *)
Definition getattr (args : gmap string (option string)) (name : string)
  : result (option string) :=
  of_option AttributeError (args !! name).

(** A path argument handed to [Path]: [Path(None)] raises. *)
Definition as_path (a : option string) : result string :=
  of_option TypeError a.

Section Commands.
(** The parts of [tools.py] and of pandas the dispatch calls:
    [Tools.init_by_importing], [Tools.export_tools_to_dict],
    [pd.read_csv(path, sep="\t", index_col=0).to_dict("index")] and
    [Tools.export_tools_to_tsv(path, format_list_col=True,
    to_keep_columns=cols)], which writes its table among the files. *)
Variable init_by_importing : pyval -> result (list suite).
Variable export_tools_to_dict : list suite -> pyval.
Variable read_status :
  option string -> filesystem -> result (gmap string status_entry).
Variable export_tools_to_tsv :
  list suite -> option string -> option (list string) -> filesystem ->
  result filesystem.

(** [if args.status:] *)
Definition truthy (a : option string) : bool :=
  match a with
  | Some (String _ _) => true
  | Some EmptyString | None => false
  end.

(** The branch [args.command == "filter"]. *)
Definition filter_command (args : gmap string (option string))
    (fs : filesystem) : result filesystem :=
  all ← getattr args "all";
  all ← as_path all;
  data ← load_json all fs;
  tools ← init_by_importing data;
  categories_fp ← getattr args "categories";
  let categories := read_file fs categories_fp in
  status_fp ← getattr args "status";
  status ← (if truthy status_fp then read_status status_fp fs else Ok ∅);
  let tools := filter_tools categories status tools in
  match tools with
  | _ :: _ =>
      filtered ← getattr args "filtered";
      filtered ← as_path filtered;
      fs ← export_to_json (export_tools_to_dict tools) filtered true fs;
      tsv_filtered ← getattr args "tsv_filtered";
      export_tools_to_tsv tools tsv_filtered
        (Some ["Suite ID"; "Description"; "To keep"; "Deprecated"]) fs
  | [] => Ok fs
  end.

(** The [try] of the curate branch: a status table that cannot be read is
    an empty one. *)
Definition curate_status (args : gmap string (option string)) (fs : filesystem)
  : result (gmap string status_entry) :=
  match status_fp ← getattr args "status"; read_status status_fp fs with
  | Ok status => Ok status
  | Raise ex => if is_Exception ex then Ok ∅ else Raise ex
  end.

(** The branch [args.command == "curate"]. *)
Definition curate_command (args : gmap string (option string))
    (fs : filesystem) : result filesystem :=
  all ← getattr args "all";
  all ← as_path all;
  data ← load_json all fs;
  tools ← init_by_importing data;
  status ← curate_status args fs;
  let '(tools_wo_biotools, tools_with_biotools) := curate_tools status tools in
  let tools := map (assign_status status) tools in
  match tools with
  | _ :: _ =>
      curated ← getattr args "curated";
      fs ← export_tools_to_tsv tools curated None fs;
      wo_biotools ← getattr args "wo_biotools";
      fs ← export_tools_to_tsv tools_wo_biotools wo_biotools
             (Some ["Suite ID"; "Homepage"; "Suite source"]) fs;
      w_biotools ← getattr args "w_biotools";
      export_tools_to_tsv tools_with_biotools w_biotools
        (Some ["Suite ID"; "bio.tool name"; "EDAM operations"; "EDAM topics"]) fs
  | [] => Ok fs
  end.

End Commands.

(** ** The status table as pandas reads it *)

(** [s.lower()] on the letters of ASCII *)
Fixpoint lower (s : string) : string :=
  match s with
  | EmptyString => EmptyString
  | String c s' =>
      let n := nat_of_ascii c in
      String (if (65 <=? n)%nat && (n <=? 90)%nat then ascii_of_nat (n + 32) else c)
             (lower s')
  end.

(** The paths pandas opens as they are: it takes a path with [://] for a
    URL, expands a leading [~] and decompresses by the extension. *)
Definition plain_path (p : string) : bool :=
  negb (PyStr.contains "://" p) && negb (PyStr.startswith p "~")
  && forallb (fun ext => negb (PyStr.endswith (lower p) ext))
             [".gz"; ".bz2"; ".zip"; ".xz"; ".zst"; ".tar"].

(** [pd.read_csv(path, sep="\t", index_col=0).to_dict("index")] for a path
    to a file of the machine: pandas opens the file, and [parse_status]
    stands for what it makes of its text. *)
Definition read_csv_status
    (parse_status : string -> result (gmap string status_entry))
    (path : option string) (fs : filesystem)
  : result (gmap string status_entry) :=
  match path with
  | None => Raise ValueError
  | Some p =>
      if plain_path p
      then content ← open_r fs p; parse_status content
      else Raise Unmodelled
  end.

(** ** [shared.read_suite_per_tool_id] and [shared.get_edam_operation_from_tools] *)

(** [hash(v)] does not raise: [v] can be the key of a dict and the element of
    a set. *)
Fixpoint hashable (v : pyval) : bool :=
  match v with
  | PyNone | PyBool _ | PyInt _ | PyFloat _ | PyStr _ => true
  | PyTuple l => forallb hashable l
  | PyList _ | PySet _ | PyDict _ => false
  end.

(** A dict with keys of any hashable type, its items in insertion order: a
    key is looked up by [==] against the keys stored. *)
Module PyKeyDict.
Section Dict.
Context {V : Type}.

(** [d.get(k)] *)
Fixpoint get (d : list (pyval * V)) (k : pyval) : option V :=
  match d with
  | [] => None
  | (k', v) :: d' => if py_eqb k' k then Some v else get d' k
  end.

(** [d[k] = v] for a hashable [k]: an existing key keeps its place and its
    spelling, a new one goes last *)
Fixpoint set (d : list (pyval * V)) (k : pyval) (v : V) : list (pyval * V) :=
  match d with
  | [] => [(k, v)]
  | (k', v') :: d' =>
      if py_eqb k' k then (k', v) :: d' else (k', v') :: set d' k v
  end.
End Dict.
End PyKeyDict.

(** The dict display of the inner loop, its values evaluated in order. *)
Definition tool_entry (suite : pyval) : result pyval :=
  wrapper_id ← py_getitem suite "Galaxy wrapper id";
  wrapper_owner ← py_getitem suite "Galaxy wrapper id";
  edam_operation ← py_getitem suite "EDAM operation";
  Ok (PyDict [("Galaxy wrapper id", wrapper_id);
              ("Galaxy wrapper owner", wrapper_owner);
              ("EDAM operation", edam_operation)]).

(** [tools[tool] = entry]: the entry is evaluated first, then the key is
    hashed. *)
Definition add_tool (suite : pyval) (tools : list (pyval * pyval)) (tool : pyval)
  : result (list (pyval * pyval)) :=
  entry ← tool_entry suite;
  if hashable tool then Ok (PyKeyDict.set tools tool entry) else Raise TypeError.

(** The body of the loop over the suites. *)
Definition add_suite (tools : list (pyval * pyval)) (suite : pyval)
  : result (list (pyval * pyval)) :=
  tool_ids ← py_getitem suite "Galaxy tool ids";
  tool_ids ← py_iter tool_ids;
  fold_result (add_tool suite) tool_ids tools.

Definition read_suite_per_tool_id (tool_fp : string) (fs : filesystem)
  : result (list (pyval * pyval)) :=
  tool_suites ← load_json tool_fp fs;
  suites ← py_iter tool_suites;
  fold_result add_suite suites [].

(** A set, its elements in the order they were added; Python leaves the
    order in which a set gives its elements open, and nothing below depends
    on it. [s.add(x)] for a hashable [x]: *)
Definition set_insert (s : list pyval) (x : pyval) : list pyval :=
  if existsb (fun y => py_eqb y x) s then s else s ++ [x].

(** [set(v)] *)
Definition py_set (v : pyval) : result (list pyval) :=
  l ← py_iter v;
  fold_result (fun s x => if hashable x then Ok (set_insert s x) else Raise TypeError)
              l [].

(** The body of the loop over the selected tools: [t in all_tools] hashes
    [t]. *)
Definition add_edam_operation (all_tools : list (pyval * pyval))
    (edam_operation : list pyval) (t : pyval) : result (list pyval) :=
  if hashable t then
    match PyKeyDict.get all_tools t with
    | Some entry =>
        operations ← py_getitem entry "EDAM operation";
        operations ← py_set operations;
        Ok (fold_left set_insert operations edam_operation)
    | None => Ok edam_operation
    end
  else Raise TypeError.

Definition get_edam_operation_from_tools (selected_tools : list pyval)
    (all_tools : list (pyval * pyval)) : result (list pyval) :=
  fold_result (add_edam_operation all_tools) selected_tools [].

(** ** Vocabulary of the statements *)

(** [s'] is [s] without one trailing [suf], or [s] itself when [s] does not
    end with [suf]. *)
Definition stripped (suf s s' : string) : Prop :=
  s = s' +:+ suf \/ (s' = s /\ forall t, s <> t +:+ suf).

(** [s] is not empty and its last character satisfies [p]. *)
Definition ends_in (p : ascii -> bool) (s : string) : bool :=
  match PyStr.last_char s with
  | Some c => p c
  | None => false
  end.


(** The text made of the given lines, each ended by a line feed. *)
Definition text_of_lines (ls : list string) : string :=
  fold_right (fun l text => l +:+ String "010" text) "" ls.

(** [c] is neither a line feed nor a carriage return. *)
Definition not_newline (c : ascii) : bool :=
  negb (Ascii.eqb c "010") && negb (Ascii.eqb c "013").

(** The world after [i] more requests, each followed by a sleep of [delay]. *)
Definition after_retries (delay : Q) (i : nat) (w : world) : world :=
  {| requests_made := requests_made w + i;
     slept := repeat delay i ++ slept w |}.

(** What the [k]-th request of the run comes to, as [get_request_json] sees
    it: a JSON body or the exception of the [try] body. *)
Definition outcome (net : nat -> request -> result response) (url : string)
    (headers : gmap string string) (k : nat) : result pyval :=
  get_json_once net url headers {| requests_made := k; slept := [] |}.

(** What the [k]-th request of the run is answered, when it is the request
    of [get_request_json]: a response, or the exception of [requests.get]. *)
Definition answer (net : nat -> request -> result response) (url : string)
    (headers : gmap string string) (k : nat) : result response :=
  net k {| req_url := url; req_headers := headers; req_params := [] |}.

(** The [try] body fails with [e] at the [k]-th request of the run:
    [requests.get] raises [e], or the response has an error status and [e]
    is the [HTTPError] of [raise_for_status], or [r.json()] raises [e]. *)
Definition fails_with (net : nat -> request -> result response) (url : string)
    (headers : gmap string string) (k : nat) (e : exn) : Prop :=
  answer net url headers k = Raise e
  \/ (exists r, answer net url headers k = Ok r
                /\ 400 <= status_code r < 600 /\ e = HTTPError)
  \/ (exists r, answer net url headers k = Ok r
                /\ ~ 400 <= status_code r < 600 /\ json_body r = Raise e).

(** The status of [r] is an error for [raise_for_status]. *)
Definition error_status (r : response) : Prop := 400 <= status_code r < 600.

(** The request [get_all_installed_tool_ids_on_server] sends for a server. *)
Definition tools_request (galaxy_url : string) : request :=
  {| req_url := (PyStr.rstrip_by (Ascii.eqb "/") galaxy_url +:+ "/api") +:+ "/tools";
     req_headers := ∅;
     req_params := [("in_panel", PyBool false)] |}.

(** The ways the installed-tools query of a server fails: the server cannot
    be reached, it answers with an error status, its answer is not JSON, or
    its JSON is not a sequence of objects with an [id]. *)
Inductive query_fails (http : request -> result response) (galaxy_url : string)
  : Prop :=
| Unreachable (e : exn) :
    http (tools_request galaxy_url) = Raise e -> is_Exception e = true ->
    query_fails http galaxy_url
| ErrorStatus (r : response) :
    http (tools_request galaxy_url) = Ok r ->
    400 <= status_code r < 600 ->
    query_fails http galaxy_url
| NotJson (r : response) (e : exn) :
    http (tools_request galaxy_url) = Ok r ->
    json_body r = Raise e -> is_Exception e = true ->
    query_fails http galaxy_url
| Malformed (r : response) (v : pyval) (e : exn) :
    http (tools_request galaxy_url) = Ok r ->
    json_body r = Ok v ->
    (tool_dicts ← py_iter v;
     traverse (fun tool_dict => py_getitem tool_dict "id") tool_dicts) = Raise e ->
    query_fails http galaxy_url.

(** What is reported for a tool id on a server: 1 when installed, else 0. *)
Definition installed_on (http : request -> result response)
    (galaxy_url tool_id : string) : result Z :=
  installed ← get_all_installed_tool_ids_on_server http galaxy_url;
  Ok (reported_installed installed tool_id).

Section OntologyVocabulary.
Context {C : Type} (ontology : Ontology C).

(** [cla] is the class the ontology finds for [term], and [term] is its
    first label. *)
Definition names_class (term : string) (cla : C) : Prop :=
  search_one ontology term = Some cla
  /\ exists others, label ontology cla = term :: others.

(** The class of [term'] is among the subclasses the ontology lists for the
    class of [term]. *)
Definition subclass_term (term' term : string) : Prop :=
  exists cla cla' subs,
    search_one ontology term = Some cla
    /\ search_one ontology term' = Some cla'
    /\ subclasses ontology cla = Ok subs
    /\ In cla' subs.

(** The classes kept: those whose subclasses can be listed and have none of
    theirs among the classes checked. *)
Definition keeps_class (check_classes : list C) (cla : C) : bool :=
  match subclasses ontology cla with
  | Ok subs => include_class ontology subs check_classes
  | Raise _ => false
  end.

(** The [except] clause deals with what listing the subclasses of [cla]
    raises, if it raises. *)
Definition caught (cla : C) : Prop :=
  forall e, subclasses ontology cla = Raise e -> is_Exception e = true.

(** [sub] is a subclass of [cla]: the ontology lists it for [cla], or for a
    subclass of [cla]. *)
Inductive subclass_of : C -> C -> Prop :=
| listed_subclass (sub cla : C) (subs : list C) :
    subclasses ontology cla = Ok subs -> In sub subs -> subclass_of sub cla
| subclass_of_subclass (sub mid cla : C) :
    subclass_of sub mid -> subclass_of mid cla -> subclass_of sub cla.

(** [subcla] is the class of one of [terms]. *)
Definition class_among (terms : list string) (subcla : C) : bool :=
  existsb (fun term' => match search_one ontology term' with
                        | Some cla2 => class_eqb ontology subcla cla2
                        | None => false
                        end) terms.

(** One of [terms] has its class among the subclasses of the class of [term]. *)
Definition has_subclass_among (terms : list string) (term : string) : bool :=
  match search_one ontology term with
  | Some cla =>
      match subclasses ontology cla with
      | Ok subs => existsb (class_among terms) subs
      | Raise _ => false
      end
  | None => false
  end.

End OntologyVocabulary.

(** [v] with every tuple and every set turned into the list of its
    elements. *)
Fixpoint listified (v : pyval) : pyval :=
  match v with
  | PyNone | PyBool _ | PyInt _ | PyFloat _ | PyStr _ => v
  | PyList l | PyTuple l | PySet l => PyList (map listified l)
  | PyDict items => PyDict (map (fun kv => (kv.1, listified kv.2)) items)
  end.

(** Every dict of [v] is a Python dict: its keys are distinct. *)
Fixpoint distinct_keys (v : pyval) : bool :=
  match v with
  | PyNone | PyBool _ | PyInt _ | PyFloat _ | PyStr _ => true
  | PyList l | PyTuple l | PySet l => forallb distinct_keys l
  | PyDict items =>
      bool_decide (NoDup items.*1) && forallb (fun kv => distinct_keys kv.2) items
  end.

(** The members of every object of [j] are in the order of their keys. *)
Fixpoint keys_sorted (j : json) : Prop :=
  match j with
  | JNull | JBool _ | JNumber _ | JFloat _ | JString _ => True
  | JArray l => fold_right (fun x rest => keys_sorted x /\ rest) True l
  | JObject members =>
      Sorted (fun x y => String.le x.1 y.1) members
      /\ fold_right (fun kv rest => keys_sorted kv.2 /\ rest) True members
  end.

(** The tool ids a suite of the table lists. *)
Definition suite_tool_ids (suite : pyval) : result (list pyval) :=
  tool_ids ← py_getitem suite "Galaxy tool ids";
  py_iter tool_ids.

(** The entry recorded for the tools of a suite with this wrapper id and
    these EDAM operations. *)
Definition entry_of (wrapper_id edam_operation : pyval) : pyval :=
  PyDict [("Galaxy wrapper id", wrapper_id);
          ("Galaxy wrapper owner", wrapper_id);
          ("EDAM operation", edam_operation)].

(** What the table says of an entry: some suite lists the tool id under a
    key equal to it and has this wrapper id and these EDAM operations. *)
Definition recorded (suites : list pyval) (tool entry : pyval) : Prop :=
  hashable tool = true /\
  exists suite tool_ids listed wrapper_id edam_operation,
    In suite suites /\
    suite_tool_ids suite = Ok tool_ids /\
    In listed tool_ids /\ py_eqb tool listed = true /\
    py_getitem suite "Galaxy wrapper id" = Ok wrapper_id /\
    py_getitem suite "EDAM operation" = Ok edam_operation /\
    entry = entry_of wrapper_id edam_operation.

(** No element of [s] is equal to a later one: [s] lists a set. *)
Fixpoint set_like (s : list pyval) : bool :=
  match s with
  | [] => true
  | x :: s' => negb (existsb (py_eqb x) s') && set_like s'
  end.



(** ** Fixtures of the examples *)

(** A GitHub that knows every user and every repository, and answers with
    the names it was asked for. *)
Definition echo_github : Github string (string * string) :=
  {| get_user := fun login => Ok login;
     get_repo := fun user name => Ok (user, name) |}.

(** A working directory with the files given, without links, and the paths
    that start from it: two spellings of a path, [filtered.json] and
    [./filtered.json], name one file. *)
Definition working_directory (files : list (string * node)) : filesystem :=
  {| nodes := list_to_map ((".", Directory) :: files); resolve := path_str |}.

(** A directory [data] and a category list whose lines end in spaces, a
    carriage return and a line feed, a line feed, nothing. *)
Definition sample_fs : filesystem :=
  working_directory
    [("categories.txt",
      RegularFile ("Assembly  " +:+ String "013" (String "010"
                   ("Metagenomics" +:+ String "010" (String "010"
                   ("Sequence Analysis" +:+ String "009" ""))))));
     ("data", Directory)].

(** The start of a run. *)
Definition fresh_world : world := {| requests_made := 0; slept := [] |}.

(** A server that is down. *)
Definition down_net : nat -> request -> result response :=
  fun _ _ => Raise ConnectionError.

(** A server that resets the first two connections and then answers. *)
Definition flaky_net : nat -> request -> result response :=
  fun n _ =>
    if (n <? 2)%nat then Raise ConnectionError
    else Ok {| status_code := 200;
               json_body := Ok (PyDict [("name", PyStr "abricate")]) |}.

(** A server that resets the first connection and then does not answer in
    time. *)
Definition slow_net : nat -> request -> result response :=
  fun n _ => if (n <? 1)%nat then Raise ConnectionError else Raise Timeout.

(** A server that resets the first connection and then answers 404. *)
Definition not_found_net : nat -> request -> result response :=
  fun n _ =>
    if (n <? 1)%nat then Raise ConnectionError
    else Ok {| status_code := 404;
               json_body := Ok (PyDict [("detail", PyStr "Not found")]) |}.

(** A Galaxy server with two tools, one that answers 503, and one whose
    answer is an error object. *)
Definition galaxy_with_tools : request -> result response :=
  fun _ => Ok {| status_code := 200;
                 json_body := Ok (PyList
                   [PyDict [("id", PyStr "upload1"); ("name", PyStr "Upload File")];
                    PyDict [("id", PyStr "toolshed.g2.bx.psu.edu/repos/iuc/abricate/abricate/1.0.1")]]) |}.

Definition galaxy_unavailable : request -> result response :=
  fun _ => Ok {| status_code := 503; json_body := Raise JSONDecodeError |}.

Definition galaxy_error_object : request -> result response :=
  fun _ => Ok {| status_code := 200;
                 json_body := Ok (PyDict [("err_msg", PyStr "Unauthorized")]) |}.

(** A suite of the examples, by its id, its ToolShed categories and its
    bio.tools id. *)
Definition sample_suite (id : string) (categories : list string)
    (biotool : option string) : suite :=
  {| suite_id := id; suite_owner := "iuc";
     suite_source := "https://github.com/galaxyproject/tools-iuc";
     homepage := ""; tool_ids := [id]; edam_operations := []; edam_topics := [];
     toolshed_categories := categories;
     biotool_name := biotool; biotool_id := biotool; conda_package := None;
     to_keep := None; deprecated := None; first_commit := "2024-08-31" |}.

Definition abricate : suite :=
  sample_suite "abricate" ["Sequence Analysis"] (Some "ABRicate").
Definition bakta : suite :=
  sample_suite "bakta" ["Sequence Analysis"; "Assembly"] None.
Definition bedtools : suite :=
  sample_suite "bedtools" ["Genomic Interval Operations"] (Some "bedtools").
Definition krakentools : suite :=
  sample_suite "krakentools" ["Metagenomics"] (Some "").

(** A status table that excludes [bakta] and keeps [abricate] as deprecated. *)
Definition sample_status : gmap string status_entry :=
  list_to_map
    [("bakta", {| status_keep := false; status_deprecated := false |});
     ("abricate", {| status_keep := true; status_deprecated := true |})].

(** A corner of EDAM: Operation > Analysis > Sequence analysis > Sequence
    alignment, and Operation > Visualisation. [subclasses] lists the direct
    subclasses. *)
Inductive edam_class : Type :=
| Operation
| Analysis
| SequenceAnalysis
| SequenceAlignment
| Visualisation.

#[global] Instance edam_class_eq_dec : EqDecision edam_class.
Proof. solve_decision. Defined.

Definition mini_edam : Ontology edam_class :=
  {| search_one := fun term =>
       if String.eqb term "Operation" then Some Operation
       else if String.eqb term "Analysis" then Some Analysis
       else if String.eqb term "Sequence analysis" then Some SequenceAnalysis
       else if String.eqb term "Sequence alignment" then Some SequenceAlignment
       else if String.eqb term "Visualisation" then Some Visualisation
       else None;
     subclasses := fun cla =>
       Ok match cla with
          | Operation => [Analysis; Visualisation]
          | Analysis => [SequenceAnalysis]
          | SequenceAnalysis => [SequenceAlignment]
          | SequenceAlignment | Visualisation => []
          end;
     label := fun cla =>
       match cla with
       | Operation => ["Operation"]
       | Analysis => ["Analysis"]
       | SequenceAnalysis => ["Sequence analysis"]
       | SequenceAlignment => ["Sequence alignment"]
       | Visualisation => ["Visualisation"]
       end;
     class_eqb := fun c1 c2 => bool_decide (c1 = c2) |}.

(** The float a decimal literal denotes. *)
Definition float_literal (digits : N) (exponent : Z) : pyfloat :=
  default (Double false 0 0) (PyFloatOps.float_of_decimal false digits exponent).

(** A collection of two suites as the extraction builds it, with lists, and
    one whose EDAM operations are a set. *)
Definition sample_collection : pyval :=
  PyList
    [PyDict [("Suite ID", PyStr "abricate");
             ("Tool IDs", PyList [PyStr "abricate"; PyStr "abricate_list"]);
             ("EDAM operations", PyList [PyStr "Antimicrobial resistance prediction"]);
             ("bio.tool ID", PyStr "ABRicate");
             ("Deprecated", PyBool false);
             ("Number of tools on UseGalaxy.eu", PyInt 2);
             ("Suite runs per user", PyFloat (float_literal 15265 (-1)))];
     PyDict [("Suite ID", PyStr "bakta");
             ("Tool IDs", PyList [PyStr "bakta"]);
             ("EDAM operations", PyList []);
             ("bio.tool ID", PyNone);
             ("Deprecated", PyNone);
             ("Number of tools on UseGalaxy.eu", PyInt 0);
             ("Suite runs per user", PyFloat (Double false 0 0))]].

Definition collection_with_set : pyval :=
  PyList
    [PyDict [("Suite ID", PyStr "abricate");
             ("EDAM operations",
              PySet [PyStr "Antimicrobial resistance prediction"])]].

(** A suite table in which two suites list the tool [abricate], the file
    that holds it, and the dictionary per tool id made of it. *)
Definition abricate_row : pyval :=
  PyDict [("EDAM operation", PyList [PyStr "Antimicrobial resistance prediction"]);
          ("Galaxy tool ids", PyList [PyStr "abricate"; PyStr "abricate_list"]);
          ("Galaxy wrapper id", PyStr "abricate");
          ("Galaxy wrapper owner", PyStr "iuc")].

Definition abricate_summary_row : pyval :=
  PyDict [("EDAM operation",
           PyList [PyStr "Antimicrobial resistance prediction";
                   PyStr "Genome annotation"]);
          ("Galaxy tool ids", PyList [PyStr "abricate"]);
          ("Galaxy wrapper id", PyStr "abricate_summary");
          ("Galaxy wrapper owner", PyStr "bgruening")].

Definition sample_suite_table : pyval :=
  PyList [abricate_row; abricate_summary_row].

Definition sample_tools_per_id : list (pyval * pyval) :=
  [(PyStr "abricate",
    entry_of (PyStr "abricate_summary")
      (PyList [PyStr "Antimicrobial resistance prediction"; PyStr "Genome annotation"]));
   (PyStr "abricate_list",
    entry_of (PyStr "abricate")
      (PyList [PyStr "Antimicrobial resistance prediction"]))].

Definition suite_table_fs : filesystem :=
  working_directory
    [("all_tools.json",
      RegularFile (JsonText.json_text 0 (json_dump true sample_suite_table)))].

(** Stand-ins for the parts of [tools.py] and of pandas the dispatch calls:
    an import that gives two suites, an export that gives their ids, a table
    written as the ids, one per line, and a status table read as the one
    above. *)
Definition import_sample : pyval -> result (list suite) :=
  fun _ => Ok [abricate; bakta].

Definition suite_ids (tools : list suite) : pyval :=
  PyList (map (fun s => PyDict [("Suite ID", PyStr (suite_id s))]) tools).

Definition write_suite_ids (tools : list suite) (path : option string)
    (cols : option (list string)) (fs : filesystem) : result filesystem :=
  p ← as_path path;
  _ ← open_w fs p;
  Ok (<[p := RegularFile (text_of_lines (map suite_id tools))]> fs).

Definition sample_parse_status : string -> result (gmap string status_entry) :=
  fun _ => Ok sample_status.

(** The files of a run of the filter command: the suites extracted, a
    category list, and two JSON files that are not of the pipeline. *)
Definition pipeline_fs : filesystem :=
  working_directory
    [("all_tools.json",
      RegularFile (JsonText.json_text 0 (json_dump true sample_suite_table)));
     ("categories.txt",
      RegularFile ("Sequence Analysis" +:+ String "010" ("Assembly" +:+ String "010" "")));
     ("numbers.json",
      RegularFile ("[1.5, 1e2, -0.0, -0, Infinity, {" +:+ String JsonText.dquote
                   ("a" +:+ String JsonText.dquote ": null}]")));
     ("nan.json", RegularFile "[NaN]")].

(** * Part II: the properties *)

(** ** Strings *)

Module PyStrFacts.
Import PyStr.

Lemma append_nil_l (s : string) : "" +:+ s = s.
Proof. reflexivity. Qed.

Lemma append_cons (c : ascii) (s t : string) :
  String c s +:+ t = String c (s +:+ t).
Proof. reflexivity. Qed.

Lemma append_nil_r (s : string) : s +:+ "" = s.
Proof. induction s as [|c s IH]; [done|]. by rewrite append_cons, IH. Qed.

Lemma append_assoc (s t u : string) : (s +:+ t) +:+ u = s +:+ (t +:+ u).
Proof. induction s as [|c s IH]; [done|]. by rewrite !append_cons, IH. Qed.

Lemma length_append (s t : string) :
  String.length (s +:+ t) = (String.length s + String.length t)%nat.
Proof. induction s as [|c s IH]; [done|]. rewrite append_cons. simpl. by rewrite IH. Qed.

Lemma startswith_spec (s p : string) :
  startswith s p = true <-> exists r, s = p +:+ r.
Proof.
  revert s. induction p as [|a p IH]; intros s; simpl.
  - split; [intros _; by exists s | done].
  - destruct s as [|b s].
    + split; [done | intros [r Hr]; by rewrite append_cons in Hr].
    + destruct (Ascii.eqb_spec a b) as [->|Hne].
      * rewrite IH. split; intros [r Hr]; exists r.
        -- by rewrite append_cons, Hr.
        -- rewrite append_cons in Hr. by injection Hr.
      * split; [done | intros [r Hr]]. rewrite append_cons in Hr.
        injection Hr as Hb _. congruence.
Qed.

Lemma endswith_spec (s p : string) :
  endswith s p = true <-> exists t, s = t +:+ p.
Proof.
  induction s as [|c s IH]; cbn [endswith].
  - rewrite orb_false_r. split.
    + intros H%String.eqb_eq. by exists "".
    + intros [t Ht]. destruct t; [by rewrite append_nil_l in Ht; subst; simpl|].
      by rewrite append_cons in Ht.
  - rewrite orb_true_iff, IH. split.
    + intros [H%String.eqb_eq|[t Ht]]; [by exists ""|].
      exists (String c t). by rewrite append_cons, Ht.
    + intros [t Ht]. destruct t as [|c' t].
      * left. rewrite append_nil_l in Ht. subst p. apply String.eqb_refl.
      * right. rewrite append_cons in Ht. injection Ht as _ Ht. by exists t.
Qed.

Lemma substring_prefix (t p : string) :
  String.substring 0 (String.length t) (t +:+ p) = t.
Proof.
  induction t as [|c t IH].
  - rewrite append_nil_l. by destruct p.
  - rewrite append_cons. simpl. by rewrite IH.
Qed.

Lemma drop_last_append (t p : string) :
  drop_last (String.length p) (t +:+ p) = t.
Proof.
  unfold drop_last. rewrite length_append.
  replace (String.length t + String.length p - String.length p)%nat
    with (String.length t) by lia.
  apply substring_prefix.
Qed.

Lemma split_not_nil (sep : ascii) (s : string) : split sep s <> [].
Proof.
  destruct s as [|c s]; simpl; [done|].
  destruct (Ascii.eqb c sep); [done|]. by destruct (split sep s).
Qed.

Lemma split_free_of (sep : ascii) (s : string) :
  Forall (fun seg => free_of sep seg = true) (split sep s).
Proof.
  induction s as [|c s IH]; simpl.
  - by repeat constructor.
  - destruct (Ascii.eqb c sep) eqn:Hc.
    + by constructor.
    + destruct (split sep s) as [|seg segs].
      * repeat constructor. simpl. by rewrite Hc.
      * inversion IH; subst. constructor; [|done]. simpl. by rewrite Hc.
Qed.

Lemma join_cons (sep s : string) (l : list string) :
  l <> [] -> join sep (s :: l) = s +:+ sep +:+ join sep l.
Proof. by destruct l. Qed.

Lemma join_split (sep : ascii) (s : string) :
  join (String sep "") (split sep s) = s.
Proof.
  induction s as [|c s IH]; [done|]. simpl split.
  destruct (Ascii.eqb_spec c sep) as [->|Hne].
  - rewrite join_cons by apply split_not_nil. by rewrite IH.
  - pose proof (split_not_nil sep s) as Hnil.
    destruct (split sep s) as [|seg segs]; [done|].
    destruct segs as [|seg' segs].
    + simpl in *. by rewrite IH.
    + rewrite join_cons in * by done. by rewrite append_cons, IH.
Qed.

Lemma split_free (sep : ascii) (s : string) :
  free_of sep s = true -> split sep s = [s].
Proof.
  induction s as [|c s IH]; [done|]. simpl.
  intros [Hc Hs]%andb_true_iff. apply negb_true_iff in Hc.
  by rewrite Hc, (IH Hs).
Qed.

Lemma split_append (sep : ascii) (s t : string) :
  free_of sep s = true ->
  split sep (s +:+ String sep t) = s :: split sep t.
Proof.
  induction s as [|c s IH]; intros Hs.
  - rewrite append_nil_l. simpl. by rewrite Ascii.eqb_refl.
  - simpl in Hs. apply andb_true_iff in Hs as [Hc Hs]. apply negb_true_iff in Hc.
    rewrite append_cons. simpl. by rewrite Hc, (IH Hs).
Qed.

Lemma split_join (sep : ascii) (l : list string) :
  l <> [] -> Forall (fun seg => free_of sep seg = true) l ->
  split sep (join (String sep "") l) = l.
Proof.
  induction l as [|s l IH]; [done|]. intros _ Hfree.
  inversion Hfree as [|? ? Hs Hl]; subst.
  destruct l as [|s' l].
  - by apply split_free.
  - rewrite join_cons by done. rewrite append_cons, append_nil_l.
    rewrite split_append by done. by rewrite IH.
Qed.

Lemma contains_split_length (sep : ascii) (s : string) :
  contains (String sep "") s = true -> (2 <= length (split sep s))%nat.
Proof.
  induction s as [|c s IH]; simpl; [done|].
  pose proof (split_not_nil sep s) as Hnil.
  destruct (Ascii.eqb_spec sep c) as [<-|Hne].
  - intros _. rewrite Ascii.eqb_refl. simpl.
    destruct (split sep s); [done | simpl; lia].
  - simpl. intros H. specialize (IH H).
    destruct (Ascii.eqb_spec c sep) as [->|_]; [done|].
    destruct (split sep s); simpl in *; lia.
Qed.

Lemma last_two {A : Type} (l : list A) :
  (2 <= length l)%nat -> exists pre a b, l = pre ++ [a; b].
Proof.
  intros Hlen.
  destruct (rev l) as [|b [|a pre]] eqn:Hrev.
  - apply (f_equal (@length A)) in Hrev. rewrite length_rev in Hrev. simpl in *. lia.
  - apply (f_equal (@length A)) in Hrev. rewrite length_rev in Hrev. simpl in *. lia.
  - exists (rev pre), a, b.
    apply (f_equal (@rev A)) in Hrev. rewrite rev_involutive in Hrev.
    rewrite Hrev. simpl. by rewrite <- app_assoc.
Qed.

Lemma index_negative {A : Type} (l : list A) (k : nat) :
  (1 <= k <= length l)%nat -> index l (- Z.of_nat k) = l !! (length l - k)%nat.
Proof.
  intros Hk. unfold index.
  destruct (Z.ltb_spec (- Z.of_nat k) 0); [|lia].
  destruct (Z.leb_spec 0 (- Z.of_nat k + Z.of_nat (length l))); [|lia].
  destruct (Z.ltb_spec (- Z.of_nat k + Z.of_nat (length l)) (Z.of_nat (length l)));
    [|lia].
  simpl. f_equal. lia.
Qed.

Lemma index_second_last {A : Type} (pre : list A) (a b : A) :
  index (pre ++ [a; b]) (-2) = Some a.
Proof.
  change (-2) with (- Z.of_nat 2). rewrite index_negative.
  - rewrite length_app. simpl length.
    replace (length pre + 2 - 2)%nat with (length pre + 0)%nat by lia.
    by rewrite lookup_app_r, Nat.add_0_r, Nat.sub_diag by lia.
  - rewrite length_app. simpl. lia.
Qed.

Lemma index_last {A : Type} (pre : list A) (a b : A) :
  index (pre ++ [a; b]) (-1) = Some b.
Proof.
  change (-1) with (- Z.of_nat 1). rewrite index_negative.
  - rewrite length_app. simpl length.
    replace (length pre + 2 - 1)%nat with (length pre + 1)%nat by lia.
    rewrite lookup_app_r by lia.
    by replace (length pre + 1 - length pre)%nat with 1%nat by lia.
  - rewrite length_app. simpl. lia.
Qed.

End PyStrFacts.

(** ** [shorten_tool_id] *)

Example shorten_tool_id_toolshed :
  shorten_tool_id "toolshed.g2.bx.psu.edu/repos/iuc/abricate/abricate/1.0.1"
  = Ok "abricate".
Proof. reflexivity. Qed.

Example shorten_tool_id_local : shorten_tool_id "upload1" = Ok "upload1".
Proof. reflexivity. Qed.

(** An id that mentions the tool shed but has no "/" has no second-to-last
    segment: the subscript raises. *)
Example shorten_tool_id_no_slash : shorten_tool_id "toolshed" = Raise IndexError.
Proof. reflexivity. Qed.

(** C9: an id that does not contain "toolshed" is returned unchanged; an id
    that contains "toolshed" and at least one "/" is the "/"-join of its
    "/"-free segments, of which there are at least two, and the
    second-to-last of them is returned. *)
Theorem shorten_tool_id_spec (tool : string) :
  (PyStr.contains "toolshed" tool = false -> shorten_tool_id tool = Ok tool) /\
  (PyStr.contains "toolshed" tool = true -> PyStr.contains "/" tool = true ->
   exists pre seg last,
     PyStr.split "/" tool = pre ++ [seg; last] /\
     tool = PyStr.join "/" (pre ++ [seg; last]) /\
     Forall (fun s => PyStr.free_of "/" s = true) (pre ++ [seg; last]) /\
     shorten_tool_id tool = Ok seg).
Proof.
  unfold shorten_tool_id. split.
  - by intros ->.
  - intros -> Hslash.
    destruct (PyStrFacts.last_two (PyStr.split "/" tool)) as (pre & seg & last & Hsplit).
    { by apply PyStrFacts.contains_split_length. }
    exists pre, seg, last. repeat split.
    + done.
    + by rewrite <- Hsplit, PyStrFacts.join_split.
    + rewrite <- Hsplit. apply PyStrFacts.split_free_of.
    + by rewrite Hsplit, PyStrFacts.index_second_last.
Qed.

Lemma shorten_tool_id_spec_witness :
  shorten_tool_id "upload1" = Ok "upload1" /\
  exists pre seg last,
    PyStr.split "/" "toolshed.g2.bx.psu.edu/repos/iuc/abricate/abricate/1.0.1"
    = pre ++ [seg; last] /\
    "toolshed.g2.bx.psu.edu/repos/iuc/abricate/abricate/1.0.1"
    = PyStr.join "/" (pre ++ [seg; last]) /\
    Forall (fun s => PyStr.free_of "/" s = true) (pre ++ [seg; last]) /\
    shorten_tool_id "toolshed.g2.bx.psu.edu/repos/iuc/abricate/abricate/1.0.1"
    = Ok seg.
Proof.
  split.
  - apply (proj1 (shorten_tool_id_spec "upload1")). reflexivity.
  - apply (proj2 (shorten_tool_id_spec
                    "toolshed.g2.bx.psu.edu/repos/iuc/abricate/abricate/1.0.1"));
      reflexivity.
Defined.

(** The segments of an id are determined by the id: the only way to write it
    as a "/"-join of "/"-free segments is the one [split] finds. *)
Lemma shorten_tool_id_segments (pre : list string) (seg last : string) :
  Forall (fun s => PyStr.free_of "/" s = true) (pre ++ [seg; last]) ->
  PyStr.contains "toolshed" (PyStr.join "/" (pre ++ [seg; last])) = true ->
  shorten_tool_id (PyStr.join "/" (pre ++ [seg; last])) = Ok seg.
Proof.
  intros Hfree Hshed. unfold shorten_tool_id. rewrite Hshed.
  rewrite PyStrFacts.split_join; [|by destruct pre|done].
  by rewrite PyStrFacts.index_second_last.
Qed.

(** ** [get_github_repo] *)

Section GetGithubRepo.
Context {U R : Type} (g : Github U R).

Lemma stripped_suffix (suf s : string) :
  stripped suf s
    (if PyStr.endswith s suf then PyStr.drop_last (String.length suf) s else s).
Proof.
  destruct (PyStr.endswith s suf) eqn:Hends.
  - apply PyStrFacts.endswith_spec in Hends as [t ->].
    left. by rewrite PyStrFacts.drop_last_append.
  - right. split; [done|]. intros t ->.
    assert (PyStr.endswith (t +:+ suf) suf = true) as Hyes
      by (apply PyStrFacts.endswith_spec; by exists t).
    congruence.
Qed.

Lemma stripped_prefix (suf s s' : string) :
  stripped suf s s' ->
  exists x, s = s' +:+ x /\ (String.length x <= String.length suf)%nat.
Proof.
  intros [->|[-> _]].
  - by exists suf.
  - exists "". rewrite PyStrFacts.append_nil_r. split; [done | simpl; lia].
Qed.

Lemma stripped_unique (suf s s1 s2 : string) :
  stripped suf s s1 -> stripped suf s s2 -> s1 = s2.
Proof.
  assert (forall a b : string, a +:+ suf = b +:+ suf -> a = b) as Hinj.
  { intros a. induction a as [|c a IH]; intros [|d b] Heq.
    - done.
    - apply (f_equal String.length) in Heq.
      rewrite PyStrFacts.append_nil_l, PyStrFacts.length_append in Heq. simpl in Heq. lia.
    - apply (f_equal String.length) in Heq.
      rewrite PyStrFacts.append_nil_l, PyStrFacts.length_append in Heq. simpl in Heq. lia.
    - rewrite !PyStrFacts.append_cons in Heq. injection Heq as -> Heq.
      by rewrite (IH _ Heq). }
  intros [H1|[H1 N1]] [H2|[H2 N2]]; subst.
  - by apply Hinj.
  - by destruct (N2 s1).
  - by destruct (N1 s2).
  - done.
Qed.

Lemma prefix_of_append (t x p r : string) :
  t +:+ x = p +:+ r -> (String.length p <= String.length t)%nat ->
  exists r', t = p +:+ r'.
Proof.
  revert t. induction p as [|a p IH]; intros t Heq Hlen.
  - by exists t.
  - destruct t as [|b t]; [simpl in Hlen; lia|].
    rewrite !PyStrFacts.append_cons in Heq. injection Heq as -> Heq.
    destruct (IH t Heq) as [r' ->]; [simpl in Hlen; lia|].
    by exists r'.
Qed.

(** C10: a URL that does not start with "https://github.com/" raises
    [ValueError]; for one that does, with [u1] the URL without one trailing
    "/" and [u2] that without a trailing ".git", the last two "/"-separated
    segments of [u2] are the owner and the repository name asked of GitHub. *)
Theorem get_github_repo_spec (url : string) :
  (PyStr.startswith url "https://github.com/" = false ->
   get_github_repo url g = Raise ValueError) /\
  (PyStr.startswith url "https://github.com/" = true ->
   exists u1 u2 pre owner name,
     stripped "/" url u1 /\ stripped ".git" u1 u2 /\
     PyStr.split "/" u2 = pre ++ [owner; name] /\
     get_github_repo url g = (user ← get_user g owner; get_repo g user name)).
Proof.
  unfold get_github_repo. split; intros Hstart; rewrite Hstart; [done|].
  simpl negb. cbv iota.
  pose proof (stripped_suffix "/" url) as H1.
  set (u1 := if PyStr.endswith url "/" then _ else url) in *.
  pose proof (stripped_suffix ".git" u1) as H2.
  set (u2 := if PyStr.endswith u1 ".git" then _ else u1) in *.
  change (String.length "/") with 1%nat in H1.
  change (String.length ".git") with 4%nat in H2.
  assert (2 <= length (PyStr.split "/" u2))%nat as Hlen.
  { apply PyStrFacts.contains_split_length.
    apply PyStrFacts.startswith_spec in Hstart as [r Hr].
    destruct (stripped_prefix _ _ _ H1) as (x1 & Hx1 & Hl1).
    destruct (stripped_prefix _ _ _ H2) as (x2 & Hx2 & Hl2).
    simpl in Hl1, Hl2.
    assert (String.length url = 19 + String.length r)%nat as Hurl
      by (by rewrite Hr, PyStrFacts.length_append).
    assert (String.length url = String.length u2 + String.length x2 + String.length x1)%nat
      as Hsum by (by rewrite Hx1, Hx2, !PyStrFacts.length_append).
    destruct (prefix_of_append u2 (x2 +:+ x1) "https://" ("github.com/" +:+ r))
      as [r' ->].
    - by rewrite <- PyStrFacts.append_assoc, <- Hx2, <- Hx1, Hr.
    - simpl. lia.
    - reflexivity. }
  destruct (PyStrFacts.last_two _ Hlen) as (pre & owner & name & Hsplit).
  exists u1, u2, pre, owner, name. repeat split; [done..|].
  by rewrite Hsplit, PyStrFacts.index_second_last, PyStrFacts.index_last.
Qed.

End GetGithubRepo.

Example get_github_repo_plain :
  get_github_repo "https://github.com/galaxyproject/tools-iuc" echo_github
  = Ok ("galaxyproject", "tools-iuc").
Proof. reflexivity. Qed.

Example get_github_repo_git_slash :
  get_github_repo "https://github.com/galaxyproject/tools-iuc.git/" echo_github
  = Ok ("galaxyproject", "tools-iuc").
Proof. reflexivity. Qed.

(** The "/" is looked for before the ".git", and once: a "/" that the ".git"
    hid stays and leaves an empty last segment. *)
Example get_github_repo_slash_git :
  get_github_repo "https://github.com/galaxyproject/tools-iuc/.git" echo_github
  = Ok ("tools-iuc", "").
Proof. reflexivity. Qed.

Example get_github_repo_other_host :
  get_github_repo "https://gitlab.com/galaxyproject/tools-iuc" echo_github
  = Raise ValueError.
Proof. reflexivity. Qed.

Lemma get_github_repo_spec_witness :
  get_github_repo "http://github.com/a/b" echo_github = Raise ValueError /\
  exists u1 u2 pre owner name,
    stripped "/" "https://github.com/bgruening/galaxytools.git/" u1 /\
    stripped ".git" u1 u2 /\
    PyStr.split "/" u2 = pre ++ [owner; name] /\
    get_github_repo "https://github.com/bgruening/galaxytools.git/" echo_github
    = (user ← get_user echo_github owner; get_repo echo_github user name).
Proof.
  split.
  - apply (proj1 (get_github_repo_spec echo_github "http://github.com/a/b")).
    reflexivity.
  - apply (proj2 (get_github_repo_spec echo_github
                    "https://github.com/bgruening/galaxytools.git/")).
    reflexivity.
Defined.

(** ** [format_list_column] *)

Example format_list_column_strings :
  format_list_column [["Assembly"; "Annotation"]; []; ["Mapping"]]
  = ["Assembly, Annotation"; ""; "Mapping"].
Proof. reflexivity. Qed.

Example format_list_column_numbers :
  format_list_column [[3; -14; 0]] = ["3, -14, 0"].
Proof. reflexivity. Qed.

Lemma join_two (sep a b : string) : PyStr.join sep [a; b] = a +:+ sep +:+ b.
Proof. reflexivity. Qed.

Lemma join_app_one (sep : string) (l : list string) (a : string) :
  l <> [] -> PyStr.join sep (l ++ [a]) = PyStr.join sep l +:+ sep +:+ a.
Proof.
  induction l as [|b l IH]; [done|]. intros _.
  destruct l as [|b' l]; [done|].
  change ((b :: b' :: l) ++ [a]) with (b :: ((b' :: l) ++ [a])).
  rewrite !PyStrFacts.join_cons by (done || by destruct l).
  rewrite IH by done. by rewrite !PyStrFacts.append_assoc.
Qed.

(** The join of a list that is not empty: its first element, then each other
    element after a separator. *)
Lemma join_separators (sep a : string) (rest : list string) :
  PyStr.join sep (a :: rest)
  = a +:+ fold_right (fun e text => sep +:+ e +:+ text) "" rest.
Proof.
  revert a. induction rest as [|b rest IH]; intros a.
  - simpl. by rewrite PyStrFacts.append_nil_r.
  - rewrite PyStrFacts.join_cons by done. by rewrite IH.
Qed.

(** C7: the formatted column has one cell per cell of the column, and the
    cell of each row is the string of the elements of the row's list, each
    turned to a string, joined by commas: nothing for an empty list, and
    otherwise the first element followed by each other element after a comma
    and a space. *)
Theorem format_list_column_spec {A : Type} `{Str A} (col : list (list A)) :
  length (format_list_column col) = length col /\
  (forall (i : nat) (x : list A),
     col !! i = Some x ->
     format_list_column col !! i = Some (PyStr.join ", " (map str x))) /\
  (forall i : nat, col !! i = Some [] -> format_list_column col !! i = Some "") /\
  (forall (i : nat) (a : A) (rest : list A),
     col !! i = Some (a :: rest) ->
     format_list_column col !! i
     = Some (str a +:+ fold_right (fun e text => ", " +:+ str e +:+ text) "" rest)).
Proof.
  assert (forall (i : nat) (x : list A),
            col !! i = Some x ->
            format_list_column col !! i = Some (PyStr.join ", " (map str x)))
    as Hcell.
  { intros i x Hi. unfold format_list_column.
    change (map ?f col) with (f <$> col).
    by rewrite list_lookup_fmap, Hi. }
  split; [apply length_map|]. split; [done|]. split.
  - intros i Hi. by rewrite (Hcell i []).
  - intros i a rest Hi. rewrite (Hcell i (a :: rest)) by done.
    cbn [map]. rewrite join_separators. do 2 f_equal. clear Hi.
    induction rest as [|b rest IH]; [done|]. simpl. by rewrite IH.
Qed.

Lemma format_list_column_spec_witness :
  format_list_column [["iuc"; "bgruening"]; ["nml"]] !! 0%nat
  = Some (PyStr.join ", " (map str ["iuc"; "bgruening"]))
  /\ format_list_column [["iuc"; "bgruening"]; ["nml"]] !! 0%nat
     = Some (str "iuc" +:+ fold_right (fun e text => ", " +:+ str e +:+ text) ""
                             ["bgruening"]).
Proof.
  split.
  - apply (proj1 (proj2 (format_list_column_spec [["iuc"; "bgruening"]; ["nml"]]))
             0%nat).
    reflexivity.
  - apply (proj2 (proj2 (proj2 (format_list_column_spec
                                  [["iuc"; "bgruening"]; ["nml"]])))
             0%nat "iuc" ["bgruening"]).
    reflexivity.
Defined.

(** ** [read_file] *)

Section Rstrip.
Variable p : ascii -> bool.

Lemma rstrip_by_split (s : string) :
  exists w, s = PyStr.rstrip_by p s +:+ w /\ all_chars p w = true.
Proof.
  induction s as [|c s (w & Hs & Hw)]; [by exists ""|].
  simpl. destruct (PyStr.rstrip_by p s) as [|c' r].
  - rewrite PyStrFacts.append_nil_l in Hs. subst w.
    destruct (p c) eqn:Hc.
    + exists (String c s). simpl. by rewrite Hc, Hw.
    + by exists s.
  - exists w. by rewrite PyStrFacts.append_cons, <- Hs.
Qed.

Lemma rstrip_by_end (s : string) : ends_in p (PyStr.rstrip_by p s) = false.
Proof.
  unfold ends_in. induction s as [|c s IH]; [done|].
  simpl. destruct (PyStr.rstrip_by p s) as [|c' r].
  - destruct (p c) eqn:Hc; [done | simpl; by rewrite Hc].
  - done.
Qed.

Lemma rstrip_by_all (w : string) :
  all_chars p w = true -> PyStr.rstrip_by p w = "".
Proof.
  induction w as [|c w IH]; [done|]. simpl.
  intros [Hc Hw]%andb_true_iff. by rewrite (IH Hw), Hc.
Qed.

Lemma rstrip_by_append (s w : string) :
  all_chars p w = true -> PyStr.rstrip_by p (s +:+ w) = PyStr.rstrip_by p s.
Proof.
  intros Hw. induction s as [|c s IH].
  - rewrite PyStrFacts.append_nil_l. by apply rstrip_by_all.
  - rewrite PyStrFacts.append_cons. simpl. by rewrite IH.
Qed.

End Rstrip.


Lemma universal_newlines_id (s : string) :
  all_chars (fun c => negb (Ascii.eqb c "013")) s = true ->
  universal_newlines s = s.
Proof.
  induction s as [|c s IH]; [done|]. simpl.
  intros [Hc Hs]%andb_true_iff. apply negb_true_iff in Hc.
  by rewrite Hc, (IH Hs).
Qed.

Lemma all_chars_append (q : ascii -> bool) (s t : string) :
  all_chars q (s +:+ t) = all_chars q s && all_chars q t.
Proof.
  induction s as [|c s IH]; [done|].
  rewrite PyStrFacts.append_cons. simpl. by rewrite IH, andb_assoc.
Qed.

Lemma all_chars_impl (q q' : ascii -> bool) (s : string) :
  (forall c, q c = true -> q' c = true) ->
  all_chars q s = true -> all_chars q' s = true.
Proof.
  intros Hq. induction s as [|c s IH]; [done|]. simpl.
  intros [Hc Hs]%andb_true_iff. by rewrite (Hq _ Hc), (IH Hs).
Qed.

Lemma lines_keepends_line (l text : string) :
  all_chars (fun c => negb (Ascii.eqb c "010")) l = true ->
  lines_keepends (l +:+ String "010" text)
  = (l +:+ String "010" "") :: lines_keepends text.
Proof.
  induction l as [|c l IH]; [done|]. intros [Hc Hl]%andb_true_iff.
  apply negb_true_iff in Hc.
  rewrite !PyStrFacts.append_cons. simpl. by rewrite Hc, (IH Hl).
Qed.

Lemma readlines_text_of_lines (ls : list string) :
  Forall (fun l => all_chars not_newline l = true) ls ->
  readlines (text_of_lines ls) = map (fun l => l +:+ String "010" "") ls.
Proof.
  intros Hls. unfold readlines.
  rewrite universal_newlines_id.
  - induction Hls as [|l ls Hl Hls IH]; [done|]. simpl.
    rewrite lines_keepends_line, IH; [done|].
    eapply all_chars_impl; [|exact Hl].
    unfold not_newline. by intros c [? _]%andb_true_iff.
  - induction Hls as [|l ls Hl Hls IH]; [done|]. simpl.
    rewrite all_chars_append. simpl. rewrite IH, andb_true_r.
    eapply all_chars_impl; [|exact Hl].
    unfold not_newline. by intros c [_ ?]%andb_true_iff.
Qed.






(** A file holding the lines [ls] is read back as [ls], each without its
    trailing whitespace. *)
Corollary read_file_text_of_lines (fs : filesystem) (fp : string)
    (ls : list string) :
  Forall (fun l => all_chars not_newline l = true) ls ->
  fs !! fp = Some (RegularFile (text_of_lines ls)) ->
  read_file fs (Some fp) = map PyStr.rstrip ls.
Proof.
  intros Hls Hfp. unfold read_file, is_file, file_content.
  rewrite Hfp, readlines_text_of_lines by done.
  rewrite map_map. apply map_ext. intros l.
  unfold PyStr.rstrip. by apply rstrip_by_append.
Qed.

Example read_file_categories :
  read_file sample_fs (Some "categories.txt")
  = ["Assembly"; "Metagenomics"; ""; "Sequence Analysis"].
Proof. vm_compute. reflexivity. Qed.

Example read_file_directory : read_file sample_fs (Some "data") = [].
Proof. vm_compute. reflexivity. Qed.

Example read_file_missing : read_file sample_fs (Some "status.tsv") = [].
Proof. vm_compute. reflexivity. Qed.




(** ** [get_request_json] *)

Section GetRequestJsonFacts.
Variable net : nat -> request -> result response.
Variables (url : string) (headers : gmap string string).
Variables (retries : Z) (delay : Q).
Hypothesis Hdelay : sleep_error delay = None.

Abbreviation loop := (get_request_json_loop net url headers retries delay).
Abbreviation once := (get_json_once net url headers).
Abbreviation nth_outcome := (outcome net url headers).

Lemma once_outcome (w : world) : once w = nth_outcome (requests_made w).
Proof. reflexivity. Qed.

Lemma after_retries_0 (w : world) : after_retries delay 0 w = w.
Proof. destruct w as [k sl]. unfold after_retries. simpl. by rewrite Nat.add_0_r. Qed.

Lemma sleep_Ok (w : world) :
  sleep delay w = Ok {| requests_made := requests_made w; slept := delay :: slept w |}.
Proof. unfold sleep. by rewrite Hdelay. Qed.

Lemma after_retries_S (i : nat) (w : world) :
  after_retries delay i
    {| requests_made := S (requests_made w); slept := delay :: slept w |}
  = after_retries delay (S i) w.
Proof.
  destruct w as [k sl]. unfold after_retries. simpl.
  f_equal; [lia|].
  change (delay :: repeat delay i ++ sl) with ((delay :: repeat delay i) ++ sl).
  rewrite repeat_cons. by rewrite <- app_assoc.
Qed.

(** As long as the requests raise [ConnectionError] and attempts are left,
    the loop counts the request, sleeps and goes round. *)
Lemma loop_retry (i : nat) :
  forall (fuel : nat) (attempt : Z) (w : world),
    attempt + Z.of_nat i < retries ->
    (forall i' : nat, (i' < i)%nat ->
                      nth_outcome (requests_made w + i') = Raise ConnectionError) ->
    loop (i + fuel)%nat attempt w
    = loop fuel (attempt + Z.of_nat i) (after_retries delay i w).
Proof.
  induction i as [|i IH]; intros fuel attempt w Hlt Hconn.
  - by rewrite after_retries_0, Z.add_0_r.
  - change (S i + fuel)%nat with (S (i + fuel)). cbn [get_request_json_loop].
    destruct (Z.ltb_spec attempt retries); [|lia].
    assert (nth_outcome (requests_made w) = Raise ConnectionError) as Hfirst.
    { rewrite <- (Nat.add_0_r (requests_made w)). apply Hconn. lia. }
    rewrite once_outcome, Hfirst. cbn [is_ConnectionError].
    destruct (Z.eqb_spec (attempt + 1) retries); [lia|].
    rewrite sleep_Ok. cbn [count_request requests_made slept].
    rewrite IH.
    + rewrite after_retries_S. f_equal. lia.
    + lia.
    + intros i' Hi'. cbn [requests_made].
      replace (S (requests_made w) + i')%nat
        with (requests_made w + S i')%nat by lia.
      apply Hconn. lia.
Qed.

(** The run up to the attempt of index [i], when all before it raised
    [ConnectionError]. *)
Lemma get_request_json_at (i : nat) (w : world) :
  Z.of_nat i < retries ->
  (forall i' : nat, (i' < i)%nat ->
                    nth_outcome (requests_made w + i') = Raise ConnectionError) ->
  get_request_json net url headers retries delay w
  = loop (S (Z.to_nat retries - i)) (Z.of_nat i) (after_retries delay i w).
Proof.
  intros Hlt Hconn. unfold get_request_json.
  replace (S (Z.to_nat retries)) with (i + S (Z.to_nat retries - i))%nat by lia.
  rewrite loop_retry by (done || lia). by rewrite Z.add_0_l.
Qed.

(** A request that succeeds after [i] connection errors: its JSON body is
    returned. *)
Lemma get_request_json_success (i : nat) (w : world) (j : pyval) :
  Z.of_nat i < retries ->
  (forall i' : nat, (i' < i)%nat ->
                    nth_outcome (requests_made w + i') = Raise ConnectionError) ->
  nth_outcome (requests_made w + i) = Ok j ->
  get_request_json net url headers retries delay w
  = Some (Ok j, count_request (after_retries delay i w)).
Proof.
  intros Hlt Hconn Hok. rewrite (get_request_json_at i) by done.
  cbn [get_request_json_loop].
  destruct (Z.ltb_spec (Z.of_nat i) retries); [|lia].
  rewrite once_outcome. cbn [after_retries requests_made]. by rewrite Hok.
Qed.

(** A request that fails otherwise than by a connection error, after [i]
    connection errors: the run ends there. *)
Lemma get_request_json_failure (i : nat) (w : world) (e : exn) :
  Z.of_nat i < retries ->
  (forall i' : nat, (i' < i)%nat ->
                    nth_outcome (requests_made w + i') = Raise ConnectionError) ->
  nth_outcome (requests_made w + i) = Raise e ->
  is_ConnectionError e = false ->
  get_request_json net url headers retries delay w
  = Some (Raise (if is_RequestException e then SystemExit
                 else if is_ValueError e then ValueError else e),
          count_request (after_retries delay i w)).
Proof.
  intros Hlt Hconn Hfail Hother. rewrite (get_request_json_at i) by done.
  cbn [get_request_json_loop].
  destruct (Z.ltb_spec (Z.of_nat i) retries); [|lia].
  rewrite once_outcome. cbn [after_retries requests_made]. rewrite Hfail, Hother.
  by destruct (is_RequestException e), (is_ValueError e).
Qed.

(** Connection errors at every attempt: [ConnectionError] is raised at the
    last one, without a sleep after it. *)
Lemma get_request_json_exhausted (w : world) :
  0 < retries ->
  (forall i' : nat, Z.of_nat i' < retries ->
                    nth_outcome (requests_made w + i') = Raise ConnectionError) ->
  get_request_json net url headers retries delay w
  = Some (Raise ConnectionError,
          count_request (after_retries delay (Z.to_nat retries - 1) w)).
Proof.
  intros Hpos Hconn.
  rewrite (get_request_json_at (Z.to_nat retries - 1)) by (intros; try apply Hconn; lia).
  cbn [get_request_json_loop].
  destruct (Z.ltb_spec (Z.of_nat (Z.to_nat retries - 1)) retries); [|lia].
  rewrite once_outcome. cbn [after_retries requests_made].
  rewrite Hconn by lia. cbn [is_ConnectionError].
  destruct (Z.eqb_spec (Z.of_nat (Z.to_nat retries - 1) + 1) retries); [done|lia].
Qed.

(** Without an attempt to make, the loop is not entered and the empty dict
    is returned. *)
Lemma get_request_json_no_attempt (w : world) :
  retries <= 0 ->
  get_request_json net url headers retries delay w = Some (Ok (PyDict []), w).
Proof.
  intros Hle. unfold get_request_json. cbn [get_request_json_loop].
  destruct (Z.ltb_spec 0 retries); [lia|done].
Qed.

End GetRequestJsonFacts.

Section GetRequestJsonTotal.
Variable net : nat -> request -> result response.
Variables (url : string) (headers : gmap string string).
Variables (retries : Z) (delay : Q).

(** Among the first [n] requests, from the [k]-th on, either all raise
    [ConnectionError] or there is a first one that does not. *)
Lemma first_other_outcome (k n : nat) :
  (forall i : nat, (i < n)%nat ->
                   outcome net url headers (k + i) = Raise ConnectionError) \/
  (exists i : nat, (i < n)%nat /\
     outcome net url headers (k + i) <> Raise ConnectionError /\
     forall i' : nat, (i' < i)%nat ->
                      outcome net url headers (k + i') = Raise ConnectionError).
Proof.
  induction n as [|n [IH|(i & Hi & Hother & Hbefore)]].
  - left. intros i Hi. lia.
  - assert ({outcome net url headers (k + n) = Raise ConnectionError}
            + {outcome net url headers (k + n) <> Raise ConnectionError}) as [Hn|Hn].
    { destruct (outcome net url headers (k + n)) as [j|e]; [by right|].
      destruct e; (by left) || by right. }
    + left. intros i Hi. destruct (decide (i = n)) as [->|]; [done|].
      apply IH. lia.
    + right. exists n. split; [lia|]. split; [done|]. intros i' Hi'. by apply IH.
  - right. exists i. split; [lia|]. by split.
Qed.

(** When [time.sleep] raises, the run ends with the first request. *)
Lemma get_request_json_sleep_fails (w : world) (e_sleep : exn) :
  sleep_error delay = Some e_sleep ->
  0 < retries ->
  get_request_json net url headers retries delay w
  = Some (match outcome net url headers (requests_made w) with
          | Ok j => Ok j
          | Raise e =>
              if is_ConnectionError e
              then if retries =? 1 then Raise ConnectionError else Raise e_sleep
              else if is_RequestException e then Raise SystemExit
              else if is_ValueError e then Raise ValueError
              else Raise e
          end,
          count_request w).
Proof.
  intros Hsleep Hpos. unfold get_request_json. cbn [get_request_json_loop].
  destruct (Z.ltb_spec 0 retries); [|lia].
  change (get_json_once net url headers w)
    with (outcome net url headers (requests_made w)).
  destruct (outcome net url headers (requests_made w)) as [j|e]; [done|].
  destruct (is_ConnectionError e).
  - rewrite Z.add_0_l, (Z.eqb_sym 1 retries).
    destruct (retries =? 1); [done|]. unfold sleep. by rewrite Hsleep.
  - by destruct (is_RequestException e), (is_ValueError e).
Qed.

(** The loop always ends: with a result or an exception, after at least one
    and at most [retries] requests, and a sleep of [delay] before each
    request but the first. *)
Lemma get_request_json_total (w : world) :
  0 < retries ->
  exists (r : result pyval) (i : nat),
    Z.of_nat i < retries /\
    get_request_json net url headers retries delay w
    = Some (r, count_request (after_retries delay i w)).
Proof.
  intros Hpos.
  destruct (sleep_error delay) as [e_sleep|] eqn:Hdelay.
  { eexists _, 0%nat. split; [lia|].
    rewrite after_retries_0. by apply (get_request_json_sleep_fails w e_sleep). }
  destruct (first_other_outcome (requests_made w) (Z.to_nat retries))
    as [Hall|(i & Hi & Hother & Hbefore)].
  - exists (Raise ConnectionError), (Z.to_nat retries - 1)%nat. split; [lia|].
    apply get_request_json_exhausted; [done..|]. intros i' Hi'. apply Hall. lia.
  - destruct (outcome net url headers (requests_made w + i)) as [j|e] eqn:Hout.
    + exists (Ok j), i. split; [lia|].
      apply get_request_json_success; (done || lia).
    + eexists _, i. split; [lia|].
      apply (get_request_json_failure _ _ _ _ _ Hdelay i w e); try (done || lia).
      by destruct e.
Qed.

End GetRequestJsonTotal.

Section Answers.
Variable net : nat -> request -> result response.
Variables (url : string) (headers : gmap string string).

(** What the [try] body makes of an answer. *)
Lemma outcome_answer (k : nat) :
  outcome net url headers k
  = match answer net url headers k with
    | Ok r =>
        if (400 <=? status_code r) && (status_code r <? 600) then Raise HTTPError
        else json_body r
    | Raise e => Raise e
    end.
Proof.
  unfold outcome, get_json_once, answer. simpl.
  destruct (net k _) as [r|e]; [|done]. simpl. unfold raise_for_status.
  by destruct ((400 <=? status_code r) && (status_code r <? 600)).
Qed.

Lemma outcome_raised (k : nat) (e : exn) :
  answer net url headers k = Raise e -> outcome net url headers k = Raise e.
Proof. intros Hk. by rewrite outcome_answer, Hk. Qed.

Lemma outcome_error_status (k : nat) (r : response) :
  answer net url headers k = Ok r -> error_status r ->
  outcome net url headers k = Raise HTTPError.
Proof.
  intros Hk [Hlo Hhi]. rewrite outcome_answer, Hk.
  destruct (Z.leb_spec 400 (status_code r)); [|lia].
  destruct (Z.ltb_spec (status_code r) 600); [done|lia].
Qed.

Lemma outcome_body (k : nat) (r : response) :
  answer net url headers k = Ok r -> ~ error_status r ->
  outcome net url headers k = json_body r.
Proof.
  intros Hk Hstatus. rewrite outcome_answer, Hk. unfold error_status in Hstatus.
  destruct (Z.leb_spec 400 (status_code r)); [|done].
  destruct (Z.ltb_spec (status_code r) 600); [lia|done].
Qed.

End Answers.

(** C2: with the default three attempts and two-second delay, for every URL
    and whatever the network does, [get_request_json] ends after at least one
    and at most three requests, having slept two seconds before each request
    but the first. When all three requests raise a connection error it
    raises [ConnectionError]. When a request, the earlier ones having raised a
    connection error, raises another error of [requests] or is answered with
    an error status, the run ends at that request with [SystemExit]; when it
    is answered with another status, the JSON body of the response is
    returned. *)
Theorem get_request_json_spec (net : nat -> request -> result response)
    (url : string) (headers : gmap string string) (w : world) :
  let run := get_request_json net url headers default_retries default_delay w in
  let attempt (i : nat) := answer net url headers (requests_made w + i) in
  (exists (r : result pyval) (w' : world),
     run = Some (r, w') /\
     (requests_made w < requests_made w' <= requests_made w + 3)%nat /\
     slept w' = repeat (2 # 1) (requests_made w' - requests_made w - 1) ++ slept w) /\
  ((forall i : nat, (i < 3)%nat -> attempt i = Raise ConnectionError) ->
   run = Some (Raise ConnectionError,
               {| requests_made := requests_made w + 3;
                  slept := [2 # 1; 2 # 1] ++ slept w |})) /\
  (forall (i : nat) (e : exn),
     (i < 3)%nat ->
     (forall i' : nat, (i' < i)%nat -> attempt i' = Raise ConnectionError) ->
     attempt i = Raise e ->
     is_RequestException e = true -> e <> ConnectionError ->
     run = Some (Raise SystemExit,
                 {| requests_made := requests_made w + i + 1;
                    slept := repeat (2 # 1) i ++ slept w |})) /\
  (forall (i : nat) (r : response),
     (i < 3)%nat ->
     (forall i' : nat, (i' < i)%nat -> attempt i' = Raise ConnectionError) ->
     attempt i = Ok r -> error_status r ->
     run = Some (Raise SystemExit,
                 {| requests_made := requests_made w + i + 1;
                    slept := repeat (2 # 1) i ++ slept w |})) /\
  (forall (i : nat) (r : response) (j : pyval),
     (i < 3)%nat ->
     (forall i' : nat, (i' < i)%nat -> attempt i' = Raise ConnectionError) ->
     attempt i = Ok r -> ~ error_status r -> json_body r = Ok j ->
     run = Some (Ok j,
                 {| requests_made := requests_made w + i + 1;
                    slept := repeat (2 # 1) i ++ slept w |})).
Proof.
  intros run attempt. subst run attempt. unfold default_retries, default_delay.
  assert (Hdelay : sleep_error (2 # 1) = None) by reflexivity.
  assert (Hworld : forall i : nat,
            count_request (after_retries (2 # 1) i w)
            = {| requests_made := requests_made w + i + 1;
                 slept := repeat (2 # 1) i ++ slept w |}).
  { intros i. unfold count_request, after_retries. simpl. f_equal. lia. }
  split; [|split; [|split; [|split]]].
  - destruct (get_request_json_total net url headers 3 (2 # 1) w) as (r & i & Hi & Hrun);
      [lia|].
    exists r, (count_request (after_retries (2 # 1) i w)).
    split; [done|]. cbn [count_request after_retries requests_made slept].
    split; [lia|]. f_equal. f_equal. lia.
  - intros Hall. rewrite get_request_json_exhausted; [|done|lia|].
    + change (Z.to_nat 3 - 1)%nat with 2%nat. rewrite Hworld.
      do 3 f_equal. lia.
    + intros i' Hi'. apply outcome_raised, Hall. lia.
  - intros i e Hi Hbefore Hfail Hreq Hne.
    rewrite (get_request_json_failure _ _ _ _ _ Hdelay i w e).
    + by rewrite Hreq, Hworld.
    + lia.
    + intros i' Hi'. by apply outcome_raised, Hbefore.
    + by apply outcome_raised.
    + by destruct e.
  - intros i r Hi Hbefore Hanswer Hstatus.
    rewrite (get_request_json_failure _ _ _ _ _ Hdelay i w HTTPError).
    + by rewrite Hworld.
    + lia.
    + intros i' Hi'. by apply outcome_raised, Hbefore.
    + by apply (outcome_error_status _ _ _ _ r).
    + done.
  - intros i r j Hi Hbefore Hanswer Hstatus Hbody.
    rewrite (get_request_json_success _ _ _ _ _ Hdelay i w j).
    + by rewrite Hworld.
    + lia.
    + intros i' Hi'. by apply outcome_raised, Hbefore.
    + by rewrite (outcome_body _ _ _ _ r).
Qed.

Example get_request_json_flaky :
  get_request_json flaky_net "https://bio.tools/api/tool/abricate" ∅
    default_retries default_delay fresh_world
  = Some (Ok (PyDict [("name", PyStr "abricate")]),
          {| requests_made := 3; slept := [2 # 1; 2 # 1] |}).
Proof. reflexivity. Qed.

Example get_request_json_down :
  get_request_json down_net "https://bio.tools/api/tool/abricate" ∅
    default_retries default_delay fresh_world
  = Some (Raise ConnectionError,
          {| requests_made := 3; slept := [2 # 1; 2 # 1] |}).
Proof. reflexivity. Qed.

Example get_request_json_not_found :
  get_request_json not_found_net "https://bio.tools/api/tool/abricate" ∅
    default_retries default_delay fresh_world
  = Some (Raise SystemExit, {| requests_made := 2; slept := [2 # 1] |}).
Proof. reflexivity. Qed.

Example get_request_json_slow :
  get_request_json slow_net "https://bio.tools/api/tool/abricate" ∅
    default_retries default_delay fresh_world
  = Some (Raise SystemExit, {| requests_made := 2; slept := [2 # 1] |}).
Proof. reflexivity. Qed.

Lemma get_request_json_spec_witness :
  get_request_json down_net "https://bio.tools/api/tool/abricate" ∅
    default_retries default_delay fresh_world
  = Some (Raise ConnectionError,
          {| requests_made := requests_made fresh_world + 3;
             slept := [2 # 1; 2 # 1] ++ slept fresh_world |}) /\
  get_request_json slow_net "https://bio.tools/api/tool/abricate" ∅
    default_retries default_delay fresh_world
  = Some (Raise SystemExit,
          {| requests_made := requests_made fresh_world + 1 + 1;
             slept := repeat (2 # 1) 1 ++ slept fresh_world |}) /\
  get_request_json not_found_net "https://bio.tools/api/tool/abricate" ∅
    default_retries default_delay fresh_world
  = Some (Raise SystemExit,
          {| requests_made := requests_made fresh_world + 1 + 1;
             slept := repeat (2 # 1) 1 ++ slept fresh_world |}) /\
  get_request_json flaky_net "https://bio.tools/api/tool/abricate" ∅
    default_retries default_delay fresh_world
  = Some (Ok (PyDict [("name", PyStr "abricate")]),
          {| requests_made := requests_made fresh_world + 2 + 1;
             slept := repeat (2 # 1) 2 ++ slept fresh_world |}).
Proof.
  split; [|split; [|split]].
  - apply (proj1 (proj2 (get_request_json_spec down_net
                           "https://bio.tools/api/tool/abricate" ∅ fresh_world))).
    intros i Hi. reflexivity.
  - apply (proj1 (proj2 (proj2 (get_request_json_spec slow_net
                           "https://bio.tools/api/tool/abricate" ∅ fresh_world)))
             1%nat Timeout).
    + lia.
    + intros [|i'] Hi'; [reflexivity | lia].
    + reflexivity.
    + reflexivity.
    + discriminate.
  - apply (proj1 (proj2 (proj2 (proj2 (get_request_json_spec not_found_net
                           "https://bio.tools/api/tool/abricate" ∅ fresh_world))))
             1%nat
             {| status_code := 404;
                json_body := Ok (PyDict [("detail", PyStr "Not found")]) |}).
    + lia.
    + intros [|i'] Hi'; [reflexivity | lia].
    + reflexivity.
    + unfold error_status. simpl. lia.
  - apply (proj2 (proj2 (proj2 (proj2 (get_request_json_spec flaky_net
                           "https://bio.tools/api/tool/abricate" ∅ fresh_world))))
             2%nat
             {| status_code := 200;
                json_body := Ok (PyDict [("name", PyStr "abricate")]) |}
             (PyDict [("name", PyStr "abricate")])).
    + lia.
    + intros [|[|i']] Hi'; [reflexivity | reflexivity | lia].
    + reflexivity.
    + unfold error_status. simpl. lia.
    + reflexivity.
Defined.

(** ** [get_all_installed_tool_ids_on_server] *)

Example tools_request_trailing_slashes :
  req_url (tools_request "https://usegalaxy.eu//") = "https://usegalaxy.eu/api/tools".
Proof. reflexivity. Qed.

Example installed_tool_ids :
  get_all_installed_tool_ids_on_server galaxy_with_tools "https://usegalaxy.eu"
  = Ok [PyStr "upload1";
        PyStr "toolshed.g2.bx.psu.edu/repos/iuc/abricate/abricate/1.0.1"].
Proof. reflexivity. Qed.

Example installed_tool_ids_unavailable :
  get_all_installed_tool_ids_on_server galaxy_unavailable "https://usegalaxy.fr"
  = Ok [].
Proof. reflexivity. Qed.

(** Iterating over the error object gives its keys, and a string has no
    item ["id"]. *)
Example installed_tool_ids_error_object :
  get_all_installed_tool_ids_on_server galaxy_error_object "https://usegalaxy.fr"
  = Ok [].
Proof. reflexivity. Qed.

Section InstalledToolsFacts.
Variable http : request -> result response.

Lemma py_iter_Exception (v : pyval) (e : exn) :
  py_iter v = Raise e -> is_Exception e = true.
Proof. destruct v; simpl; intros Hv; by inversion Hv. Qed.

Lemma py_getitem_Exception (v : pyval) (k : string) (e : exn) :
  py_getitem v k = Raise e -> is_Exception e = true.
Proof.
  destruct v; simpl; try (intros Hv; by inversion Hv).
  destruct (PyDictOps.get items k); simpl; intros Hv; by inversion Hv.
Qed.

Lemma traverse_Exception {A B : Type} (f : A -> result B) (l : list A) (e : exn) :
  (forall a e', f a = Raise e' -> is_Exception e' = true) ->
  traverse f l = Raise e -> is_Exception e = true.
Proof.
  intros Hf. induction l as [|a l IH]; simpl; [done|].
  destruct (f a) as [b|e'] eqn:Hfa; simpl.
  - destruct (traverse f l) as [bs|e'']; simpl; [done|].
    intros [= <-]. by apply IH.
  - intros [= <-]. by apply (Hf a).
Qed.

(** The query on the URL without its trailing "/" is the query on the request
    of [tools_request]. *)
Lemma query_tool_ids_request (galaxy_url : string) :
  query_tool_ids http (PyStr.rstrip_by (Ascii.eqb "/") galaxy_url)
  = (r ← http (tools_request galaxy_url);
     _ ← raise_for_status r;
     tool_dict_list ← json_body r;
     tool_dicts ← py_iter tool_dict_list;
     traverse (fun tool_dict => py_getitem tool_dict "id") tool_dicts).
Proof. reflexivity. Qed.

(** When only exceptions deriving from [Exception] come out of [requests],
    the function returns a list. *)
Lemma get_all_installed_tool_ids_on_server_returns (galaxy_url : string) :
  (forall e, http (tools_request galaxy_url) = Raise e -> is_Exception e = true) ->
  (forall r e, http (tools_request galaxy_url) = Ok r ->
               json_body r = Raise e -> is_Exception e = true) ->
  exists tools, get_all_installed_tool_ids_on_server http galaxy_url = Ok tools.
Proof.
  intros Hget Hjson. unfold get_all_installed_tool_ids_on_server.
  rewrite query_tool_ids_request.
  destruct (http (tools_request galaxy_url)) as [r|e] eqn:Hr; simpl.
  - unfold raise_for_status.
    destruct ((400 <=? status_code r) && (status_code r <? 600)); simpl; [by eexists|].
    destruct (json_body r) as [v|e] eqn:Hv; simpl.
    + destruct (py_iter v) as [ds|e] eqn:Hds; simpl.
      * destruct (traverse _ ds) as [ids|e] eqn:Hids; [by eexists|].
        eapply traverse_Exception in Hids as ->; [by eexists|].
        intros a e'. apply py_getitem_Exception.
      * apply py_iter_Exception in Hds as ->. by eexists.
    + rewrite (Hjson r e) by done. by eexists.
  - rewrite (Hget e) by done. by eexists.
Qed.

(** A failed query comes to the empty list. *)
Lemma failed_query_empty (galaxy_url : string) :
  query_fails http galaxy_url ->
  get_all_installed_tool_ids_on_server http galaxy_url = Ok [].
Proof.
  intros Hfail.
  unfold get_all_installed_tool_ids_on_server. rewrite query_tool_ids_request.
  destruct Hfail as [e Hget He|r Hget Hstatus|r e Hget Hjson He|r v e Hget Hjson Hids];
    rewrite Hget; simpl.
  - by rewrite He.
  - unfold raise_for_status.
    destruct (Z.leb_spec 400 (status_code r)); [|lia].
    destruct (Z.ltb_spec (status_code r) 600); [|lia]. done.
  - unfold raise_for_status.
    destruct ((400 <=? status_code r) && (status_code r <? 600)); simpl; [done|].
    rewrite Hjson. simpl. by rewrite He.
  - unfold raise_for_status.
    destruct ((400 <=? status_code r) && (status_code r <? 600)); simpl; [done|].
    rewrite Hjson. simpl.
    destruct (py_iter v) as [ds|e'] eqn:Hds; simpl in *.
    + rewrite Hids.
      eapply traverse_Exception in Hids as ->; [done|].
      intros a e'. apply py_getitem_Exception.
    + by apply py_iter_Exception in Hds as ->.
Qed.

(** C3: for every server URL, when the installed-tools query fails (the
    server cannot be reached, it answers with an HTTP error, or its response
    is malformed), the function returns the empty list and raises nothing,
    and every tool id is reported 0 for that server. *)
Theorem get_all_installed_tool_ids_on_server_spec (galaxy_url : string) :
  query_fails http galaxy_url ->
  get_all_installed_tool_ids_on_server http galaxy_url = Ok [] /\
  forall tool_id : string, installed_on http galaxy_url tool_id = Ok 0.
Proof.
  intros Hfail. pose proof (failed_query_empty galaxy_url Hfail) as Hempty.
  split; [done|]. intros tool_id. unfold installed_on. by rewrite Hempty.
Qed.

(** When no server of the run can be reached, every tool id is reported 0
    on each of them. *)
Corollary usegalaxy_servers_unreachable (tool_id : string) :
  (forall req, http req = Raise ConnectionError) ->
  Forall (fun server => installed_on http server.2 tool_id = Ok 0)
         USEGALAXY_SERVER_URLS.
Proof.
  intros Hdown. apply Forall_forall. intros [name galaxy_url] _.
  unfold installed_on. rewrite failed_query_empty; [done|].
  by apply (Unreachable _ _ ConnectionError).
Qed.

End InstalledToolsFacts.

Lemma get_all_installed_tool_ids_on_server_spec_witness :
  get_all_installed_tool_ids_on_server galaxy_unavailable "https://usegalaxy.fr" = Ok [] /\
  forall tool_id : string,
    installed_on galaxy_unavailable "https://usegalaxy.fr" tool_id = Ok 0.
Proof.
  apply (get_all_installed_tool_ids_on_server_spec galaxy_unavailable
           "https://usegalaxy.fr").
  apply (ErrorStatus galaxy_unavailable "https://usegalaxy.fr"
           {| status_code := 503; json_body := Raise JSONDecodeError |}).
  - reflexivity.
  - simpl. lia.
Defined.

(** ** The filter stage *)

Lemma suite_id_assign_status (status : gmap string status_entry) (s : suite) :
  suite_id (assign_status status s) = suite_id s.
Proof. unfold assign_status. by destruct (status !! suite_id s). Qed.

Lemma toolshed_categories_assign_status (status : gmap string status_entry)
    (s : suite) :
  toolshed_categories (assign_status status s) = toolshed_categories s.
Proof. unfold assign_status. by destruct (status !! suite_id s). Qed.

Lemma biotool_id_assign_status (status : gmap string status_entry) (s : suite) :
  biotool_id (assign_status status s) = biotool_id s.
Proof. unfold assign_status. by destruct (status !! suite_id s). Qed.

Lemma in_categories_spec (categories : list string) (s : suite) :
  in_categories categories s = true
  <-> exists c, In c (toolshed_categories s) /\ In c categories.
Proof.
  unfold in_categories. rewrite existsb_exists. split.
  - intros (c & Hc & Hin). apply existsb_exists in Hin as (c' & Hc' & Heq).
    apply String.eqb_eq in Heq as ->. by exists c'.
  - intros (c & Hc & Hin). exists c. split; [done|].
    apply existsb_exists. exists c. split; [done|]. apply String.eqb_refl.
Qed.

Lemma status_allows_spec (status : gmap string status_entry) (s : suite) :
  status_allows status s = true
  <-> status !! suite_id s = None
      \/ exists e, status !! suite_id s = Some e /\ status_keep e = true.
Proof.
  unfold status_allows. destruct (status !! suite_id s) as [e|].
  - split; [intros He; right; by exists e|]. by intros [|(e' & [= <-] & He)].
  - split; [by left | done].
Qed.

Example filter_tools_sample :
  filter_tools ["Sequence Analysis"; "Metagenomics"] sample_status
    [abricate; bakta; bedtools; krakentools]
  = [assign_status sample_status abricate; krakentools].
Proof. vm_compute. reflexivity. Qed.

(** C4: a suite of the input of the filter stage is kept, with its status
    attached, if and only if one of its ToolShed categories is in the
    allow-list and the status table has no entry for its id or an entry whose
    keep flag is true; nothing else is kept, and a suite whose entry has the
    keep flag false is excluded whatever its categories. *)
Theorem filter_tools_spec (categories : list string)
    (status : gmap string status_entry) (tools : list suite) :
  (forall s : suite,
     In s tools ->
     (In (assign_status status s) (filter_tools categories status tools)
      <-> (exists c, In c (toolshed_categories s) /\ In c categories)
          /\ (status !! suite_id s = None
              \/ exists e, status !! suite_id s = Some e /\ status_keep e = true))) /\
  (forall s' : suite,
     In s' (filter_tools categories status tools) ->
     exists s, In s tools /\ s' = assign_status status s) /\
  (forall (s : suite) (e : status_entry),
     In s tools -> status !! suite_id s = Some e -> status_keep e = false ->
     ~ In (assign_status status s) (filter_tools categories status tools)).
Proof.
  assert (forall s : suite,
            In (assign_status status s) (filter_tools categories status tools) ->
            in_categories categories s = true /\ status_allows status s = true)
    as Hkept.
  { intros s Hin. unfold filter_tools in Hin.
    apply in_map_iff in Hin as (s2 & Heq & Hin).
    apply filter_In in Hin as [_ [Hcat Hst]%andb_true_iff].
    assert (suite_id s2 = suite_id s) as Hid
      by (by rewrite <- (suite_id_assign_status status s2), Heq, suite_id_assign_status).
    assert (toolshed_categories s2 = toolshed_categories s) as Hcats
      by (by rewrite <- (toolshed_categories_assign_status status s2), Heq,
               toolshed_categories_assign_status).
    unfold in_categories, status_allows in *. by rewrite <- Hid, <- Hcats. }
  split; [|split].
  - intros s Hs. rewrite <- in_categories_spec, <- status_allows_spec. split.
    + apply Hkept.
    + intros [Hcat Hst]. unfold filter_tools. apply in_map.
      apply filter_In. split; [done|]. by rewrite Hcat, Hst.
  - intros s' Hin. unfold filter_tools in Hin.
    apply in_map_iff in Hin as (s & <- & Hin).
    apply filter_In in Hin as [Hin _]. by exists s.
  - intros s e Hs He Hkeep Hin. apply Hkept in Hin as [_ Hst].
    unfold status_allows in Hst. rewrite He in Hst. congruence.
Qed.

Lemma filter_tools_spec_witness :
  (In (assign_status sample_status abricate)
      (filter_tools ["Sequence Analysis"; "Metagenomics"] sample_status
         [abricate; bakta; bedtools; krakentools])
   <-> (exists c, In c (toolshed_categories abricate)
                  /\ In c ["Sequence Analysis"; "Metagenomics"])
       /\ (sample_status !! suite_id abricate = None
           \/ exists e, sample_status !! suite_id abricate = Some e
                        /\ status_keep e = true)) /\
  ~ In (assign_status sample_status bakta)
       (filter_tools ["Sequence Analysis"; "Metagenomics"] sample_status
          [abricate; bakta; bedtools; krakentools]).
Proof.
  split.
  - apply (proj1 (filter_tools_spec ["Sequence Analysis"; "Metagenomics"]
                    sample_status [abricate; bakta; bedtools; krakentools])
             abricate).
    simpl. tauto.
  - apply (proj2 (proj2 (filter_tools_spec ["Sequence Analysis"; "Metagenomics"]
                           sample_status [abricate; bakta; bedtools; krakentools]))
             bakta {| status_keep := false; status_deprecated := false |}).
    + simpl. tauto.
    + vm_compute. reflexivity.
    + reflexivity.
Defined.

Section CommandFacts.
Variable init_by_importing : pyval -> result (list suite).
Variable export_tools_to_dict : list suite -> pyval.
Variable read_status :
  option string -> filesystem -> result (gmap string status_entry).
Variable export_tools_to_tsv :
  list suite -> option string -> option (list string) -> filesystem ->
  result filesystem.

Lemma getattr_filter_args (all : string) (categories : option string)
    (filtered tsv_filtered : string) (status_fp : option string)
    (name : string) (v : option string) :
  filter_args all categories filtered tsv_filtered status_fp !! name = Some v ->
  getattr (filter_args all categories filtered tsv_filtered status_fp) name = Ok v.
Proof. intros Hv. unfold getattr. by rewrite Hv. Qed.

(** The filter command hands to [filter_tools] the suites of [--all], the
    lines of [--categories] (none when the option or the file is missing) and
    the table of [--status] (an empty one without the option), and writes
    what is kept: the JSON file, then the table. *)
Lemma filter_command_filters (all : string) (categories : option string)
    (filtered tsv_filtered : string) (status_fp : option string)
    (fs : filesystem)
    (data : pyval) (tools : list suite) (status : gmap string status_entry) :
  load_json all fs = Ok data ->
  init_by_importing data = Ok tools ->
  (if truthy status_fp then read_status status_fp fs else Ok ∅) = Ok status ->
  filter_command init_by_importing export_tools_to_dict read_status
    export_tools_to_tsv
    (filter_args all categories filtered tsv_filtered status_fp) fs
  = match filter_tools (read_file fs categories) status tools with
    | [] => Ok fs
    | (_ :: _) as kept =>
        fs1 ← export_to_json (export_tools_to_dict kept) filtered true fs;
        export_tools_to_tsv kept (Some tsv_filtered)
          (Some ["Suite ID"; "Description"; "To keep"; "Deprecated"]) fs1
    end.
Proof.
  intros Hload Hinit Hstatus. unfold filter_command.
  rewrite (getattr_filter_args _ _ _ _ _ "all" (Some all)) by done. simpl.
  rewrite Hload. simpl. rewrite Hinit. simpl.
  rewrite (getattr_filter_args _ _ _ _ _ "categories" categories) by done. simpl.
  rewrite (getattr_filter_args _ _ _ _ _ "status" status_fp) by done. simpl.
  rewrite Hstatus. simpl.
  destruct (filter_tools _ status tools) as [|s kept]; [done|].
  rewrite (getattr_filter_args _ _ _ _ _ "filtered" (Some filtered)) by done. simpl.
  destruct (export_to_json _ filtered true fs) as [fs1|]; [|done]. simpl.
  by rewrite (getattr_filter_args _ _ _ _ _ "tsv_filtered" (Some tsv_filtered)).
Qed.

(** Without a category list, be it that the option is not given or that the
    file is missing, no suite is in an allowed category: nothing is kept and
    nothing is written. *)
Lemma filter_tools_no_category (status : gmap string status_entry)
    (tools : list suite) :
  filter_tools [] status tools = [].
Proof.
  unfold filter_tools.
  assert (forall s, in_categories [] s = false) as Hnone.
  { intros s. unfold in_categories. by induction (toolshed_categories s). }
  induction tools as [|s tools IH]; [done|]. simpl. by rewrite Hnone.
Qed.

Lemma filter_command_no_category (all : string) (categories : option string)
    (filtered tsv_filtered : string) (status_fp : option string)
    (fs : filesystem)
    (data : pyval) (tools : list suite) (status : gmap string status_entry) :
  read_file fs categories = [] ->
  load_json all fs = Ok data ->
  init_by_importing data = Ok tools ->
  (if truthy status_fp then read_status status_fp fs else Ok ∅) = Ok status ->
  filter_command init_by_importing export_tools_to_dict read_status
    export_tools_to_tsv
    (filter_args all categories filtered tsv_filtered status_fp) fs
  = Ok fs.
Proof.
  intros Hnone Hload Hinit Hstatus.
  rewrite (filter_command_filters _ _ _ _ _ _ data tools status) by done.
  by rewrite Hnone, filter_tools_no_category.
Qed.

(** A status table that cannot be read stops the filter command, which reads
    it outside any [try]. *)
Lemma filter_command_status_unreadable (all : string) (categories : option string)
    (filtered tsv_filtered status_fp : string) (fs : filesystem)
    (data : pyval) (tools : list suite) (e : exn) :
  status_fp <> "" ->
  load_json all fs = Ok data ->
  init_by_importing data = Ok tools ->
  read_status (Some status_fp) fs = Raise e ->
  filter_command init_by_importing export_tools_to_dict read_status
    export_tools_to_tsv
    (filter_args all categories filtered tsv_filtered (Some status_fp)) fs
  = Raise e.
Proof.
  intros Hne Hload Hinit Hstatus. unfold filter_command.
  rewrite (getattr_filter_args _ _ _ _ _ "all" (Some all)) by done. simpl.
  rewrite Hload. simpl. rewrite Hinit. simpl.
  rewrite (getattr_filter_args _ _ _ _ _ "categories" categories) by done. simpl.
  rewrite (getattr_filter_args _ _ _ _ _ "status" (Some status_fp)) by done. simpl.
  destruct status_fp as [|c rest]; [done|]. simpl. by rewrite Hstatus.
Qed.

(** Were [all] among the attributes of the curate namespace, the command
    would write the suites with their status and the two parts of the
    partition, one table after the other. *)
Lemma curate_command_with_all (all filtered curated wo_biotools w_biotools : string)
    (status_fp : option string) (fs : filesystem)
    (data : pyval) (s : suite) (tools : list suite)
    (status : gmap string status_entry) :
  load_json all fs = Ok data ->
  init_by_importing data = Ok (s :: tools) ->
  read_status status_fp fs = Ok status ->
  curate_command init_by_importing read_status export_tools_to_tsv
    (<["all" := Some all]>
       (curate_args filtered curated wo_biotools w_biotools status_fp)) fs
  = (fs1 ← export_tools_to_tsv (map (assign_status status) (s :: tools))
             (Some curated) None fs;
     fs2 ← export_tools_to_tsv (curate_tools status (s :: tools)).1
             (Some wo_biotools) (Some ["Suite ID"; "Homepage"; "Suite source"]) fs1;
     export_tools_to_tsv (curate_tools status (s :: tools)).2
       (Some w_biotools)
       (Some ["Suite ID"; "bio.tool name"; "EDAM operations"; "EDAM topics"]) fs2).
Proof.
  intros Hload Hinit Hstatus. unfold curate_command.
  set (args := <["all" := Some all]> _).
  assert (forall name v, args !! name = Some v -> getattr args name = Ok v) as Hget
    by (intros name v Hv; unfold getattr; by rewrite Hv).
  rewrite (Hget "all" (Some all)) by done. simpl. rewrite Hload. simpl.
  rewrite Hinit. simpl. unfold curate_status.
  rewrite (Hget "status" status_fp) by done. simpl. rewrite Hstatus. simpl.
  rewrite (Hget "curated" (Some curated)) by done. simpl.
  destruct (export_tools_to_tsv _ (Some curated) None fs) as [fs1|]; [|done]. simpl.
  rewrite (Hget "wo_biotools" (Some wo_biotools)) by done. simpl.
  destruct (export_tools_to_tsv _ (Some wo_biotools) _ fs1) as [fs2|]; [|done]. simpl.
  by rewrite (Hget "w_biotools" (Some w_biotools)).
Qed.

End CommandFacts.

(** ** The curate stage *)

Example curate_tools_sample :
  curate_tools sample_status [abricate; bakta; bedtools; krakentools]
  = ([assign_status sample_status bakta; krakentools],
     [assign_status sample_status abricate; bedtools]).
Proof. vm_compute. reflexivity. Qed.

(** The partition the spec describes, on the model of [Tools.curate_tools]
    made from it: a suite without a bio.tools linkage is in the output
    without bio.tools and not in the other, a suite with a linkage the other
    way round, and no suite is in both outputs. *)
Lemma curate_tools_partition (status : gmap string status_entry)
    (tools : list suite) :
  let wo_biotools := (curate_tools status tools).1 in
  let with_biotools := (curate_tools status tools).2 in
  (forall s : suite,
     In s tools -> has_biotools s = false ->
     In (assign_status status s) wo_biotools
     /\ ~ In (assign_status status s) with_biotools) /\
  (forall s : suite,
     In s tools -> has_biotools s = true ->
     In (assign_status status s) with_biotools
     /\ ~ In (assign_status status s) wo_biotools) /\
  (forall s' : suite, ~ (In s' wo_biotools /\ In s' with_biotools)) /\
  wo_biotools ++ with_biotools ≡ₚ map (assign_status status) tools.
Proof.
  assert (forall s, has_biotools (assign_status status s) = has_biotools s) as Hsame
    by (intros s; unfold has_biotools; by rewrite biotool_id_assign_status).
  unfold curate_tools. cbn [fst snd]. split; [|split; [|split]].
  - intros s Hs Hno. split.
    + apply filter_In. split; [by apply in_map|]. by rewrite Hsame, Hno.
    + intros [_ Hyes]%filter_In. rewrite Hsame in Hyes. congruence.
  - intros s Hs Hyes. split.
    + apply filter_In. split; [by apply in_map|]. by rewrite Hsame.
    + intros [_ Hno]%filter_In. rewrite Hsame, Hyes in Hno. done.
  - intros s' [[_ Hno]%filter_In [_ Hyes]%filter_In].
    rewrite Hyes in Hno. done.
  - induction (map (assign_status status) tools) as [|s l IH]; [done|].
    simpl. destruct (has_biotools s); simpl.
    + etrans; [symmetry; apply Permutation_middle|]. by constructor.
    + by constructor.
Qed.

(** The namespace of the curate command has the attribute [filtered], where
    the suites to curate are, and no attribute [all]. *)
Lemma curate_args_attributes (filtered curated wo_biotools w_biotools : string)
    (status : option string) :
  getattr (curate_args filtered curated wo_biotools w_biotools status) "filtered"
  = Ok (Some filtered)
  /\ getattr (curate_args filtered curated wo_biotools w_biotools status) "all"
     = Raise AttributeError.
Proof. split; reflexivity. Qed.

(** C6: the curate command reads [args.all], an attribute the curate
    sub-parser does not define: whatever its arguments and its files, the
    command raises [AttributeError] before a suite is read, and no output
    collection is written. *)
Theorem curate_command_AttributeError
    (init_by_importing : pyval -> result (list suite))
    (read_status : option string -> filesystem -> result (gmap string status_entry))
    (export_tools_to_tsv :
       list suite -> option string -> option (list string) -> filesystem ->
       result filesystem)
    (filtered curated wo_biotools w_biotools : string) (status : option string)
    (fs : filesystem) :
  curate_command init_by_importing read_status export_tools_to_tsv
    (curate_args filtered curated wo_biotools w_biotools status) fs
  = Raise AttributeError.
Proof.
  unfold curate_command.
  destruct (curate_args_attributes filtered curated wo_biotools w_biotools status)
    as [_ Hall].
  rewrite Hall. reflexivity.
Qed.

(** ** [reduce_ontology_terms] *)

Section ReduceOntologyTermsFacts.
Context {C : Type} (ontology : Ontology C).

Lemma inner_loop_flag (subcla : C) (check_classes : list C) (inc : bool) :
  fold_left
    (fun inc cla2 => if class_eqb ontology subcla cla2 then false else inc)
    check_classes inc
  = inc && negb (existsb (class_eqb ontology subcla) check_classes).
Proof.
  revert inc. induction check_classes as [|cla2 l IH]; intros inc; simpl.
  - by rewrite andb_true_r.
  - rewrite IH. destruct (class_eqb ontology subcla cla2); simpl.
    + by rewrite andb_false_r.
    + done.
Qed.

Lemma outer_loop_flag (subs check_classes : list C) (inc : bool) :
  fold_left
    (fun inc subcla =>
       fold_left
         (fun inc cla2 => if class_eqb ontology subcla cla2 then false else inc)
         check_classes inc)
    subs inc
  = inc && negb (existsb (fun subcla => existsb (class_eqb ontology subcla) check_classes)
                         subs).
Proof.
  revert inc. induction subs as [|subcla l IH]; intros inc; simpl.
  - by rewrite andb_true_r.
  - rewrite IH, inner_loop_flag, negb_orb. by rewrite andb_assoc.
Qed.

(** The flag is false exactly when a subclass is among the classes checked. *)
Lemma include_class_existsb (subs check_classes : list C) :
  include_class ontology subs check_classes
  = negb (existsb (fun subcla => existsb (class_eqb ontology subcla) check_classes)
                  subs).
Proof. unfold include_class. by rewrite outer_loop_flag. Qed.

Lemma new_classes_loop (check_classes l acc : list C) :
  Forall (caught ontology) l ->
  fold_result (add_class ontology check_classes) l acc
  = Ok (acc ++ List.filter (keeps_class ontology check_classes) l).
Proof.
  intros Hl. revert acc. induction Hl as [|cla l Hcla _ IH]; intros acc; simpl.
  - by rewrite app_nil_r.
  - unfold keeps_class, add_class. unfold caught in Hcla.
    destruct (subclasses ontology cla) as [subs|e].
    + simpl. rewrite IH.
      destruct (include_class ontology subs check_classes); [|done].
      by rewrite <- app_assoc.
    + rewrite (Hcla e) by done. simpl. apply IH.
Qed.

Lemma new_classes_filter (check_classes : list C) :
  Forall (caught ontology) check_classes ->
  new_classes ontology check_classes
  = Ok (List.filter (keeps_class ontology check_classes) check_classes).
Proof. intros Hc. unfold new_classes. by rewrite new_classes_loop. Qed.

Lemma add_class_Ok (check_classes acc acc' : list C) (cla : C) :
  add_class ontology check_classes acc cla = Ok acc' -> caught ontology cla.
Proof.
  unfold add_class, caught.
  destruct (subclasses ontology cla) as [subs|e]; [done|].
  destruct (is_Exception e) eqn:He; [|done]. by intros _ e' [= <-].
Qed.

Lemma add_class_Raise (check_classes acc : list C) (cla : C) (e : exn) :
  add_class ontology check_classes acc cla = Raise e
  <-> subclasses ontology cla = Raise e /\ is_Exception e = false.
Proof.
  unfold add_class.
  destruct (subclasses ontology cla) as [subs|e']; [split; [done|by intros [? _]]|].
  destruct (is_Exception e') eqn:He'.
  - split; [done|]. intros [[= ->] ?]. congruence.
  - split; [by intros [= <-]|by intros [[= ->] _]].
Qed.

(** When the loop ends, every call was dealt with. *)
Lemma new_classes_loop_Ok (check_classes l acc kept : list C) :
  fold_result (add_class ontology check_classes) l acc = Ok kept ->
  Forall (caught ontology) l.
Proof.
  revert acc. induction l as [|cla l IH]; intros acc; simpl; [by constructor|].
  destruct (add_class ontology check_classes acc cla) as [acc'|] eqn:Hadd; [|done].
  simpl. intros Hl. constructor; [by eapply add_class_Ok|by eapply IH].
Qed.

Lemma new_classes_Ok (check_classes kept : list C) :
  new_classes ontology check_classes = Ok kept ->
  Forall (caught ontology) check_classes.
Proof. apply new_classes_loop_Ok. Qed.

(** The loop is left by the first exception that is no [Exception]. *)
Lemma new_classes_loop_Raise (check_classes l acc : list C) (e : exn) :
  fold_result (add_class ontology check_classes) l acc = Raise e
  <-> exists pre cla post,
        l = pre ++ cla :: post /\ Forall (caught ontology) pre
        /\ subclasses ontology cla = Raise e /\ is_Exception e = false.
Proof.
  revert acc. induction l as [|cla l IH]; intros acc; simpl.
  - split; [done|]. by intros ([] & ? & ? & ? & _).
  - destruct (add_class ontology check_classes acc cla) as [acc'|e'] eqn:Hadd; simpl.
    + pose proof (add_class_Ok _ _ _ _ Hadd) as Hcla.
      rewrite IH. split.
      * intros (pre & c & post & -> & Hpre & Hc & He).
        exists (cla :: pre), c, post. split; [done|]. split; [|done].
        by constructor.
      * intros ([|c0 pre] & c & post & Hl & Hpre & Hc & He).
        -- injection Hl as <- <-. rewrite (Hcla e) in He by done. done.
        -- injection Hl as <- ->. exists pre, c, post.
           split; [done|]. split; [by apply Forall_inv_tail in Hpre|done].
    + apply add_class_Raise in Hadd as [Hsubs He']. split.
      * intros [= <-]. exists [], cla, l. by repeat split.
      * intros ([|c0 pre] & c & post & Hl & Hpre & Hc & He).
        -- injection Hl as <- <-. congruence.
        -- injection Hl as <- ->. apply Forall_inv in Hpre.
           rewrite (Hpre e') in He' by done. done.
Qed.

Lemma new_classes_Raise (check_classes : list C) (e : exn) :
  new_classes ontology check_classes = Raise e
  <-> exists pre cla post,
        check_classes = pre ++ cla :: post /\ Forall (caught ontology) pre
        /\ subclasses ontology cla = Raise e /\ is_Exception e = false.
Proof. apply new_classes_loop_Raise. Qed.

(** The classes checked are the classes of the terms. *)
Lemma classes_of_terms (terms : list string) (cla : C) :
  In cla (omap id (map (search_one ontology) terms))
  <-> exists t, In t terms /\ search_one ontology t = Some cla.
Proof.
  induction terms as [|t l IH]; simpl.
  - split; [done|]. by intros (? & [] & _).
  - destruct (search_one ontology t) as [c|] eqn:Ht; simpl.
    + change (list_omap _ _ id (map (search_one ontology) l))
        with (omap id (map (search_one ontology) l)).
      rewrite IH. split.
      * intros [->|(t' & Hin & Ht')]; [by exists t; split; [left|]|].
        exists t'. split; [by right|done].
      * intros (t' & [->|Hin] & Ht'); [left; congruence|].
        right. by exists t'.
    + change (list_omap _ _ id (map (search_one ontology) l))
        with (omap id (map (search_one ontology) l)).
      rewrite IH. split.
      * intros (t' & Hin & Ht'). exists t'. split; [by right|done].
      * intros (t' & [->|Hin] & Ht'); [congruence|]. by exists t'.
Qed.

Lemma caught_classes (terms : list string) :
  (forall t cla, In t terms -> search_one ontology t = Some cla -> caught ontology cla)
  <-> Forall (caught ontology) (omap id (map (search_one ontology) terms)).
Proof.
  rewrite Forall_forall. split.
  - intros Hterms cla (t & Hin & Ht)%list_elem_of_In%classes_of_terms.
    by apply (Hterms t).
  - intros Hclasses t cla Hin Ht. apply Hclasses, list_elem_of_In, classes_of_terms.
    by exists t.
Qed.

Lemma existsb_pointwise {A : Type} (f g : A -> bool) (l : list A) :
  (forall x, f x = g x) -> existsb f l = existsb g l.
Proof. intros Hfg. induction l as [|x l IH]; simpl; [done|]. by rewrite Hfg, IH. Qed.

Lemma existsb_classes_of_terms (terms : list string) (subcla : C) :
  existsb (class_eqb ontology subcla) (omap id (map (search_one ontology) terms))
  = class_among ontology terms subcla.
Proof.
  unfold class_among. induction terms as [|t l IH]; simpl; [done|].
  destruct (search_one ontology t); simpl; by rewrite <- IH.
Qed.

Lemma keeps_class_of_term (terms : list string) (term : string) (cla : C) :
  search_one ontology term = Some cla ->
  keeps_class ontology (omap id (map (search_one ontology) terms)) cla
  = match subclasses ontology cla with
    | Ok _ => negb (has_subclass_among ontology terms term)
    | Raise _ => false
    end.
Proof.
  intros Hcla. unfold keeps_class, has_subclass_among. rewrite Hcla.
  destruct (subclasses ontology cla) as [subs|e]; [|done].
  rewrite include_class_existsb. f_equal.
  apply existsb_pointwise. intros subcla. apply existsb_classes_of_terms.
Qed.

(** Back to terms: when each term that has a class is the first label of its
    class, the labels of the classes kept are the terms whose class is kept. *)
Lemma labels_of_kept (keep : C -> bool) (terms : list string) :
  (forall t cla, In t terms -> search_one ontology t = Some cla ->
                 exists others, label ontology cla = t :: others) ->
  traverse (fun cla => of_option IndexError (PyStr.index (label ontology cla) 0))
           (List.filter keep (omap id (map (search_one ontology) terms)))
  = Ok (List.filter (fun t => match search_one ontology t with
                              | Some cla => keep cla
                              | None => false
                              end) terms).
Proof.
  induction terms as [|t l IH]; intros Hterms; [done|]. simpl.
  specialize (IH (fun t' cla Ht' => Hterms t' cla (or_intror Ht'))).
  destruct (search_one ontology t) as [cla|] eqn:Hcla; [|exact IH].
  destruct (Hterms t cla (or_introl eq_refl) Hcla) as [others Hlabel].
  cbn [List.filter]. destruct (keep cla); [|exact IH].
  cbn [traverse]. rewrite Hlabel. simpl.
  change (list_omap _ _ id (map (search_one ontology) l))
    with (omap id (map (search_one ontology) l)).
  by rewrite IH.
Qed.

End ReduceOntologyTermsFacts.

Section ReduceOntologyTermsSpec.
Context {C : Type} (ontology : Ontology C).

(** Whatever the terms, the result is the first label of each class kept. *)
Lemma reduce_ontology_terms_classes (terms : list string) :
  terms <> [] ->
  Forall (caught ontology) (omap id (map (search_one ontology) terms)) ->
  reduce_ontology_terms ontology terms
  = traverse (fun cla => of_option IndexError (PyStr.index (label ontology cla) 0))
      (List.filter
         (keeps_class ontology (omap id (map (search_one ontology) terms)))
         (omap id (map (search_one ontology) terms))).
Proof.
  intros Hterms Hcaught. unfold reduce_ontology_terms.
  destruct terms as [|t l]; [done|]. by rewrite new_classes_filter.
Qed.

Lemma has_subclass_among_spec (terms : list string) (term : string)
    (cla : C) (subs : list C) :
  (forall c1 c2, class_eqb ontology c1 c2 = true <-> c1 = c2) ->
  search_one ontology term = Some cla ->
  subclasses ontology cla = Ok subs ->
  has_subclass_among ontology terms term = true
  <-> exists term', In term' terms /\ subclass_term ontology term' term.
Proof.
  intros Heqb Hcla Hsubs. unfold has_subclass_among. rewrite Hcla, Hsubs.
  rewrite existsb_exists. split.
  - intros (subcla & Hsub & Hamong). unfold class_among in Hamong.
    apply existsb_exists in Hamong as (term' & Hin & Hclass).
    destruct (search_one ontology term') as [cla2|] eqn:Hcla2; [|done].
    apply Heqb in Hclass as ->.
    exists term'. split; [done|]. by exists cla, cla2, subs.
  - intros (term' & Hin & cla0 & cla' & subs0 & Hcla0 & Hcla' & Hsubs0 & Hsub).
    rewrite Hcla in Hcla0. injection Hcla0 as <-.
    rewrite Hsubs in Hsubs0. injection Hsubs0 as <-.
    exists cla'. split; [done|]. unfold class_among. apply existsb_exists.
    exists term'. split; [done|]. rewrite Hcla'. by apply Heqb.
Qed.

(** Whatever the terms: when each term that has a class is the first label
    of its class, the terms returned are the terms given that have a class
    whose subclasses can be listed, without those that have the class of a
    term of the list among these subclasses. A term without a class is left
    out. *)
Lemma reduce_ontology_terms_general (terms : list string) :
  (forall t cla, In t terms -> search_one ontology t = Some cla ->
                 exists others, label ontology cla = t :: others) ->
  (forall t cla, In t terms -> search_one ontology t = Some cla ->
                 caught ontology cla) ->
  reduce_ontology_terms ontology terms
  = Ok (List.filter
          (fun t => match search_one ontology t with
                    | Some cla =>
                        match subclasses ontology cla with
                        | Ok _ => negb (has_subclass_among ontology terms t)
                        | Raise _ => false
                        end
                    | None => false
                    end) terms).
Proof.
  intros Hlabels Hcaught.
  destruct terms as [|t0 l0] eqn:Hl; [done|]. rewrite <- Hl in *.
  rewrite reduce_ontology_terms_classes
    by (by rewrite Hl) || by apply caught_classes.
  rewrite labels_of_kept by done.
  f_equal. apply filter_ext_in. intros t Ht.
  destruct (search_one ontology t) as [cla|] eqn:Hcla; [|done].
  by rewrite (keeps_class_of_term ontology terms t cla Hcla).
Qed.

(** What the code does: for terms of the ontology (each has its class, of
    which it is the first label, the subclasses of the class can be listed
    and the class is not among them, and [==] on classes is equality), the
    terms returned are the terms given, in their order, without those that
    have the class of a term of the list among the classes [subclasses()]
    lists for their class. The empty list is returned as it is. *)
Lemma reduce_ontology_terms_listed (terms : list string) :
  (forall c1 c2, class_eqb ontology c1 c2 = true <-> c1 = c2) ->
  (forall t, In t terms ->
             exists cla subs, names_class ontology t cla
                              /\ subclasses ontology cla = Ok subs
                              /\ ~ In cla subs) ->
  reduce_ontology_terms ontology [] = Ok [] /\
  exists kept,
    reduce_ontology_terms ontology terms = Ok kept /\
    kept = List.filter (fun t => negb (has_subclass_among ontology terms t)) terms /\
    forall t, In t terms ->
              (~ In t kept
               <-> exists t', In t' terms /\ t' <> t /\ subclass_term ontology t' t).
Proof.
  intros Heqb Hterms. split; [done|].
  eexists. split; [|split; [reflexivity|]].
  - rewrite reduce_ontology_terms_general.
    + f_equal. apply filter_ext_in. intros t Ht.
      destruct (Hterms t Ht) as (cla & subs & [Hcla _] & Hsubs & _).
      by rewrite Hcla, Hsubs.
    + intros t cla' Ht Hcla'.
      destruct (Hterms t Ht) as (cla & _ & [Hcla Hlabel] & _).
      rewrite Hcla in Hcla'. by injection Hcla' as <-.
    + intros t cla' Ht Hcla' e.
      destruct (Hterms t Ht) as (cla & subs & [Hcla _] & Hsubs & _).
      rewrite Hcla in Hcla'. injection Hcla' as <-. congruence.
  - intros t Ht.
    destruct (Hterms t Ht) as (cla & subs & [Hcla Hlabel] & Hsubs & Hirrefl).
    rewrite filter_In, negb_true_iff. split.
    + intros Hdropped.
      assert (has_subclass_among ontology terms t = true) as Hhas.
      { destruct (has_subclass_among ontology terms t); [done|].
        destruct Hdropped. by split. }
      apply (has_subclass_among_spec terms t cla subs Heqb Hcla Hsubs) in Hhas
        as (t' & Hin & Hsub).
      exists t'. split; [done|]. split; [|done]. intros ->.
      destruct Hsub as (cla0 & cla' & subs0 & Hcla0 & Hcla' & Hsubs0 & Hsub).
      rewrite Hcla in Hcla0, Hcla'. injection Hcla0 as <-. injection Hcla' as <-.
      rewrite Hsubs in Hsubs0. injection Hsubs0 as <-. done.
    + intros (t' & Hin & _ & Hsub) [_ Hkept].
      assert (has_subclass_among ontology terms t = true) as Hhas
        by (apply (has_subclass_among_spec terms t cla subs Heqb Hcla Hsubs);
            by exists t').
      congruence.
Qed.

End ReduceOntologyTermsSpec.

Example reduce_ontology_terms_parent_and_child :
  reduce_ontology_terms mini_edam ["Analysis"; "Sequence analysis"; "Visualisation"]
  = Ok ["Sequence analysis"; "Visualisation"].
Proof. reflexivity. Qed.

Example reduce_ontology_terms_chain :
  reduce_ontology_terms mini_edam
    ["Operation"; "Analysis"; "Sequence analysis"; "Sequence alignment"]
  = Ok ["Sequence alignment"].
Proof. reflexivity. Qed.

(** C1, where the code misses it: [subclasses()] lists the direct
    subclasses of a class, as owlready2 does, and the code looks no further.
    [Sequence alignment] is a subclass of [Analysis], two levels down, and
    [Analysis] is returned next to it, a super-class of another term of the
    list. *)
Theorem reduce_ontology_terms_keeps_superclass :
  search_one mini_edam "Analysis" = Some Analysis /\
  search_one mini_edam "Sequence alignment" = Some SequenceAlignment /\
  subclass_of mini_edam SequenceAlignment Analysis /\
  reduce_ontology_terms mini_edam ["Analysis"; "Sequence alignment"]
  = Ok ["Analysis"; "Sequence alignment"].
Proof.
  split; [reflexivity|]. split; [reflexivity|]. split; [|reflexivity].
  apply (subclass_of_subclass mini_edam _ SequenceAnalysis).
  - apply (listed_subclass mini_edam _ SequenceAnalysis [SequenceAlignment]).
    + reflexivity.
    + by left.
  - apply (listed_subclass mini_edam _ Analysis [SequenceAnalysis]).
    + reflexivity.
    + by left.
Qed.

(** A term the ontology has no class for is left out. *)
Example reduce_ontology_terms_unknown_term :
  reduce_ontology_terms mini_edam ["Phylogenetics"; "Analysis"] = Ok ["Analysis"].
Proof. reflexivity. Qed.

Lemma reduce_ontology_terms_listed_example :
  reduce_ontology_terms mini_edam [] = Ok [] /\
  exists kept,
    reduce_ontology_terms mini_edam ["Analysis"; "Sequence analysis"] = Ok kept /\
    kept = List.filter
             (fun t => negb (has_subclass_among mini_edam
                               ["Analysis"; "Sequence analysis"] t))
             ["Analysis"; "Sequence analysis"] /\
    forall t, In t ["Analysis"; "Sequence analysis"] ->
              (~ In t kept
               <-> exists t', In t' ["Analysis"; "Sequence analysis"] /\ t' <> t
                              /\ subclass_term mini_edam t' t).
Proof.
  apply (reduce_ontology_terms_listed mini_edam ["Analysis"; "Sequence analysis"]).
  - intros c1 c2. simpl. apply bool_decide_eq_true.
  - intros t [<-|[<-|[]]].
    + exists Analysis, [SequenceAnalysis]. repeat split.
      * by exists [].
      * simpl. intros [|[]]; discriminate.
    + exists SequenceAnalysis, [SequenceAlignment]. repeat split.
      * by exists [].
      * simpl. intros [|[]]; discriminate.
Defined.

(** ** [export_to_json] and [load_json] *)

(** Induction on Python values, with the hypothesis on the elements of a
    sequence and on the values of a dict. *)
Lemma pyval_ind (P : pyval -> Prop) :
  P PyNone ->
  (forall b, P (PyBool b)) ->
  (forall z, P (PyInt z)) ->
  (forall x, P (PyFloat x)) ->
  (forall s, P (PyStr s)) ->
  (forall l, Forall P l -> P (PyList l)) ->
  (forall l, Forall P l -> P (PyTuple l)) ->
  (forall l, Forall P l -> P (PySet l)) ->
  (forall items, Forall (fun kv => P kv.2) items -> P (PyDict items)) ->
  forall v, P v.
Proof.
  intros HNone HBool HInt HFloat HStr HList HTuple HSet HDict.
  fix IH 1. intros v.
  assert (forall l : list pyval, Forall P l) as Hall.
  { fix IHl 1. intros [|x l]; constructor; [apply IH | apply IHl]. }
  destruct v as [|b|z|x|s|l|l|l|items].
  - exact HNone.
  - apply HBool.
  - apply HInt.
  - apply HFloat.
  - apply HStr.
  - apply HList, Hall.
  - apply HTuple, Hall.
  - apply HSet, Hall.
  - apply HDict. revert items. fix IHl 1.
    intros [|[k x] items]; constructor; [apply IH | apply IHl].
Qed.

Module PyFloatFacts.
Import PyFloatOps.

Lemma eqb_refl (x : pyfloat) : eqb x x = true.
Proof.
  destruct x as [s m e|s]; simpl.
  - rewrite Z.min_id, Z.sub_diag, Z.eqb_refl. by destruct s.
  - by destruct s.
Qed.

Lemma same_eq (x y : pyfloat) : same x y = true -> x = y.
Proof.
  destruct x as [s1 m1 e1|s1], y as [s2 m2 e2|s2]; simpl; try done.
  - intros [[Hs Hm]%andb_true_iff He]%andb_true_iff.
    apply Bool.eqb_prop in Hs. apply N.eqb_eq in Hm. apply Z.eqb_eq in He.
    by subst.
  - intros Hs. apply Bool.eqb_prop in Hs. by subst.
Qed.

End PyFloatFacts.

Module PyDictFacts.
Import PyDictOps.

Section Dict.
Context {V : Type}.
Implicit Types (d l : list (string * V)) (k : string) (v : V).

Lemma get_None d k : k ∉ d.*1 -> get d k = None.
Proof.
  induction d as [|[k' v'] d IH]; [done|]. simpl. intros Hk.
  apply not_elem_of_cons in Hk as [Hne Hk].
  destruct (String.eqb_spec k' k); [congruence|]. by apply IH.
Qed.

Lemma get_In d k v : NoDup d.*1 -> In (k, v) d -> get d k = Some v.
Proof.
  induction d as [|[k' v'] d IH]; [done|]. simpl.
  intros [Hk' Hd]%NoDup_cons [[= -> ->]|Hin].
  - by rewrite String.eqb_refl.
  - destruct (String.eqb_spec k' k) as [->|_]; [|by apply IH].
    destruct Hk'. apply list_elem_of_In. apply (in_map fst) in Hin. apply Hin.
Qed.

Lemma set_fresh d k v : k ∉ d.*1 -> set d k v = d ++ [(k, v)].
Proof.
  induction d as [|[k' v'] d IH]; [done|]. simpl. intros Hk.
  apply not_elem_of_cons in Hk as [Hne Hk].
  destruct (String.eqb_spec k' k); [congruence|]. by rewrite IH.
Qed.

Lemma of_pairs_loop l d :
  NoDup (d ++ l).*1 -> fold_left (fun d kv => set d kv.1 kv.2) l d = d ++ l.
Proof.
  revert d. induction l as [|[k v] l IH]; intros d Hnd; simpl.
  - by rewrite app_nil_r.
  - rewrite set_fresh.
    + rewrite IH; rewrite <- app_assoc; [done|]. exact Hnd.
    + rewrite fmap_app, fmap_cons in Hnd. simpl in Hnd.
      apply NoDup_app in Hnd as (_ & Hdisj & _).
      intros Hk. apply (Hdisj k Hk). by left.
Qed.

(** The dict of distinct keys and their values has these items, in order. *)
Lemma of_pairs_distinct l : NoDup l.*1 -> of_pairs l = l.
Proof. intros Hnd. unfold of_pairs. by rewrite of_pairs_loop. Qed.

Lemma sorted_items_Permutation d : sorted_items d ≡ₚ d.
Proof. apply merge_sort_Permutation. Qed.

End Dict.

Lemma key_order_total {V : Type} :
  Total (fun x y : string * V => String.le x.1 y.1).
Proof.
  intros x y. unfold String.le.
  destruct (String.leb_total x.1 y.1) as [H|H]; rewrite H; [by left | by right].
Qed.

Lemma sorted_items_Sorted {V : Type} (d : list (string * V)) :
  Sorted (fun x y => String.le x.1 y.1) (sorted_items d).
Proof. apply Sorted_merge_sort, key_order_total. Qed.

End PyDictFacts.

Section RoundTrip.

Lemma py_eqb_list (l1 l2 : list pyval) :
  py_eqb (PyList l1) (PyList l2) = true
  <-> Forall2 (fun a b => py_eqb a b = true) l1 l2.
Proof.
  revert l2. induction l1 as [|x l1 IH]; intros [|y l2].
  - split; [constructor | done].
  - split; [done | intros H; inversion H].
  - split; [done | intros H; inversion H].
  - change (py_eqb (PyList (x :: l1)) (PyList (y :: l2)))
      with (py_eqb x y && py_eqb (PyList l1) (PyList l2)).
    rewrite andb_true_iff, IH. split.
    + intros [Hxy Hl]. by constructor.
    + intros H. by inversion H.
Qed.

Lemma py_eqb_dict (d1 d2 : list (string * pyval)) :
  length d1 = length d2 ->
  (forall k v1, In (k, v1) d1 ->
                exists v2, PyDictOps.get d2 k = Some v2 /\ py_eqb v1 v2 = true) ->
  py_eqb (PyDict d1) (PyDict d2) = true.
Proof.
  intros Hlen Hitems.
  change (py_eqb (PyDict d1) (PyDict d2))
    with ((length d1 =? length d2)%nat
          && forallb (fun kv => match PyDictOps.get d2 kv.1 with
                                | Some v2 => py_eqb kv.2 v2
                                | None => false
                                end) d1).
  rewrite Hlen, Nat.eqb_refl. simpl. apply forallb_forall.
  intros [k v1] Hin. destruct (Hitems k v1 Hin) as (v2 & Hget & Heq).
  simpl. by rewrite Hget.
Qed.

Lemma json_dump_dict (sort_keys : bool) (items : list (string * pyval)) :
  json_dump sort_keys (PyDict items)
  = JObject (if sort_keys
             then PyDictOps.sorted_items
                    (map (fun kv => (kv.1, json_dump sort_keys kv.2)) items)
             else map (fun kv => (kv.1, json_dump sort_keys kv.2)) items).
Proof. reflexivity. Qed.

Lemma json_load_object (members : list (string * json)) :
  json_load (JObject members)
  = PyDict (PyDictOps.of_pairs (map (fun kv => (kv.1, json_load kv.2)) members)).
Proof. reflexivity. Qed.

(** The items a dumped dict is loaded with: those of the dict, each value
    dumped and loaded, in the order of the document. *)
Lemma reloaded_items (sort_keys : bool) (items : list (string * pyval)) :
  NoDup items.*1 ->
  exists d,
    json_load (json_dump sort_keys (PyDict items)) = PyDict d
    /\ d ≡ₚ map (fun kv => (kv.1, json_load (json_dump sort_keys kv.2))) items.
Proof.
  intros Hnd. rewrite json_dump_dict, json_load_object.
  set (members := map (fun kv => (kv.1, json_dump sort_keys kv.2)) items).
  set (members' := if sort_keys then PyDictOps.sorted_items members else members).
  assert (members' ≡ₚ members) as Hperm
    by (subst members'; destruct sort_keys;
        [apply PyDictFacts.sorted_items_Permutation | done]).
  exists (map (fun kv => (kv.1, json_load kv.2)) members'). split.
  - f_equal. apply PyDictFacts.of_pairs_distinct.
    assert ((map (fun kv : string * json => (kv.1, json_load kv.2)) members').*1
            ≡ₚ items.*1) as ->; [|done].
    rewrite Hperm. subst members.
    change (map ?f ?l) with (f <$> l). rewrite <- !list_fmap_compose.
    apply reflexive_eq. by apply list_fmap_ext.
  - change (map ?f ?l) with (f <$> l) in *. rewrite Hperm. subst members.
    rewrite <- list_fmap_compose. apply reflexive_eq. by apply list_fmap_ext.
Qed.

(** What is loaded from the dump of a value is the value with its tuples and
    sets turned into lists, up to the order of the keys. *)
Lemma reload_listified (v : pyval) :
  distinct_keys v = true ->
  py_eqb (json_load (json_dump true v)) (listified v) = true.
Proof.
  assert (forall l : list pyval,
            Forall (fun x => distinct_keys x = true ->
                             py_eqb (json_load (json_dump true x)) (listified x) = true) l ->
            forallb distinct_keys l = true ->
            py_eqb (PyList (map json_load (map (json_dump true) l)))
                   (PyList (map listified l)) = true) as Hseq.
  { intros l IH Hl. apply py_eqb_list.
    induction IH as [|x l Hx _ IHl]; [constructor|].
    simpl in Hl. apply andb_true_iff in Hl as [Hdx Hdl].
    simpl. constructor; [by apply Hx | by apply IHl]. }
  induction v as [|b|z|x|s|l IH|l IH|l IH|items IH] using pyval_ind; intros Hd.
  - done.
  - simpl. by destruct b.
  - simpl. apply Z.eqb_refl.
  - simpl. apply PyFloatFacts.eqb_refl.
  - simpl. apply String.eqb_refl.
  - by apply Hseq.
  - by apply Hseq.
  - by apply Hseq.
  - simpl in Hd. apply andb_true_iff in Hd as [Hnd Hvals].
    apply bool_decide_eq_true in Hnd.
    destruct (reloaded_items true items Hnd) as (d & -> & Hperm).
    change (listified (PyDict items))
      with (PyDict (map (fun kv => (kv.1, listified kv.2)) items)).
    apply py_eqb_dict.
    + rewrite Hperm. by rewrite !length_map.
    + intros k v1 Hin. apply list_elem_of_In in Hin. rewrite Hperm in Hin.
      apply list_elem_of_In, in_map_iff in Hin as ([k' x] & [= <- <-] & Hin).
      exists (listified x). split.
      * apply PyDictFacts.get_In.
        -- change (map ?f ?l) with (f <$> l). rewrite <- list_fmap_compose.
           by erewrite list_fmap_ext; [exact Hnd|].
        -- apply in_map_iff. by exists (k', x).
      * rewrite Forall_forall in IH. apply (IH (k', x)).
        -- by apply list_elem_of_In.
        -- rewrite forallb_forall in Hvals. by apply (Hvals (k', x)).
Qed.

End RoundTrip.

Lemma native_listified (v : pyval) :
  json_native v = true -> listified v = v /\ distinct_keys v = true.
Proof.
  induction v as [|b|z|x|s|l IH|l IH|l IH|items IH] using pyval_ind;
    try done; intros Hv; simpl in Hv.
  - assert (map listified l = l /\ forallb distinct_keys l = true) as [Hl Hd].
    { induction IH as [|x l Hx _ IHl]; [done|].
      simpl in Hv. apply andb_true_iff in Hv as [Hvx Hvl].
      destruct (Hx Hvx) as [Hlx Hdx], (IHl Hvl) as [Hl Hdl].
      simpl. by rewrite Hlx, Hl, Hdx, Hdl. }
    simpl. by rewrite Hl, Hd.
  - apply andb_true_iff in Hv as [Hnd Hvals].
    assert (map (fun kv : string * pyval => (kv.1, listified kv.2)) items = items
            /\ forallb (fun kv => distinct_keys kv.2) items = true) as [Hl Hd].
    { clear Hnd. induction IH as [|[k x] items Hx _ IHl]; [done|].
      simpl in Hvals. apply andb_true_iff in Hvals as [Hvx Hvl].
      destruct (Hx Hvx) as [Hlx Hdx], (IHl Hvl) as [Hl Hdl].
      simpl in *. by rewrite Hl, Hlx, Hdx, Hdl. }
    simpl. by rewrite Hl, Hd, Hnd.
Qed.

(** Without [sort_keys] the members are written in the order of the dict,
    and what is loaded is the value with its tuples and sets turned into
    lists, keys in the same order. *)
Lemma reload_unsorted (v : pyval) :
  distinct_keys v = true ->
  json_load (json_dump false v) = listified v.
Proof.
  assert (forall l : list pyval,
            Forall (fun x => distinct_keys x = true ->
                             json_load (json_dump false x) = listified x) l ->
            forallb distinct_keys l = true ->
            map json_load (map (json_dump false) l) = map listified l) as Hseq.
  { intros l IH Hl. induction IH as [|x l Hx _ IHl]; [done|].
    simpl in Hl. apply andb_true_iff in Hl as [Hdx Hdl].
    simpl. by rewrite Hx, IHl. }
  induction v as [|b|z|x|s|l IH|l IH|l IH|items IH] using pyval_ind; intros Hd;
    try done; try (simpl; f_equal; by apply Hseq).
  simpl in Hd. apply andb_true_iff in Hd as [Hnd Hvals].
  apply bool_decide_eq_true in Hnd.
  rewrite json_dump_dict, json_load_object. cbn [listified]. f_equal.
  rewrite PyDictFacts.of_pairs_distinct.
  - rewrite map_map. simpl.
    induction IH as [|[k x] items Hx _ IHl]; [done|].
    simpl in Hvals. apply andb_true_iff in Hvals as [Hdx Hdl].
    apply NoDup_cons in Hnd as [_ Hnd].
    simpl in *. by rewrite Hx, IHl.
  - change (map ?f ?l) with (f <$> l). rewrite <- !list_fmap_compose.
    by erewrite list_fmap_ext; [exact Hnd|].
Qed.

(** The document written with [sort_keys] has the members of each of its
    objects in the order of their keys. *)
Lemma json_dump_keys_sorted (v : pyval) : keys_sorted (json_dump true v).
Proof.
  assert (forall l : list pyval,
            Forall (fun x => keys_sorted (json_dump true x)) l ->
            keys_sorted (JArray (map (json_dump true) l))) as Hseq.
  { intros l IH. simpl. induction IH as [|x l Hx _ IHl]; simpl; [done|]. by split. }
  induction v as [|b|z|x|s|l IH|l IH|l IH|items IH] using pyval_ind;
    try done; try by apply Hseq.
  rewrite json_dump_dict. split; [apply PyDictFacts.sorted_items_Sorted|].
  set (members := map _ items).
  assert (Forall (fun kv : string * json => keys_sorted kv.2) members) as Hmembers.
  { subst members. apply Forall_forall. intros kv Hin.
    apply list_elem_of_In, in_map_iff in Hin as ([k x] & <- & Hin).
    rewrite Forall_forall in IH. apply (IH (k, x)). by apply list_elem_of_In. }
  assert (Forall (fun kv : string * json => keys_sorted kv.2)
                 (PyDictOps.sorted_items members)) as Hsorted
    by (by rewrite PyDictFacts.sorted_items_Permutation).
  induction Hsorted as [|kv l Hkv _ IHl]; simpl; [done|]. by split.
Qed.

(** ** The text of a JSON document *)

Module JsonTextFacts.
Import JsonText PyStrFacts.
#[local] Open Scope nat_scope.

Lemma skip_ws_head (c : ascii) (s : string) :
  is_ws c = false -> skip_ws (String c s) = String c s.
Proof. intros Hc. simpl. by rewrite Hc. Qed.

Lemma skip_ws_spaces (n : nat) (s : string) :
  skip_ws (spaces n +:+ s) = skip_ws s.
Proof. induction n as [|n IH]; [done|]. simpl spaces. by rewrite append_cons. Qed.

Lemma skip_ws_newline_indent (level : nat) (s : string) :
  skip_ws (newline_indent level +:+ s) = skip_ws s.
Proof.
  unfold newline_indent. rewrite append_cons.
  change (skip_ws (String "010" ?t)) with (skip_ws t).
  apply skip_ws_spaces.
Qed.

(** *** Strings *)

Lemma parse_string_escape (s rest : string) :
  parse_string (escape s +:+ String dquote rest) = Some (s, rest).
Proof.
  induction s as [|c s IH].
  - rewrite append_nil_l. simpl. done.
  - cbn [escape]. rewrite append_assoc.
    destruct c as [[] [] [] [] [] [] [] []];
      vm_compute escape_char; rewrite ?append_cons, append_nil_l;
      cbn -[escape String.append]; by rewrite IH.
Qed.

Lemma parse_quoted (s rest : string) :
  exists t, quoted s +:+ rest = String dquote t
            /\ parse_string t = Some (s, rest).
Proof.
  exists (escape s +:+ String dquote rest). split.
  - unfold quoted. by rewrite append_cons, append_assoc, append_cons, append_nil_l.
  - apply parse_string_escape.
Qed.

(** *** Numbers *)

Lemma uint_text_number_chars (d : Decimal.uint) :
  all_chars is_number_char (DecimalString.NilEmpty.string_of_uint d) = true.
Proof. induction d; simpl; by rewrite ?IHd. Qed.

Lemma str_Z_number_chars (z : Z) : all_chars is_number_char (str z) = true.
Proof.
  unfold str, str_Z, DecimalString.NilZero.string_of_int.
  destruct (Z.to_int z) as [d|d]; unfold DecimalString.NilZero.string_of_uint.
  - destruct d; try done; simpl; apply uint_text_number_chars.
  - simpl. destruct d; try done; simpl; apply uint_text_number_chars.
Qed.

Lemma str_Z_not_empty (z : Z) : exists c t, str z = String c t.
Proof.
  unfold str, str_Z, DecimalString.NilZero.string_of_int.
  destruct (Z.to_int z) as [d|d]; [|by eexists _, _].
  unfold DecimalString.NilZero.string_of_uint. destruct d; by eexists _, _.
Qed.

Lemma span_number_token (token rest : string) :
  all_chars is_number_char token = true -> ends_value rest ->
  span_number (token +:+ rest) = (token, rest).
Proof.
  intros Htoken Hrest. induction token as [|c token IH].
  - rewrite append_nil_l. destruct rest as [|c rest]; [done|].
    simpl in *. by rewrite Hrest.
  - simpl in Htoken. apply andb_true_iff in Htoken as [Hc Htoken].
    rewrite append_cons. simpl. by rewrite Hc, (IH Htoken).
Qed.

Lemma parse_int_str (z : Z) : parse_int (str z) = Some z.
Proof.
  unfold parse_int, str, str_Z.
  rewrite DecimalString.NilZero.isi.
  - by rewrite DecimalZ.of_to, String.eqb_refl.
  - destruct z; simpl; try discriminate.
    intros [= H]. by apply DecimalPos.Unsigned.to_uint_nonnil in H.
  - destruct z; simpl; try discriminate.
    intros [= H]. by apply DecimalPos.Unsigned.to_uint_nonnil in H.
Qed.

(** A character of a number is none of those the parser looks for before it
    takes a number. *)
Lemma number_char_dispatch (c : ascii) :
  is_number_char c = true ->
  is_ws c = false /\ Ascii.eqb c "n" = false /\ Ascii.eqb c "t" = false
  /\ Ascii.eqb c "f" = false /\ Ascii.eqb c dquote = false
  /\ Ascii.eqb c "[" = false /\ Ascii.eqb c "{" = false
  /\ Ascii.eqb c "]" = false /\ Ascii.eqb c "}" = false.
Proof. destruct c as [[] [] [] [] [] [] [] []]; by vm_compute. Qed.

Lemma number_char_not_I (c : ascii) :
  is_number_char c = true -> Ascii.eqb c "I" = false /\ Ascii.eqb "I" c = false.
Proof. destruct c as [[] [] [] [] [] [] [] []]; by vm_compute. Qed.

Lemma uint_text_int_chars (d : Decimal.uint) :
  all_chars is_int_char (DecimalString.NilEmpty.string_of_uint d) = true.
Proof. induction d; simpl; by rewrite ?IHd. Qed.

Lemma str_Z_int_chars (z : Z) : all_chars is_int_char (str z) = true.
Proof.
  unfold str, str_Z, DecimalString.NilZero.string_of_int.
  destruct (Z.to_int z) as [d|d]; unfold DecimalString.NilZero.string_of_uint.
  - destruct d; try done; simpl; apply uint_text_int_chars.
  - simpl. destruct d; try done; simpl; apply uint_text_int_chars.
Qed.

Lemma int_char_number_char (c : ascii) :
  is_int_char c = true ->
  is_number_char c = true
  /\ negb (Ascii.eqb c "." || Ascii.eqb c "e" || Ascii.eqb c "E") = true.
Proof. destruct c as [[] [] [] [] [] [] [] []]; by vm_compute. Qed.

Lemma is_float_token_str (z : Z) : is_float_token (str z) = false.
Proof.
  unfold is_float_token. apply negb_false_iff.
  eapply all_chars_impl; [|apply str_Z_int_chars].
  intros c Hc. by apply int_char_number_char.
Qed.

Lemma parse_number_str (z : Z) : parse_number (str z) = Some (JNumber z).
Proof. unfold parse_number. by rewrite is_float_token_str, parse_int_str. Qed.

(** A number is parsed from its token, whatever follows that a number cannot
    go on with. *)
Lemma parse_value_number (fuel : nat) (token rest : string) (x : json) :
  all_chars is_number_char token = true ->
  parse_number token = Some x ->
  ends_value rest ->
  parse_value (S fuel) (token +:+ rest) = Some (x, rest).
Proof.
  intros Hchars Hparse Hrest.
  destruct token as [|c token]; [done|].
  pose proof Hchars as [Hc Htoken]%andb_true_iff.
  destruct (number_char_dispatch c Hc) as (Hws & Hn & Ht & Hf & Hq & Ha & Ho & _).
  destruct (number_char_not_I c Hc) as [HI _].
  cbn [parse_value]. rewrite append_cons, (skip_ws_head c) by done.
  rewrite Hn, Ht, Hf, Hq, Ha, Ho, HI, Hc.
  assert (Ascii.eqb c "-" && PyStr.startswith (token +:+ rest) "Infinity" = false)
    as ->.
  { destruct (Ascii.eqb c "-") eqn:Hminus; [|done].
    apply Ascii.eqb_eq in Hminus. subst c.
    destruct token as [|c' token]; [by vm_compute in Hparse|].
    cbn [all_chars] in Htoken. apply andb_true_iff in Htoken as [Hc' _].
    destruct (number_char_not_I c' Hc') as [_ HI'].
    rewrite append_cons. cbn [PyStr.startswith andb]. by rewrite HI'. }
  rewrite <- append_cons, span_number_token by done.
  by rewrite Hparse.
Qed.

(** The text of a float the model covers is a token read as the float. *)
Lemma float_covered_text (x : pyfloat) :
  float_covered x = true ->
  (exists s, x = Inf s)
  \/ (all_chars is_number_char (float_text x) = true
      /\ parse_number (float_text x) = Some (JFloat x)).
Proof.
  destruct x as [s m e|s]; [|intros _; left; by exists s].
  unfold float_covered, float_text. intros Hx. right.
  destruct (PyFloatOps.float_repr (Double s m e)) as [token|]; [|done].
  apply andb_true_iff in Hx as [Hchars Hparse]. split; [done|].
  simpl. destruct (parse_number token) as [[| | |y| | |]|]; try done.
  by apply PyFloatFacts.same_eq in Hparse as ->.
Qed.

(** *** Values *)

(** Induction on documents, with the hypothesis on the elements of an array
    and on the values of an object. *)
Lemma json_ind (P : json -> Prop) :
  P JNull ->
  (forall b, P (JBool b)) ->
  (forall z, P (JNumber z)) ->
  (forall x, P (JFloat x)) ->
  (forall s, P (JString s)) ->
  (forall l, Forall P l -> P (JArray l)) ->
  (forall members, Forall (fun kv => P kv.2) members -> P (JObject members)) ->
  forall j, P j.
Proof.
  intros HNull HBool HNumber HFloat HString HArray HObject.
  fix IH 1. intros [|b|z|x|s|l|members].
  - exact HNull.
  - apply HBool.
  - apply HNumber.
  - apply HFloat.
  - apply HString.
  - apply HArray. revert l. fix IHl 1.
    intros [|x l]; constructor; [apply IH | apply IHl].
  - apply HObject. revert members. fix IHl 1.
    intros [|[k x] members]; constructor; [apply IH | apply IHl].
Qed.

(** A text starts with a character that is not whitespace and closes
    nothing. *)
Lemma json_text_head (level : nat) (j : json) :
  match j with JFloat x => float_covered x = true | _ => True end ->
  exists c t, json_text level j = String c t
              /\ is_ws c = false
              /\ Ascii.eqb c "]" = false /\ Ascii.eqb c "}" = false.
Proof.
  intros Hj.
  assert (forall token x,
            all_chars is_number_char token = true ->
            parse_number token = Some x ->
            exists c t, token = String c t
                        /\ is_ws c = false
                        /\ Ascii.eqb c "]" = false /\ Ascii.eqb c "}" = false)
    as Htoken.
  { intros [|c t] y Hchars Hparse; [done|]. exists c, t. split; [done|].
    simpl in Hchars. apply andb_true_iff in Hchars as [Hc _].
    by destruct (number_char_dispatch c Hc) as (? & _ & _ & _ & _ & _ & _ & ? & ?). }
  destruct j as [|[]|z|x|s|[|y l]|[|kv members]]; try (by eexists _, _).
  - apply (Htoken (str z) (JNumber z));
      [apply str_Z_number_chars | apply parse_number_str].
  - destruct (float_covered_text x Hj) as [[[] ->]|[Hchars Hparse]];
      [by eexists _, _..|].
    by apply (Htoken (float_text x) (JFloat x)).
Qed.

Lemma skip_ws_idem (s : string) : skip_ws (skip_ws s) = skip_ws s.
Proof.
  induction s as [|c s IH]; [done|]. simpl.
  destruct (is_ws c) eqn:Hc; [done|]. simpl. by rewrite Hc.
Qed.

Lemma parse_value_skip_ws (fuel : nat) (s : string) :
  parse_value fuel (skip_ws s) = parse_value fuel s.
Proof. destruct fuel as [|fuel]; [done|]. cbn [parse_value]. by rewrite skip_ws_idem. Qed.

Lemma parse_value_ws (fuel level : nat) (s : string) :
  parse_value fuel (newline_indent level +:+ s) = parse_value fuel s.
Proof.
  rewrite <- parse_value_skip_ws, skip_ws_newline_indent.
  apply parse_value_skip_ws.
Qed.

Lemma parse_value_space (fuel : nat) (s : string) :
  parse_value fuel (String " " s) = parse_value fuel s.
Proof.
  rewrite <- parse_value_skip_ws. change (skip_ws (String " " s)) with (skip_ws s).
  apply parse_value_skip_ws.
Qed.

Lemma parse_elements_ws (fuel level : nat) (s : string) :
  parse_elements fuel (newline_indent level +:+ s) = parse_elements fuel s.
Proof.
  destruct fuel as [|fuel]; [done|]. cbn [parse_elements].
  by rewrite parse_value_ws.
Qed.

Lemma parse_members_ws (fuel level : nat) (s : string) :
  parse_members fuel (newline_indent level +:+ s) = parse_members fuel s.
Proof.
  destruct fuel as [|fuel]; [done|]. cbn [parse_members].
  by rewrite skip_ws_newline_indent.
Qed.

Lemma ends_value_newline_indent (level : nat) (s : string) :
  ends_value (newline_indent level +:+ s).
Proof. unfold newline_indent. by rewrite append_cons. Qed.

Lemma append_comma (s : string) : "," +:+ s = String "," s.
Proof. reflexivity. Qed.

Lemma parse_elements_text (l : list json) (level : nat) (rest : string) :
  Forall parses l -> l <> [] ->
  forall fuel : nat,
    list_sum (map (fun x => S (json_size x)) l) <= fuel ->
    parse_elements fuel
      (PyStr.join ("," +:+ newline_indent (S level)) (map (json_text (S level)) l)
       +:+ (newline_indent level +:+ String "]" rest))
    = Some (l, rest).
Proof.
  intros Hall. induction Hall as [|x l Hx Hl IH]; [done|]. intros _ fuel Hfuel.
  simpl in Hfuel. destruct fuel as [|fuel]; [lia|]. cbn [parse_elements].
  destruct l as [|y l].
  - cbn [map PyStr.join].
    rewrite Hx by (lia || apply ends_value_newline_indent).
    rewrite skip_ws_newline_indent. done.
  - change (map (json_text (S level)) (x :: y :: l))
      with (json_text (S level) x :: map (json_text (S level)) (y :: l)).
    rewrite join_cons by done. rewrite !append_assoc, append_comma.
    rewrite Hx by (simpl in *; lia || done).
    rewrite (skip_ws_head ",") by done. rewrite Ascii.eqb_refl.
    rewrite parse_elements_ws, IH; [done..|]. simpl in *. lia.
Qed.

Lemma member_text (k tv s : string) :
  (quoted k +:+ ": " +:+ tv) +:+ s
  = String dquote (escape k +:+ String dquote (String ":" (String " " (tv +:+ s)))).
Proof.
  unfold quoted. rewrite !append_cons, !append_assoc.
  by rewrite !append_cons, !append_nil_l.
Qed.

Lemma parse_members_text (members : list (string * json)) (level : nat)
    (rest : string) :
  Forall (fun kv => parses kv.2) members -> members <> [] ->
  forall fuel : nat,
    list_sum (map (fun kv => S (json_size kv.2)) members) <= fuel ->
    parse_members fuel
      (PyStr.join ("," +:+ newline_indent (S level))
         (map (fun kv => quoted kv.1 +:+ ": " +:+ json_text (S level) kv.2) members)
       +:+ (newline_indent level +:+ String "}" rest))
    = Some (members, rest).
Proof.
  intros Hall. induction Hall as [|[k x] l Hx Hl IH]; [done|]. intros _ fuel Hfuel.
  simpl in Hfuel, Hx. destruct fuel as [|fuel]; [lia|]. cbn [parse_members].
  destruct l as [|kv l].
  - cbn [map PyStr.join fst snd]. rewrite member_text.
    rewrite (skip_ws_head dquote) by done. rewrite Ascii.eqb_refl.
    rewrite parse_string_escape.
    rewrite (skip_ws_head ":") by done. rewrite Ascii.eqb_refl.
    rewrite parse_value_space.
    rewrite Hx by (lia || apply ends_value_newline_indent).
    rewrite skip_ws_newline_indent. done.
  - change (map ?f ((k, x) :: kv :: l)) with (f (k, x) :: map f (kv :: l)).
    cbn [fst snd]. rewrite join_cons by done.
    rewrite (append_assoc (quoted k +:+ ": " +:+ json_text (S level) x)).
    rewrite member_text.
    rewrite (skip_ws_head dquote) by done. rewrite Ascii.eqb_refl.
    rewrite parse_string_escape.
    rewrite (skip_ws_head ":") by done. rewrite Ascii.eqb_refl.
    rewrite parse_value_space.
    rewrite !append_assoc, append_comma.
    rewrite Hx by (simpl in *; lia || done).
    rewrite (skip_ws_head ",") by done. rewrite Ascii.eqb_refl.
    rewrite parse_members_ws, IH; [done..|]. simpl in *. lia.
Qed.

Lemma numbers_covered_head (x : json) :
  numbers_covered x = true ->
  match x with JFloat y => float_covered y = true | _ => True end.
Proof. by destruct x. Qed.

(** Every document with numbers the model covers is parsed back from its
    text. *)
Lemma parse_value_text (j : json) : numbers_covered j = true -> parses j.
Proof.
  induction j as [|b|z|x|s|l IH|members IH] using json_ind;
    intros Hj level rest [|fuel] Hfuel Hrest; try (simpl in Hfuel; lia).
  - done.
  - by destruct b.
  - cbn [json_text].
    apply parse_value_number;
      [apply str_Z_number_chars | apply parse_number_str | done].
  - cbn [json_text].
    destruct (float_covered_text x Hj) as [[[] ->]|[Hchars Hparse]];
      [done..|].
    by apply parse_value_number.
  - cbn [json_text parse_value].
    destruct (parse_quoted s rest) as (t & Ht & Hparse).
    rewrite Ht, (skip_ws_head dquote) by done.
    change (Ascii.eqb dquote "n") with false. change (Ascii.eqb dquote "t") with false.
    change (Ascii.eqb dquote "f") with false. rewrite Ascii.eqb_refl. cbv iota.
    by rewrite Hparse.
  - destruct l as [|x l]; [done|].
    assert (Forall parses (x :: l)) as IH'.
    { cbn [numbers_covered] in Hj. rewrite forallb_forall in Hj.
      rewrite Forall_forall in IH. apply Forall_forall. intros y Hy.
      apply IH; [done|]. by apply Hj, list_elem_of_In. }
    assert (Hx : numbers_covered x = true)
      by (cbn [numbers_covered forallb] in Hj; by apply andb_true_iff in Hj as [? _]).
    clear IH. rename IH' into IH.
    cbn [json_text parse_value].
    rewrite !append_assoc, append_cons, append_nil_l.
    rewrite (skip_ws_head "[") by done.
    change (Ascii.eqb "[" "n") with false. change (Ascii.eqb "[" "t") with false.
    change (Ascii.eqb "[" "f") with false. change (Ascii.eqb "[" dquote) with false.
    rewrite Ascii.eqb_refl. cbv iota.
    rewrite skip_ws_newline_indent.
    change ("]" +:+ rest) with (String "]" rest).
    pose proof (parse_elements_text (x :: l) level rest IH) as Helements.
    destruct (json_text_head (S level) x (numbers_covered_head x Hx))
      as (c & t & Hxt & Hws & Hclose & _).
    set (text := PyStr.join _ _ +:+ _) in *.
    assert (exists t', text = String c t') as [t' Htext].
    { subst text. cbn [map]. destruct l as [|y l].
      - cbn [PyStr.join]. rewrite Hxt, append_cons. by eexists.
      - rewrite join_cons by done. rewrite Hxt, !append_cons. by eexists. }
    rewrite Htext, (skip_ws_head c) by done. rewrite Hclose, <- Htext.
    rewrite Helements; [done..|]. simpl in Hfuel. simpl. lia.
  - destruct members as [|[k x] members]; [done|].
    assert (Forall (fun kv : string * json => parses kv.2) ((k, x) :: members)) as IH'.
    { cbn [numbers_covered] in Hj. rewrite forallb_forall in Hj.
      rewrite Forall_forall in IH. apply Forall_forall. intros kv Hkv.
      apply IH; [done|]. by apply Hj, list_elem_of_In. }
    clear IH. rename IH' into IH.
    cbn [json_text parse_value].
    rewrite !append_assoc, append_cons, append_nil_l.
    rewrite (skip_ws_head "{") by done.
    change (Ascii.eqb "{" "n") with false. change (Ascii.eqb "{" "t") with false.
    change (Ascii.eqb "{" "f") with false. change (Ascii.eqb "{" dquote) with false.
    change (Ascii.eqb "{" "[") with false.
    rewrite Ascii.eqb_refl. cbv iota.
    rewrite skip_ws_newline_indent.
    change ("}" +:+ rest) with (String "}" rest).
    pose proof (parse_members_text ((k, x) :: members) level rest IH) as Hmembers.
    set (text := PyStr.join _ _ +:+ _) in *.
    assert (exists t', text = String dquote t') as [t' Htext].
    { subst text. cbn [map fst snd]. unfold quoted. destruct members as [|kv members].
      - cbn [PyStr.join]. rewrite !append_cons. by eexists.
      - rewrite join_cons by done. rewrite !append_cons. by eexists. }
    rewrite Htext, (skip_ws_head dquote) by done.
    change (Ascii.eqb dquote "}") with false. cbv iota. rewrite <- Htext.
    rewrite Hmembers; [done..|]. simpl in Hfuel. simpl. lia.
Qed.

(** *** The fuel a text gives *)

Lemma join_length_bound {A : Type} (size : A -> nat) (text : A -> string)
    (sep : string) (l : list A) :
  1 <= String.length sep ->
  Forall (fun a => size a <= String.length (text a)) l ->
  list_sum (map (fun a => S (size a)) l)
  <= String.length (PyStr.join sep (map text l)) + 1.
Proof.
  intros Hsep Hall. induction Hall as [|a l Ha _ IH]; [simpl; lia|].
  destruct l as [|b l].
  - simpl. lia.
  - change (list_sum (map (fun a => S (size a)) (a :: b :: l)))
      with (S (size a) + list_sum (map (fun a => S (size a)) (b :: l))).
    change (map text (a :: b :: l)) with (text a :: map text (b :: l)).
    rewrite join_cons by done. rewrite !length_append. lia.
Qed.

Lemma length_newline_indent (level : nat) : 1 <= String.length (newline_indent level).
Proof. unfold newline_indent. simpl. lia. Qed.

Lemma json_size_length (j : json) :
  numbers_covered j = true ->
  forall level : nat, json_size j <= String.length (json_text level j).
Proof.
  induction j as [|b|z|x|s|l IH|members IH] using json_ind; intros Hj level.
  - simpl. lia.
  - destruct b; simpl; lia.
  - destruct (str_Z_not_empty z) as (c & t & Hz). simpl. rewrite Hz. simpl. lia.
  - destruct (json_text_head level (JFloat x) Hj) as (c & t & -> & _).
    simpl. lia.
  - simpl. lia.
  - destruct l as [|x l]; [simpl; lia|].
    cbn [json_text json_size]. rewrite !length_append.
    pose proof (join_length_bound json_size (json_text (S level))
                  ("," +:+ newline_indent (S level)) (x :: l)) as Hjoin.
    pose proof (length_newline_indent level).
    pose proof (length_newline_indent (S level)).
    assert (list_sum (map (fun a => S (json_size a)) (x :: l))
            <= String.length
                 (PyStr.join ("," +:+ newline_indent (S level))
                    (map (json_text (S level)) (x :: l))) + 1) as Hle.
    { apply Hjoin; [rewrite length_append; simpl; lia|].
      cbn [numbers_covered] in Hj. rewrite forallb_forall in Hj.
      rewrite Forall_forall in IH. apply Forall_forall. intros a Ha.
      apply IH; [done|]. by apply Hj, list_elem_of_In. }
    simpl String.length at 1. lia.
  - destruct members as [|kv members]; [simpl; lia|].
    cbn [json_text json_size]. rewrite !length_append.
    pose proof (join_length_bound (fun kv : string * json => json_size kv.2)
                  (fun kv => quoted kv.1 +:+ ": " +:+ json_text (S level) kv.2)
                  ("," +:+ newline_indent (S level)) (kv :: members)) as Hjoin.
    pose proof (length_newline_indent level).
    pose proof (length_newline_indent (S level)).
    assert (list_sum (map (fun kv : string * json => S (json_size kv.2)) (kv :: members))
            <= String.length
                 (PyStr.join ("," +:+ newline_indent (S level))
                    (map (fun kv : string * json =>
                            quoted kv.1 +:+ ": " +:+ json_text (S level) kv.2)
                         (kv :: members))) + 1) as Hle.
    { apply Hjoin; [rewrite length_append; simpl; lia|].
      cbn [numbers_covered] in Hj. rewrite forallb_forall in Hj.
      rewrite Forall_forall in IH. apply Forall_forall. intros a Ha.
      rewrite !length_append.
      assert (Hcov : numbers_covered a.2 = true) by (by apply Hj, list_elem_of_In).
      specialize (IH a Ha Hcov (S level)). lia. }
    simpl String.length at 1. lia.
Qed.

(** The document written is the document read. *)
Lemma json_parse_text (j : json) :
  covered j = true -> json_parse (json_text 0 j) = Some j.
Proof.
  intros Hj. pose proof Hj as [Hnumbers _]%andb_true_iff.
  unfold json_parse.
  rewrite <- (append_nil_r (json_text 0 j)) at 2.
  rewrite parse_value_text; [by rewrite Hj|done| |done].
  pose proof (json_size_length j Hnumbers 0). lia.
Qed.

(** *** The characters of a text *)

(** A text has no carriage return: Python reads it as it was written. *)
Lemma escape_char_no_cr (c : ascii) :
  all_chars (fun c => negb (Ascii.eqb c "013")) (escape_char c) = true.
Proof. destruct c as [[] [] [] [] [] [] [] []]; by vm_compute. Qed.

Lemma escape_no_cr (s : string) :
  all_chars (fun c => negb (Ascii.eqb c "013")) (escape s) = true.
Proof.
  induction s as [|c s IH]; [done|]. simpl.
  by rewrite all_chars_append, escape_char_no_cr, IH.
Qed.

Lemma quoted_no_cr (s : string) :
  all_chars (fun c => negb (Ascii.eqb c "013")) (quoted s) = true.
Proof. unfold quoted. simpl. by rewrite all_chars_append, escape_no_cr. Qed.

Lemma number_char_no_cr (c : ascii) :
  is_number_char c = true -> negb (Ascii.eqb c "013") = true.
Proof. destruct c as [[] [] [] [] [] [] [] []]; by vm_compute. Qed.

Lemma newline_indent_no_cr (level : nat) :
  all_chars (fun c => negb (Ascii.eqb c "013")) (newline_indent level) = true.
Proof.
  unfold newline_indent. generalize (4 * level). intros n.
  cbn [all_chars]. induction n as [|n IH]; [done|]. exact IH.
Qed.

Lemma join_all_chars (p : ascii -> bool) (sep : string) (l : list string) :
  all_chars p sep = true -> Forall (fun t => all_chars p t = true) l ->
  all_chars p (PyStr.join sep l) = true.
Proof.
  intros Hsep Hall. induction Hall as [|t l Ht _ IH]; [done|].
  destruct l as [|t' l]; [done|].
  rewrite join_cons by done. by rewrite !all_chars_append, Ht, Hsep, IH.
Qed.

Lemma json_text_no_cr (j : json) :
  numbers_covered j = true ->
  forall level : nat,
    all_chars (fun c => negb (Ascii.eqb c "013")) (json_text level j) = true.
Proof.
  induction j as [|b|z|x|s|l IH|members IH] using json_ind; intros Hj level.
  - done.
  - by destruct b.
  - eapply all_chars_impl; [apply number_char_no_cr | apply str_Z_number_chars].
  - destruct (float_covered_text x Hj) as [[[] ->]|[Hchars _]]; [done..|].
    eapply all_chars_impl; [apply number_char_no_cr | exact Hchars].
  - apply quoted_no_cr.
  - destruct l as [|x l]; [done|]. cbn [json_text].
    rewrite !all_chars_append, !newline_indent_no_cr, join_all_chars; [done| |].
    + by rewrite all_chars_append, newline_indent_no_cr.
    + cbn [numbers_covered] in Hj. rewrite forallb_forall in Hj.
      apply Forall_forall. intros t Ht.
      apply list_elem_of_In, in_map_iff in Ht as (y & <- & Hy).
      rewrite Forall_forall in IH. apply IH; [by apply list_elem_of_In|].
      by apply Hj.
  - destruct members as [|kv members]; [done|]. cbn [json_text].
    rewrite !all_chars_append, !newline_indent_no_cr, join_all_chars; [done| |].
    + by rewrite all_chars_append, newline_indent_no_cr.
    + cbn [numbers_covered] in Hj. rewrite forallb_forall in Hj.
      apply Forall_forall. intros t Ht.
      apply list_elem_of_In, in_map_iff in Ht as ([k y] & <- & Hy).
      rewrite !all_chars_append, quoted_no_cr. simpl.
      rewrite Forall_forall in IH. apply (IH (k, y)); [by apply list_elem_of_In|].
      by apply (Hj (k, y)).
Qed.

End JsonTextFacts.

(** ** Files *)

Section FilesFacts.
Implicit Types (fs : filesystem) (p q : string) (n : node).

Lemma lookup_write fs p n : (<[p := n]> fs) !! p = Some n.
Proof. unfold lookup, filesystem_lookup. simpl. apply lookup_insert_eq. Qed.



Lemma write_write fs p n n' : <[p := n']> (<[p := n]> fs) = <[p := n']> fs.
Proof.
  unfold insert, filesystem_insert. simpl. f_equal. apply insert_insert_eq.
Qed.

Lemma write_id fs p n : fs !! p = Some n -> <[p := n]> fs = fs.
Proof.
  unfold lookup, filesystem_lookup, insert, filesystem_insert.
  intros Hp. destruct fs as [nodes resolve]. simpl in *. f_equal.
  by apply insert_id.
Qed.

(** Opening for writing succeeds on a file there is, and on no directory. *)
Lemma open_w_file fs p content :
  has_nul p = false -> fs !! p = Some (RegularFile content) -> open_w fs p = Ok tt.
Proof. intros Hnul Hp. unfold open_w. by rewrite Hnul, Hp. Qed.

Lemma open_w_Ok fs p :
  open_w fs p = Ok tt -> has_nul p = false /\ fs !! p <> Some Directory.
Proof.
  unfold open_w. destruct (has_nul p); [done|].
  by destruct (fs !! p) as [[]|].
Qed.

Lemma open_r_file fs p content :
  has_nul p = false -> fs !! p = Some (RegularFile content) ->
  open_r fs p = Ok content.
Proof. intros Hnul Hp. unfold open_r. by rewrite Hnul, Hp. Qed.


End FilesFacts.

(** ** The round trip through a file *)

Example float_repr_samples :
  PyFloatOps.float_repr <$>
    [float_literal 15265 (-1); float_literal 1 (-1); float_literal 1 22;
     float_literal 1 16; float_literal 123456789012345678 0;
     float_literal 1 (-5); float_literal 5 (-324);
     float_literal 17976931348623157 292; Double true 0 0]
  = Some <$> ["1526.5"; "0.1"; "1e+22"; "1e+16"; "1.2345678901234568e+17";
              "1e-05"; "5e-324"; "1.7976931348623157e+308"; "-0.0"].
Proof. vm_compute. reflexivity. Qed.

Example parse_float_samples :
  PyFloatOps.parse_float <$>
    ["0.1"; "1E2"; "-0.0"; "1e400"; "2e-324"; "9007199254740993.0";
     "1."; ".5"; "01.5"]
  = [Some (Double false 7205759403792794 (-56));
     Some (Double false 7036874417766400 (-46));
     Some (Double true 0 0); Some (Inf false); Some (Double false 0 0);
     Some (Double false 4503599627370496 1); None; None; None].
Proof. vm_compute. reflexivity. Qed.

Example export_to_json_text :
  export_to_json
    (PyList [PyDict [("Suite ID", PyStr "abricate"); ("EDAM operations", PyList []);
                     ("Suite runs per user", PyFloat (float_literal 15265 (-1)))]])
    "all_tools.json" true (working_directory [])
  = Ok (working_directory
          [("all_tools.json",
            RegularFile
              ("[" +:+ String "010"
               ("    {" +:+ String "010"
               ("        " +:+ String JsonText.dquote
               ("EDAM operations" +:+ String JsonText.dquote
               (": []," +:+ String "010"
               ("        " +:+ String JsonText.dquote
               ("Suite ID" +:+ String JsonText.dquote
               (": " +:+ String JsonText.dquote
               ("abricate" +:+ String JsonText.dquote
               ("," +:+ String "010"
               ("        " +:+ String JsonText.dquote
               ("Suite runs per user" +:+ String JsonText.dquote
               (": 1526.5" +:+ String "010"
               ("    }" +:+ String "010" "]")))))))))))))))]).
Proof. vm_compute. reflexivity. Qed.

(** An export needs the directory of its file. *)
Example export_to_json_no_directory :
  export_to_json sample_collection "results/all_tools.json" true sample_fs
  = Raise FileNotFoundError
  /\ export_to_json sample_collection "categories.txt/all_tools.json" true sample_fs
     = Raise NotADirectoryError
  /\ export_to_json sample_collection "data" true sample_fs = Raise IsADirectoryError.
Proof. split; [|split]; vm_compute; reflexivity. Qed.

Example export_reload_sample :
  (fs ← export_to_json sample_collection "all_tools.json" true sample_fs;
   load_json "./all_tools.json" fs)
  = Ok (PyList
    [PyDict [("Deprecated", PyBool false);
             ("EDAM operations", PyList [PyStr "Antimicrobial resistance prediction"]);
             ("Number of tools on UseGalaxy.eu", PyInt 2);
             ("Suite ID", PyStr "abricate");
             ("Suite runs per user", PyFloat (float_literal 15265 (-1)));
             ("Tool IDs", PyList [PyStr "abricate"; PyStr "abricate_list"]);
             ("bio.tool ID", PyStr "ABRicate")];
     PyDict [("Deprecated", PyNone);
             ("EDAM operations", PyList []);
             ("Number of tools on UseGalaxy.eu", PyInt 0);
             ("Suite ID", PyStr "bakta");
             ("Suite runs per user", PyFloat (Double false 0 0));
             ("Tool IDs", PyList [PyStr "bakta"]);
             ("bio.tool ID", PyNone)]]).
Proof. vm_compute. reflexivity. Qed.

(** What an export writes, and what is read back of it: the document
    dumped. *)
Lemma load_json_export_to_json (data : pyval) (output_fp : string)
    (sort_keys : bool) (fs fs' : filesystem) :
  export_to_json data output_fp sort_keys fs = Ok fs' ->
  open_w fs output_fp = Ok tt
  /\ JsonText.covered (json_dump sort_keys data) = true
  /\ fs' = <[output_fp :=
               RegularFile (JsonText.json_text 0 (json_dump sort_keys data))]> fs
  /\ load_json output_fp fs' = Ok (json_load (json_dump sort_keys data)).
Proof.
  unfold export_to_json. destruct (open_w fs output_fp) as [[]|] eqn:Hopen; [|done].
  simpl. destruct (JsonText.covered _) eqn:Hcovered; [|done].
  intros [= <-]. split; [done|]. split; [done|]. split; [done|].
  destruct (open_w_Ok _ _ Hopen) as [Hnul _].
  unfold load_json. erewrite open_r_file; [|done|apply lookup_write]. simpl.
  pose proof Hcovered as [Hnumbers _]%andb_true_iff.
  rewrite universal_newlines_id by (by apply JsonTextFacts.json_text_no_cr).
  by rewrite JsonTextFacts.json_parse_text.
Qed.

(** An export succeeds when its file can be opened and its document is one
    the model covers. *)
Lemma export_to_json_Ok (data : pyval) (output_fp : string) (sort_keys : bool)
    (fs : filesystem) :
  open_w fs output_fp = Ok tt ->
  JsonText.covered (json_dump sort_keys data) = true ->
  export_to_json data output_fp sort_keys fs
  = Ok (<[output_fp :=
            RegularFile (JsonText.json_text 0 (json_dump sort_keys data))]> fs).
Proof. intros Hopen Hcovered. unfold export_to_json. by rewrite Hopen, Hcovered. Qed.

(** C5 as the specification states it, for every collection, fails on a
    collection with a set-valued attribute: the set is written as an array and
    comes back as a list, which is not equal to the set. *)
Lemma export_reload_set_differs :
  (fs ← export_to_json collection_with_set "all_tools.json" true
          (working_directory []);
   load_json "all_tools.json" fs)
  = Ok (PyList
          [PyDict [("EDAM operations",
                    PyList [PyStr "Antimicrobial resistance prediction"]);
                   ("Suite ID", PyStr "abricate")]])
  /\ py_eqb (PyList
               [PyDict [("EDAM operations",
                         PyList [PyStr "Antimicrobial resistance prediction"]);
                        ("Suite ID", PyStr "abricate")]])
            collection_with_set = false.
Proof. split; vm_compute; reflexivity. Qed.

(** C5, amended: when a collection has been exported to a file, loading the
    file again gives the collection with its tuples and sets turned into
    lists, up to the order of the keys; for a collection made of [None],
    booleans, integers, floats, strings, lists and dicts only, that is a
    collection equal to the original. The text written is that of a document
    that has the members of its objects in the order of their keys. *)
Theorem export_reload_spec (data : pyval) (output_fp : string)
    (fs fs' : filesystem) :
  distinct_keys data = true ->
  export_to_json data output_fp true fs = Ok fs' ->
  exists doc reloaded,
    fs' !! output_fp = Some (RegularFile (JsonText.json_text 0 doc)) /\
    keys_sorted doc /\
    load_json output_fp fs' = Ok reloaded /\
    py_eqb reloaded (listified data) = true /\
    (json_native data = true -> py_eqb reloaded data = true).
Proof.
  intros Hd Hexport.
  destruct (load_json_export_to_json data output_fp true fs fs' Hexport)
    as (_ & _ & -> & Hload).
  exists (json_dump true data), (json_load (json_dump true data)).
  split; [apply lookup_write|]. split; [apply json_dump_keys_sorted|].
  split; [done|]. split; [by apply reload_listified|].
  intros [Hl _]%native_listified. rewrite <- Hl at 2. by apply reload_listified.
Qed.

Lemma export_reload_spec_witness :
  exists doc reloaded,
    (<["all_tools.json" :=
         RegularFile (JsonText.json_text 0 (json_dump true sample_collection))]>
       sample_fs) !! "all_tools.json"
    = Some (RegularFile (JsonText.json_text 0 doc)) /\
    keys_sorted doc /\
    load_json "all_tools.json"
      (<["all_tools.json" :=
           RegularFile (JsonText.json_text 0 (json_dump true sample_collection))]>
         sample_fs)
    = Ok reloaded /\
    py_eqb reloaded (listified sample_collection) = true /\
    (json_native sample_collection = true -> py_eqb reloaded sample_collection = true).
Proof.
  apply (export_reload_spec sample_collection "all_tools.json" sample_fs).
  - vm_compute. reflexivity.
  - vm_compute. reflexivity.
Defined.

(** * Part III: further properties of the helpers *)

(** ** More on strings *)

Module PyStrMore.
Import PyStr PyStrFacts.

Lemma free_of_append (c : ascii) (s t : string) :
  free_of c (s +:+ t) = free_of c s && free_of c t.
Proof.
  induction s as [|a s IH]; [done|].
  rewrite append_cons. simpl. rewrite IH. by rewrite andb_assoc.
Qed.

(** [c in s] for a character is the negation of [free_of]. *)
Lemma contains_char (c : ascii) (s : string) :
  contains (String c "") s = negb (free_of c s).
Proof.
  induction s as [|a s IH]; [done|].
  cbn [contains free_of startswith]. rewrite IH.
  rewrite (Ascii.eqb_sym c a).
  destruct (Ascii.eqb a c); [|done].
  by destruct s.
Qed.

(** Splitting at a separator splits the text before it and the text after
    it. *)
Lemma split_app_sep (sep : ascii) (s t : string) :
  split sep (s +:+ String sep t) = split sep s ++ split sep t.
Proof.
  induction s as [|c s IH].
  - rewrite append_nil_l. simpl. by rewrite Ascii.eqb_refl.
  - rewrite append_cons. simpl. rewrite IH.
    destruct (Ascii.eqb c sep); [done|].
    pose proof (split_not_nil sep s) as Hnil.
    by destruct (split sep s).
Qed.

Lemma index_minus_one {A : Type} (pre : list A) (a : A) :
  index (pre ++ [a]) (-1) = Some a.
Proof.
  change (-1) with (- Z.of_nat 1). rewrite index_negative.
  - rewrite length_app. simpl length.
    replace (length pre + 1 - 1)%nat with (length pre + 0)%nat by lia.
    by rewrite lookup_app_r, Nat.add_0_r, Nat.sub_diag by lia.
  - rewrite length_app. simpl. lia.
Qed.

Lemma index_short {A : Type} (a : A) : index [a] (-2) = None.
Proof. reflexivity. Qed.

Lemma last_one {A : Type} (l : list A) :
  l <> [] -> exists pre a, l = pre ++ [a].
Proof.
  intros Hl. destruct (rev l) as [|a pre] eqn:Hrev.
  - apply (f_equal (@rev A)) in Hrev. rewrite rev_involutive in Hrev. done.
  - exists (rev pre), a.
    apply (f_equal (@rev A)) in Hrev. rewrite rev_involutive in Hrev.
    by rewrite Hrev.
Qed.

(** A suffix no longer than [b] is a suffix of [a +:+ b] when it is one of
    [b]. *)
Lemma endswith_append_long (a b p : string) :
  (String.length p <= String.length b)%nat ->
  endswith (a +:+ b) p = endswith b p.
Proof.
  intros Hlen. induction a as [|c a IH]; [done|].
  rewrite append_cons. cbn [endswith]. rewrite IH.
  destruct (String.eqb_spec (String c (a +:+ b)) p) as [Heq|_]; [|done].
  apply (f_equal String.length) in Heq. simpl in Heq.
  rewrite length_append in Heq. lia.
Qed.

(** A suffix without the separator lies after the last separator. *)
Lemma endswith_after_sep (sep : ascii) (a b p : string) :
  free_of sep p = true ->
  endswith (a +:+ String sep b) p = endswith b p.
Proof.
  intros Hp.
  assert (Hne : forall x, String.eqb (x +:+ String sep b) p = false).
  { intros x. destruct (String.eqb_spec (x +:+ String sep b) p) as [Heq|]; [|done].
    rewrite <- Heq, free_of_append in Hp. simpl in Hp.
    rewrite Ascii.eqb_refl in Hp. simpl in Hp.
    by rewrite andb_false_r in Hp. }
  induction a as [|c a IH].
  - rewrite append_nil_l. cbn [endswith].
    pose proof (Hne "") as H0. rewrite append_nil_l in H0. by rewrite H0.
  - rewrite append_cons. cbn [endswith]. rewrite IH.
    pose proof (Hne (String c a)) as H0. rewrite append_cons in H0.
    by rewrite H0.
Qed.

Lemma endswith_free_of (c : ascii) (s : string) :
  free_of c s = true -> endswith s (String c "") = false.
Proof.
  intros Hs. destruct (endswith s (String c "")) eqn:He; [|done].
  apply endswith_spec in He as [t ->].
  rewrite free_of_append in Hs. simpl in Hs.
  rewrite Ascii.eqb_refl in Hs. simpl in Hs. by rewrite andb_false_r in Hs.
Qed.

End PyStrMore.

(** ** [get_last_url_position] and [shorten_tool_id] on tool ids *)

Section ToolIds.
Import PyStr PyStrFacts PyStrMore.

(** With or without a slash, the result is the last segment. *)
Lemma get_last_url_position_last (toot_id : string) :
  get_last_url_position toot_id
  = of_option IndexError (index (split "/" toot_id) (-1)).
Proof.
  unfold get_last_url_position.
  destruct (contains "/" toot_id) eqn:Hc; [done|].
  rewrite contains_char in Hc. apply negb_false_iff in Hc.
  by rewrite split_free.
Qed.

(** X1: [get_last_url_position] never raises; what it returns has no slash,
    is the end of the id, starts right after a slash unless it is the whole
    id, and is left as it is by a second call. *)
Theorem get_last_url_position_spec (toot_id : string) :
  exists pre last,
    get_last_url_position toot_id = Ok last /\
    free_of "/" last = true /\
    toot_id = pre +:+ last /\
    (pre = "" \/ exists p, pre = p +:+ "/") /\
    get_last_url_position last = Ok last.
Proof.
  destruct (last_one (split "/" toot_id) (split_not_nil _ _)) as (init & r & Hsplit).
  pose proof (split_free_of "/" toot_id) as Hfree.
  rewrite Hsplit in Hfree. apply Forall_app in Hfree as [_ Hr].
  apply Forall_inv in Hr.
  pose proof (join_split "/" toot_id) as Hjoin. rewrite Hsplit in Hjoin.
  assert (Hlast : get_last_url_position r = Ok r).
  { unfold get_last_url_position. by rewrite contains_char, Hr. }
  destruct init as [|s0 init].
  - exists "", r. simpl in Hjoin. subst r.
    split; [done|]. split; [done|]. split; [done|]. split; [by left|done].
  - exists (join "/" (s0 :: init) +:+ "/"), r.
    rewrite get_last_url_position_last, Hsplit, index_minus_one.
    rewrite join_app_one in Hjoin by done.
    split; [done|]. split; [done|]. split; [by rewrite append_assoc|].
    split; [right; by eexists|done].
Qed.

(** X2: the one way [shorten_tool_id] fails: an id that mentions [toolshed]
    and has no slash has no second-last segment, and [IndexError] is
    raised. *)
Theorem shorten_tool_id_raises (tool : string) (e : exn) :
  shorten_tool_id tool = Raise e
  <-> e = IndexError /\ contains "toolshed" tool = true /\ contains "/" tool = false.
Proof.
  unfold shorten_tool_id.
  destruct (contains "toolshed" tool) eqn:Hts.
  - destruct (contains "/" tool) eqn:Hc.
    + destruct (last_two _ (contains_split_length _ _ Hc)) as (pre & a & b & ->).
      rewrite index_second_last. simpl. split; [done|]. by intros (_ & _ & ?).
    + rewrite contains_char in Hc. apply negb_false_iff in Hc.
      rewrite split_free by done. rewrite index_short. simpl.
      split; [by intros [= <-]|by intros (-> & _)].
  - split; [done|]. by intros (_ & ? & _).
Qed.

Lemma split_three (pre name version : string) :
  free_of "/" name = true -> free_of "/" version = true ->
  split "/" (pre +:+ "/" +:+ name +:+ "/" +:+ version)
  = split "/" pre ++ [name; version].
Proof.
  intros Hn Hv.
  change ("/" +:+ name +:+ "/" +:+ version)
    with (String "/" (name +:+ String "/" version)).
  rewrite split_app_sep.
  rewrite split_append by done.
  by rewrite (split_free _ version).
Qed.

(** X3: on an id [.../name/version] whose last two segments have no slash,
    [get_last_url_position] gives the version and [shorten_tool_id] the name
    when the id mentions [toolshed], the whole id otherwise. *)
Theorem tool_id_positions (pre name version : string) :
  free_of "/" name = true -> free_of "/" version = true ->
  get_last_url_position (pre +:+ "/" +:+ name +:+ "/" +:+ version) = Ok version /\
  shorten_tool_id (pre +:+ "/" +:+ name +:+ "/" +:+ version)
  = Ok (if contains "toolshed" (pre +:+ "/" +:+ name +:+ "/" +:+ version)
        then name
        else pre +:+ "/" +:+ name +:+ "/" +:+ version).
Proof.
  intros Hn Hv. split.
  - rewrite get_last_url_position_last, split_three by done.
    change [name; version] with ([name] ++ [version]).
    by rewrite app_assoc, index_minus_one.
  - unfold shorten_tool_id.
    destruct (contains "toolshed" _); [|done].
    by rewrite split_three, index_second_last by done.
Qed.

Lemma tool_id_positions_witness :
  get_last_url_position
    ("toolshed.g2.bx.psu.edu/repos/iuc/abricate" +:+ "/" +:+ "abricate" +:+ "/" +:+ "1.0.1")
  = Ok "1.0.1" /\
  shorten_tool_id
    ("toolshed.g2.bx.psu.edu/repos/iuc/abricate" +:+ "/" +:+ "abricate" +:+ "/" +:+ "1.0.1")
  = Ok (if contains "toolshed"
             ("toolshed.g2.bx.psu.edu/repos/iuc/abricate" +:+ "/" +:+ "abricate"
              +:+ "/" +:+ "1.0.1")
        then "abricate"
        else "toolshed.g2.bx.psu.edu/repos/iuc/abricate" +:+ "/" +:+ "abricate"
             +:+ "/" +:+ "1.0.1").
Proof.
  apply (tool_id_positions "toolshed.g2.bx.psu.edu/repos/iuc/abricate"
           "abricate" "1.0.1"); reflexivity.
Defined.

End ToolIds.

(** ** The spellings of a repository URL *)

Section GithubSpellings.
Import PyStr PyStrFacts PyStrMore.
Context {U R : Type} (g : Github U R).

Lemma get_github_repo_plain_url (owner name : string) :
  free_of "/" owner = true -> free_of "/" name = true ->
  name <> "" -> endswith name ".git" = false ->
  get_github_repo ("https://github.com/" +:+ owner +:+ "/" +:+ name) g
  = (user ← get_user g owner; get_repo g user name).
Proof.
  intros Ho Hn Hne Hgit. unfold get_github_repo.
  assert (Hstart : startswith ("https://github.com/" +:+ owner +:+ "/" +:+ name)
                     "https://github.com/" = true).
  { apply startswith_spec. by eexists. }
  rewrite Hstart. cbn [negb].
  change ("https://github.com/" +:+ owner +:+ "/" +:+ name)
    with (("https://github.com" +:+ String "/" owner) +:+ String "/" name).
  assert (Hslash : endswith (("https://github.com" +:+ String "/" owner)
                             +:+ String "/" name) "/" = false).
  { change (String "/" name) with ("/" +:+ name). rewrite <- append_assoc.
    rewrite endswith_append_long.
    - by apply endswith_free_of.
    - destruct name; [done|simpl; lia]. }
  rewrite Hslash.
  rewrite (endswith_after_sep "/" _ name ".git") by done. rewrite Hgit.
  rewrite split_app_sep, split_app_sep, (split_free _ name), (split_free _ owner)
    by done.
  change ((split "/" "https://github.com" ++ [owner]) ++ [name])
    with (["https:"; ""; "github.com"] ++ [owner; name]).
  by rewrite index_second_last, index_last.
Qed.

Lemma drop_last_slash (t : string) : drop_last 1 (t +:+ "/") = t.
Proof. apply (drop_last_append t "/"). Qed.

Lemma drop_last_dot_git (t : string) : drop_last 4 (t +:+ ".git") = t.
Proof. apply (drop_last_append t ".git"). Qed.

(** X4: a repository URL names the same owner and repository with or
    without a final slash and with or without [.git], for an owner and a
    repository name without a slash and a name that is not empty and does not
    itself end in [.git]. *)
Theorem get_github_repo_spellings (owner name suffix : string) :
  free_of "/" owner = true -> free_of "/" name = true ->
  name <> "" -> endswith name ".git" = false ->
  In suffix [""; "/"; ".git"; ".git/"] ->
  get_github_repo (("https://github.com/" +:+ owner +:+ "/" +:+ name) +:+ suffix) g
  = (user ← get_user g owner; get_repo g user name).
Proof.
  intros Ho Hn Hne Hgit Hsuffix.
  rewrite <- (get_github_repo_plain_url owner name) by done.
  set (url := "https://github.com/" +:+ owner +:+ "/" +:+ name).
  assert (Hstart : forall x, startswith (url +:+ x) "https://github.com/" = true).
  { intros x. apply startswith_spec. eexists. unfold url.
    rewrite !append_assoc. done. }
  assert (Hslash : endswith url "/" = false).
  { replace url with (("https://github.com/" +:+ owner +:+ "/") +:+ name)
      by (unfold url; by rewrite !append_assoc).
    rewrite endswith_append_long.
    - by apply endswith_free_of.
    - destruct name; [done|simpl; lia]. }
  assert (Hdotgit : endswith url ".git" = false).
  { unfold url.
    change ("https://github.com/" +:+ owner +:+ "/" +:+ name)
      with (("https://github.com/" +:+ owner) +:+ String "/" name).
    by rewrite (endswith_after_sep "/" _ name ".git"). }
  assert (Hplain : get_github_repo url g
                   = (let u_split := split "/" url in
                      owner ← of_option IndexError (index u_split (-2));
                      user ← get_user g owner;
                      name ← of_option IndexError (index u_split (-1));
                      get_repo g user name)).
  { unfold get_github_repo. rewrite <- (append_nil_r url) at 1.
    rewrite Hstart. cbn [negb]. by rewrite Hslash, Hdotgit. }
  rewrite Hplain. unfold get_github_repo. rewrite Hstart. cbn [negb].
  simpl in Hsuffix. destruct Hsuffix as [<-|[<-|[<-|[<-|[]]]]].
  - by rewrite append_nil_r, Hslash, Hdotgit.
  - assert (Hend : endswith (url +:+ "/") "/" = true).
    { apply endswith_spec. by eexists. }
    rewrite Hend. rewrite drop_last_slash. by rewrite Hdotgit.
  - rewrite (endswith_append_long url ".git" "/") by (simpl; lia).
    change (endswith ".git" "/") with false. cbv iota.
    assert (Hend : endswith (url +:+ ".git") ".git" = true).
    { apply endswith_spec. by eexists. }
    rewrite Hend. by rewrite drop_last_dot_git.
  - assert (Hend : endswith (url +:+ ".git/") "/" = true).
    { apply endswith_spec. exists (url +:+ ".git"). by rewrite append_assoc. }
    rewrite Hend.
    change (url +:+ ".git/") with (url +:+ (".git" +:+ "/")).
    rewrite <- append_assoc. rewrite drop_last_slash.
    assert (Hend' : endswith (url +:+ ".git") ".git" = true).
    { apply endswith_spec. by eexists. }
    rewrite Hend'. by rewrite drop_last_dot_git.
Qed.

End GithubSpellings.

Lemma get_github_repo_spellings_witness :
  get_github_repo
    (("https://github.com/" +:+ "bgruening" +:+ "/" +:+ "galaxytools") +:+ ".git/")
    echo_github
  = (user ← get_user echo_github "bgruening"; get_repo echo_github user "galaxytools").
Proof.
  apply (get_github_repo_spellings echo_github "bgruening" "galaxytools" ".git/").
  - reflexivity.
  - reflexivity.
  - discriminate.
  - reflexivity.
  - simpl. right. right. right. left. reflexivity.
Defined.

(** ** A formatted cell split again *)

Section FormatListColumnSplit.
Import PyStr PyStrFacts PyStrMore.

Lemma split_separated (a : string) (rest : list string) :
  Forall (fun s => free_of "," s = true) (a :: rest) ->
  split "," (a +:+ fold_right (fun e text => ", " +:+ e +:+ text) "" rest)
  = a :: map (String " ") rest.
Proof.
  revert a. induction rest as [|b rest IH]; intros a Hfree.
  - simpl. rewrite append_nil_r. apply split_free. by apply Forall_inv in Hfree.
  - pose proof (Forall_inv Hfree) as Ha. apply Forall_inv_tail in Hfree.
    pose proof (Forall_inv Hfree) as Hb.
    cbn [fold_right map].
    change (", " +:+ b +:+ ?text) with (String "," (String " " b +:+ text)).
    rewrite split_append by done. f_equal.
    apply IH. constructor; [done|]. by apply Forall_inv_tail in Hfree.
Qed.

(** X5: the cell of a row whose elements have no comma, split at the commas,
    gives the elements back: the first as it is, each other one after the
    space of its separator. *)
Theorem format_list_column_split (col : list (list string)) (i : nat)
    (a : string) (rest : list string) :
  col !! i = Some (a :: rest) ->
  Forall (fun s => free_of "," s = true) (a :: rest) ->
  exists cell,
    format_list_column col !! i = Some cell /\
    split "," cell = a :: map (String " ") rest.
Proof.
  intros Hi Hfree. exists (join ", " (a :: rest)). split.
  - unfold format_list_column.
    change (map ?f col) with (f <$> col).
    rewrite list_lookup_fmap, Hi. simpl. f_equal. f_equal.
    unfold str, str_string. by rewrite map_id.
  - rewrite join_separators. by apply split_separated.
Qed.

Lemma format_list_column_split_witness :
  exists cell,
    format_list_column [["Assembly"; "Sequence Analysis"; "Metagenomics"]] !! 0%nat
    = Some cell /\
    split "," cell = "Assembly" :: map (String " ") ["Sequence Analysis"; "Metagenomics"].
Proof.
  apply (format_list_column_split
           [["Assembly"; "Sequence Analysis"; "Metagenomics"]] 0
           "Assembly" ["Sequence Analysis"; "Metagenomics"]).
  - reflexivity.
  - repeat constructor.
Defined.

End FormatListColumnSplit.

(** ** The lines [read_file] returns *)

Section ReadFileLines.
Import PyStr PyStrFacts.

Lemma universal_newlines_no_cr (s : string) :
  all_chars (fun c => negb (Ascii.eqb c "013")) (universal_newlines s) = true.
Proof.
  assert (forall (n : nat) (s : string),
            (String.length s <= n)%nat ->
            all_chars (fun c => negb (Ascii.eqb c "013")) (universal_newlines s) = true)
    as Hlen.
  { clear s. induction n as [|n IH]; intros [|c s] Hlen; try done.
    - simpl in Hlen. lia.
    - cbn [String.length] in Hlen. cbn [universal_newlines].
      destruct (Ascii.eqb c "013") eqn:Hc.
      + destruct s as [|c' s]; [done|]. cbn [String.length] in Hlen.
        destruct (Ascii.eqb c' "010").
        * cbn [all_chars]. rewrite IH by lia. done.
        * cbn [all_chars]. rewrite IH by (cbn [String.length]; lia). done.
      + cbn [all_chars]. rewrite Hc, IH by lia. done. }
  by apply (Hlen (String.length s)).
Qed.

(** A line of a text without carriage returns: a body without line breaks,
    then whitespace (its line feed, if it has one). *)
Lemma lines_keepends_clean (s : string) :
  all_chars (fun c => negb (Ascii.eqb c "013")) s = true ->
  Forall (fun l => exists body tail,
                     l = body +:+ tail /\ all_chars not_newline body = true
                     /\ all_chars isspace tail = true)
         (lines_keepends s).
Proof.
  induction s as [|c s IH]; [by constructor|].
  cbn [all_chars]. intros [Hc Hs]%andb_true_iff. specialize (IH Hs).
  cbn [lines_keepends]. destruct (Ascii.eqb c "010") eqn:Hlf.
  - constructor; [|done]. exists "", (String c "").
    apply Ascii.eqb_eq in Hlf. by subst c.
  - assert (Hnl : not_newline c = true) by (unfold not_newline; by rewrite Hlf, Hc).
    destruct (lines_keepends s) as [|l ls].
    + constructor; [|done]. exists (String c ""), "".
      cbn [all_chars]. by rewrite Hnl.
    + pose proof (Forall_inv IH) as (body & tail & -> & Hbody & Htail).
      constructor; [|by apply Forall_inv_tail in IH].
      exists (String c body), tail. cbn [all_chars]. by rewrite Hnl, Hbody.
Qed.

Lemma rstrip_by_fixed (p : ascii -> bool) (s : string) :
  ends_in p s = false -> rstrip_by p s = s.
Proof.
  unfold ends_in. induction s as [|c s IH]; [done|].
  cbn [last_char rstrip_by]. destruct s as [|c' s].
  - simpl. by intros ->.
  - intros H. by rewrite (IH H).
Qed.

Lemma readlines_rstrip_clean (content : string) :
  Forall (fun l => all_chars not_newline l = true /\ ends_in isspace l = false)
         (map rstrip (readlines content)).
Proof.
  unfold readlines.
  pose proof (lines_keepends_clean _ (universal_newlines_no_cr content)) as Hlines.
  induction Hlines as [|l ls (body & tail & -> & Hbody & Htail) _ IH]; [by constructor|].
  cbn [map]. constructor; [|done].
  unfold rstrip. rewrite rstrip_by_append by done.
  split; [|apply rstrip_by_end].
  destruct (rstrip_by_split isspace body) as (w & Hsplit & _).
  rewrite Hsplit, all_chars_append in Hbody.
  by apply andb_true_iff in Hbody as [? _].
Qed.

Lemma read_file_clean (fs : filesystem) (filepath : option string) :
  Forall (fun l => all_chars not_newline l = true /\ ends_in isspace l = false)
         (read_file fs filepath).
Proof.
  unfold read_file. destruct filepath as [fp|]; [|by constructor].
  destruct (is_file fs fp); [|by constructor].
  apply readlines_rstrip_clean.
Qed.

(** X6: whatever the file holds, no line [read_file] returns has a line feed
    or a carriage return in it or whitespace at its end. *)
Theorem read_file_lines_clean (fs : filesystem) (filepath : option string)
    (line : string) :
  In line (read_file fs filepath) ->
  all_chars not_newline line = true
  /\ ends_in isspace line = false
  /\ rstrip line = line.
Proof.
  intros Hin. pose proof (read_file_clean fs filepath) as Hclean.
  rewrite Forall_forall in Hclean.
  destruct (Hclean line) as [Hnl Hend]; [by apply list_elem_of_In|].
  split; [done|]. split; [done|]. by apply rstrip_by_fixed.
Qed.

Lemma read_file_lines_clean_witness :
  all_chars not_newline "Metagenomics" = true
  /\ ends_in isspace "Metagenomics" = false
  /\ rstrip "Metagenomics" = "Metagenomics".
Proof.
  apply (read_file_lines_clean sample_fs (Some "categories.txt") "Metagenomics").
  vm_compute. right. left. reflexivity.
Defined.

(** X7: a file made of the lines [read_file] returned, one per line, is read
    as the same lines: reading cleans a list once and for all. *)
Theorem read_file_written_back (fs fs' : filesystem)
    (filepath : option string) (fp' : string) :
  fs' !! fp' = Some (RegularFile (text_of_lines (read_file fs filepath))) ->
  read_file fs' (Some fp') = read_file fs filepath.
Proof.
  intros Hfp'. pose proof (read_file_clean fs filepath) as Hclean.
  rewrite (read_file_text_of_lines fs' fp' (read_file fs filepath)); [| |done].
  - clear Hfp'. induction Hclean as [|l ls [_ Hend] _ IH]; [done|].
    cbn [map]. f_equal; [|done]. by apply rstrip_by_fixed.
  - eapply Forall_impl; [exact Hclean|]. by intros l [? _].
Qed.

Lemma read_file_written_back_witness :
  read_file
    (<["copy.txt" := RegularFile
         (text_of_lines (read_file sample_fs (Some "categories.txt")))]> sample_fs)
    (Some "copy.txt")
  = read_file sample_fs (Some "categories.txt").
Proof.
  apply (read_file_written_back sample_fs _ (Some "categories.txt") "copy.txt").
  vm_compute. reflexivity.
Defined.

End ReadFileLines.

(** ** [get_request_json] for any number of retries *)

Section GetRequestJsonMore.
Variable net : nat -> request -> result response.
Variables (url : string) (headers : gmap string string).
Variables (retries : Z) (delay : Q).

(** X8: whatever [retries] and [delay] are given, when at least one attempt
    is allowed the call ends after at least one and at most [retries]
    requests, having slept [delay] once between two requests and not after
    the last. *)
Theorem get_request_json_bounds (w : world) :
  0 < retries ->
  exists (r : result pyval) (w' : world),
    get_request_json net url headers retries delay w = Some (r, w') /\
    (requests_made w < requests_made w')%nat /\
    Z.of_nat (requests_made w') <= Z.of_nat (requests_made w) + retries /\
    slept w' = repeat delay (requests_made w' - requests_made w - 1) ++ slept w.
Proof.
  intros Hpos.
  destruct (get_request_json_total net url headers retries delay w Hpos)
    as (r & i & Hi & Hrun).
  exists r, (count_request (after_retries delay i w)).
  split; [done|]. cbn [count_request after_retries requests_made slept].
  split; [lia|]. split; [lia|].
  by replace (S (requests_made w + i) - requests_made w - 1)%nat with i by lia.
Qed.

(** X9: a value is returned in two cases only. When no attempt is allowed
    the empty dict is returned without a request; otherwise the value is the
    JSON of the first response that did not fail to connect, and the empty
    dict after the loop is out of reach. *)
Theorem get_request_json_returns (w w' : world) (j : pyval) :
  get_request_json net url headers retries delay w = Some (Ok j, w') ->
  (retries <= 0 /\ j = PyDict [] /\ w' = w) \/
  (exists i : nat,
     Z.of_nat i < retries /\
     outcome net url headers (requests_made w + i) = Ok j /\
     (forall i' : nat, (i' < i)%nat ->
        outcome net url headers (requests_made w + i') = Raise ConnectionError) /\
     w' = count_request (after_retries delay i w)).
Proof.
  intros Hrun. destruct (Z.le_gt_cases retries 0) as [Hle|Hpos].
  - left. rewrite get_request_json_no_attempt in Hrun by done.
    by injection Hrun as <- <-.
  - right. destruct (sleep_error delay) as [e_sleep|] eqn:Hdelay.
    { rewrite (get_request_json_sleep_fails _ _ _ _ _ w e_sleep) in Hrun by (done || lia).
      exists 0%nat. rewrite Nat.add_0_r, after_retries_0.
      destruct (outcome net url headers (requests_made w)) as [j'|e].
      - injection Hrun as <- <-. split; [lia|]. split; [done|]. split; [|done].
        intros i' Hi'. lia.
      - exfalso. destruct (is_ConnectionError e), (retries =? 1),
          (is_RequestException e), (is_ValueError e); discriminate. }
    destruct (first_other_outcome net url headers (requests_made w) (Z.to_nat retries))
      as [Hall|(i & Hi & Hother & Hbefore)].
    + rewrite get_request_json_exhausted in Hrun; [done|done|lia|].
      intros i' Hi'. apply Hall. lia.
    + destruct (outcome net url headers (requests_made w + i)) as [j'|e] eqn:Hout.
      * rewrite (get_request_json_success _ _ _ _ _ Hdelay i w j') in Hrun
          by (done || lia).
        injection Hrun as <- <-. exists i. split; [lia|]. by split.
      * rewrite (get_request_json_failure _ _ _ _ _ Hdelay i w e) in Hrun;
          [done|lia|done|done|by destruct e].
Qed.

Lemma sleep_error_None :
  (0 <= delay)%Q -> (delay <= 9223372036)%Q -> sleep_error delay = None.
Proof.
  intros Hlo%Qle_bool_iff Hhi%Qle_bool_iff. unfold sleep_error.
  by rewrite Hlo, Hhi.
Qed.

Lemma outcome_fails_with (k : nat) (e : exn) :
  fails_with net url headers k e -> outcome net url headers k = Raise e.
Proof.
  intros [Hraise|[(r & Hr & Hstatus & ->)|(r & Hr & Hstatus & Hbody)]].
  - by apply outcome_raised.
  - by apply (outcome_error_status _ _ _ _ r).
  - by rewrite (outcome_body _ _ _ _ r).
Qed.

(** X10: the order of the [except] clauses, for a delay [time.sleep]
    accepts. At the first failure that is not a connection error, no retry is
    made: an exception of [requests], its [JSONDecodeError] included although
    it is a [ValueError] too, becomes [SystemExit], and so does a response
    with an error status; a [ValueError] stays a [ValueError]; any other
    exception goes through as it is. *)
Theorem get_request_json_other_failure (w : world) (i : nat) (e : exn) :
  (0 <= delay)%Q -> (delay <= 9223372036)%Q ->
  Z.of_nat i < retries ->
  (forall i' : nat, (i' < i)%nat ->
     answer net url headers (requests_made w + i') = Raise ConnectionError) ->
  fails_with net url headers (requests_made w + i) e ->
  e <> ConnectionError ->
  exists raised : exn,
    get_request_json net url headers retries delay w
    = Some (Raise raised, count_request (after_retries delay i w)) /\
    (is_RequestException e = true -> raised = SystemExit) /\
    (e = JSONDecodeError -> raised = SystemExit) /\
    (e = ValueError -> raised = ValueError) /\
    (is_RequestException e = false -> is_ValueError e = false -> raised = e).
Proof.
  intros Hlo Hhi Hi Hbefore Hfail Hne.
  pose proof (sleep_error_None Hlo Hhi) as Hdelay.
  eexists. split.
  - apply (get_request_json_failure _ _ _ _ _ Hdelay i w e); [done| | |by destruct e].
    + intros i' Hi'. by apply outcome_raised, Hbefore.
    + by apply outcome_fails_with.
  - split; [by intros ->|]. split; [by intros ->|]. split; [by intros ->|].
    by intros -> ->.
Qed.

End GetRequestJsonMore.

Lemma get_request_json_bounds_witness :
  exists (r : result pyval) (w' : world),
    get_request_json flaky_net "https://bio.tools/api/tool/abricate" ∅ 5 (1 # 2)
      fresh_world
    = Some (r, w') /\
    (requests_made fresh_world < requests_made w')%nat /\
    Z.of_nat (requests_made w') <= Z.of_nat (requests_made fresh_world) + 5 /\
    slept w' = repeat (1 # 2) (requests_made w' - requests_made fresh_world - 1)
               ++ slept fresh_world.
Proof.
  apply (get_request_json_bounds flaky_net "https://bio.tools/api/tool/abricate" ∅
           5 (1 # 2) fresh_world).
  lia.
Defined.

Lemma get_request_json_returns_witness :
  (5 <= 0 /\ PyDict [("name", PyStr "abricate")] = PyDict []
   /\ {| requests_made := 3; slept := [1 # 2; 1 # 2] |} = fresh_world) \/
  (exists i : nat,
     Z.of_nat i < 5 /\
     outcome flaky_net "https://bio.tools/api/tool/abricate" ∅
       (requests_made fresh_world + i)
     = Ok (PyDict [("name", PyStr "abricate")]) /\
     (forall i' : nat, (i' < i)%nat ->
        outcome flaky_net "https://bio.tools/api/tool/abricate" ∅
          (requests_made fresh_world + i')
        = Raise ConnectionError) /\
     {| requests_made := 3; slept := [1 # 2; 1 # 2] |}
     = count_request (after_retries (1 # 2) i fresh_world)).
Proof.
  apply (get_request_json_returns flaky_net "https://bio.tools/api/tool/abricate" ∅
           5 (1 # 2) fresh_world).
  vm_compute. reflexivity.
Defined.

Lemma get_request_json_other_failure_witness :
  exists raised : exn,
    get_request_json not_found_net "https://bio.tools/api/tool/abricate" ∅ 2 (1 # 2)
      fresh_world
    = Some (Raise raised, count_request (after_retries (1 # 2) 1 fresh_world)) /\
    (is_RequestException HTTPError = true -> raised = SystemExit) /\
    (HTTPError = JSONDecodeError -> raised = SystemExit) /\
    (HTTPError = ValueError -> raised = ValueError) /\
    (is_RequestException HTTPError = false -> is_ValueError HTTPError = false ->
     raised = HTTPError).
Proof.
  apply (get_request_json_other_failure not_found_net
           "https://bio.tools/api/tool/abricate" ∅ 2 (1 # 2) fresh_world 1 HTTPError).
  - unfold Qle. simpl. lia.
  - unfold Qle. simpl. lia.
  - lia.
  - intros i' Hi'. assert (i' = 0%nat) as -> by lia. reflexivity.
  - right. left.
    exists {| status_code := 404;
              json_body := Ok (PyDict [("detail", PyStr "Not found")]) |}.
    split; [reflexivity|]. split; [simpl; lia|reflexivity].
  - discriminate.
Defined.

(** ** The installed tools of a server, when the query succeeds *)

Section InstalledToolsMore.
Variable http : request -> result response.

Lemma traverse_Forall2 {A B : Type} (f : A -> result B) (l : list A) (l' : list B) :
  Forall2 (fun a b => f a = Ok b) l l' -> traverse f l = Ok l'.
Proof.
  induction 1 as [|a b l l' Hab _ IH]; [done|].
  simpl. by rewrite Hab, IH.
Qed.

(** X11: when the server answers with a status that is not an error and a
    JSON sequence of objects that all have an [id], the ids are returned, one
    per object and in the order of the answer. *)
Theorem get_all_installed_tool_ids_on_server_success (galaxy_url : string)
    (r : response) (v : pyval) (tool_dicts ids : list pyval) :
  http (tools_request galaxy_url) = Ok r ->
  ~ (400 <= status_code r < 600) ->
  json_body r = Ok v ->
  py_iter v = Ok tool_dicts ->
  Forall2 (fun tool_dict id => py_getitem tool_dict "id" = Ok id) tool_dicts ids ->
  get_all_installed_tool_ids_on_server http galaxy_url = Ok ids.
Proof.
  intros Hr Hstatus Hbody Hiter Hids.
  unfold get_all_installed_tool_ids_on_server.
  rewrite query_tool_ids_request, Hr. simpl.
  unfold raise_for_status.
  destruct (Z.leb_spec 400 (status_code r)), (Z.ltb_spec (status_code r) 600);
    try lia; simpl; rewrite Hbody; simpl; rewrite Hiter; simpl;
    by rewrite (traverse_Forall2 _ _ ids).
Qed.

(** X12: slashes at the end of the server URL do not change the request
    sent nor the result. *)
Theorem get_all_installed_tool_ids_on_server_slashes (galaxy_url slashes : string) :
  all_chars (Ascii.eqb "/") slashes = true ->
  tools_request (galaxy_url +:+ slashes) = tools_request galaxy_url
  /\ get_all_installed_tool_ids_on_server http (galaxy_url +:+ slashes)
     = get_all_installed_tool_ids_on_server http galaxy_url.
Proof.
  intros Hs. unfold tools_request, get_all_installed_tool_ids_on_server.
  by rewrite rstrip_by_append.
Qed.

Lemma get_absent {V : Type} (d : list (string * V)) (k : string) :
  PyDictOps.get d k = None ->
  List.filter (fun kv => negb (String.eqb kv.1 k)) d = d.
Proof.
  induction d as [|[k0 v0] d IH]; [done|]. simpl.
  destruct (String.eqb k0 k); [done|]. simpl. intros Hd. by rewrite IH.
Qed.

Lemma get_filter_absent {V : Type} (d : list (string * V)) (k : string) :
  PyDictOps.get (List.filter (fun kv => negb (String.eqb kv.1 k)) d) k = None.
Proof.
  induction d as [|[k0 v0] d IH]; [done|]. simpl.
  destruct (String.eqb k0 k) eqn:Hk; [done|]. simpl. by rewrite Hk.
Qed.

Lemma get_filter_other {V : Type} (d : list (string * V)) (k other : string) :
  other <> k ->
  PyDictOps.get (List.filter (fun kv => negb (String.eqb kv.1 k)) d) other
  = PyDictOps.get d other.
Proof.
  intros Hother. induction d as [|[k0 v0] d IH]; [done|]. simpl.
  destruct (String.eqb_spec k0 k) as [->|Hk]; simpl.
  - destruct (String.eqb_spec k other) as [->|_]; [done|apply IH].
  - by rewrite IH.
Qed.

Lemma get_take_absent {V : Type} (d : list (string * V)) (k : string) (n : nat) :
  PyDictOps.get d k = None -> PyDictOps.get (take n d) k = None.
Proof.
  revert n. induction d as [|[k0 v0] d IH]; intros [|n]; try done. simpl.
  destruct (String.eqb k0 k); [done|]. apply IH.
Qed.

(** X13: the cache of the decorator. A list returned, the empty list of a
    failed query included, is held by the cache and is the answer of the next
    call for the same URL, whatever the server answers then, and that call
    leaves the cache as it is. As long as the cache holds fewer than 128
    URLs, a call leaves the entries of the other URLs as they are. An
    exception that escapes is not an [Exception] and is not cached. *)
Theorem get_all_installed_tool_ids_on_server_cached_spec
    (cache cache' : list (string * list pyval)) (galaxy_url : string)
    (res : result (list pyval)) :
  get_all_installed_tool_ids_on_server_cached http cache galaxy_url = (res, cache') ->
  match res with
  | Ok tools =>
      PyDictOps.get cache' galaxy_url = Some tools /\
      (forall http' : request -> result response,
         get_all_installed_tool_ids_on_server_cached http' cache' galaxy_url
         = (Ok tools, cache')) /\
      (forall other : string,
         other <> galaxy_url -> (length cache < lru_maxsize)%nat ->
         PyDictOps.get cache' other = PyDictOps.get cache other)
  | Raise e => cache' = cache /\ is_Exception e = false
  end.
Proof.
  unfold get_all_installed_tool_ids_on_server_cached, lru_cache.
  destruct (PyDictOps.get cache galaxy_url) as [cached|] eqn:Hcache.
  - intros [= <- <-]. simpl. rewrite String.eqb_refl.
    split; [done|]. split.
    + intros http'. f_equal. f_equal. simpl.
      rewrite get_absent; [done|apply get_filter_absent].
    + intros other Hother _.
      destruct (String.eqb_spec galaxy_url other) as [->|_]; [done|].
      by apply get_filter_other.
  - destruct (get_all_installed_tool_ids_on_server http galaxy_url) as [tools|e] eqn:Hcall.
    + intros [= <- <-]. cbn [lru_maxsize take PyDictOps.get fst snd].
      rewrite String.eqb_refl. split; [done|]. split.
      * intros http'. f_equal. f_equal. cbn [List.filter fst].
        rewrite String.eqb_refl. cbn [negb].
        rewrite get_absent; [done|by apply get_take_absent].
      * intros other Hother Hsize.
        destruct (String.eqb_spec galaxy_url other) as [->|_]; [done|].
        rewrite take_ge; [done|]. unfold lru_maxsize in Hsize. lia.
    + intros [= <- <-]. split; [done|].
      unfold get_all_installed_tool_ids_on_server in Hcall.
      destruct (query_tool_ids http _) as [tools|ex]; [done|].
      destruct (is_Exception ex) eqn:Hex; [done|]. by injection Hcall as <-.
Qed.

End InstalledToolsMore.

Lemma get_all_installed_tool_ids_on_server_success_witness :
  get_all_installed_tool_ids_on_server galaxy_with_tools "https://usegalaxy.eu/"
  = Ok [PyStr "upload1";
        PyStr "toolshed.g2.bx.psu.edu/repos/iuc/abricate/abricate/1.0.1"].
Proof.
  apply (get_all_installed_tool_ids_on_server_success galaxy_with_tools
           "https://usegalaxy.eu/"
           {| status_code := 200;
              json_body := Ok (PyList
                [PyDict [("id", PyStr "upload1"); ("name", PyStr "Upload File")];
                 PyDict [("id", PyStr "toolshed.g2.bx.psu.edu/repos/iuc/abricate/abricate/1.0.1")]]) |}
           (PyList
              [PyDict [("id", PyStr "upload1"); ("name", PyStr "Upload File")];
               PyDict [("id", PyStr "toolshed.g2.bx.psu.edu/repos/iuc/abricate/abricate/1.0.1")]])
           [PyDict [("id", PyStr "upload1"); ("name", PyStr "Upload File")];
            PyDict [("id", PyStr "toolshed.g2.bx.psu.edu/repos/iuc/abricate/abricate/1.0.1")]]).
  - reflexivity.
  - simpl. lia.
  - reflexivity.
  - reflexivity.
  - repeat constructor.
Defined.

Lemma get_all_installed_tool_ids_on_server_slashes_witness :
  tools_request ("https://usegalaxy.eu" +:+ "//") = tools_request "https://usegalaxy.eu"
  /\ get_all_installed_tool_ids_on_server galaxy_with_tools ("https://usegalaxy.eu" +:+ "//")
     = get_all_installed_tool_ids_on_server galaxy_with_tools "https://usegalaxy.eu".
Proof.
  apply (get_all_installed_tool_ids_on_server_slashes galaxy_with_tools
           "https://usegalaxy.eu" "//").
  reflexivity.
Defined.

Lemma get_all_installed_tool_ids_on_server_cached_spec_witness :
  PyDictOps.get [("https://usegalaxy.fr", []); ("https://usegalaxy.eu", [PyStr "upload1"])]
    "https://usegalaxy.fr"
  = Some [] /\
  (forall http' : request -> result response,
     get_all_installed_tool_ids_on_server_cached http'
       [("https://usegalaxy.fr", []); ("https://usegalaxy.eu", [PyStr "upload1"])]
       "https://usegalaxy.fr"
     = (Ok [], [("https://usegalaxy.fr", []);
                ("https://usegalaxy.eu", [PyStr "upload1"])])) /\
  (forall other : string,
     other <> "https://usegalaxy.fr" ->
     (length [("https://usegalaxy.eu", [PyStr "upload1"])] < lru_maxsize)%nat ->
     PyDictOps.get
       [("https://usegalaxy.fr", []); ("https://usegalaxy.eu", [PyStr "upload1"])] other
     = PyDictOps.get [("https://usegalaxy.eu", [PyStr "upload1"])] other).
Proof.
  apply (get_all_installed_tool_ids_on_server_cached_spec galaxy_unavailable
           [("https://usegalaxy.eu", [PyStr "upload1"])]
           [("https://usegalaxy.fr", []); ("https://usegalaxy.eu", [PyStr "upload1"])]
           "https://usegalaxy.fr" (Ok [])).
  reflexivity.
Defined.

(** ** [reduce_ontology_terms] applied twice, and what it raises *)

Section ReduceOntologyTermsMore.
Context {C : Type} (ontology : Ontology C).

Lemma filter_sublist {A : Type} (f : A -> bool) (l : list A) :
  sublist (List.filter f l) l.
Proof.
  induction l as [|x l IH]; [done|]. simpl.
  destruct (f x); by constructor.
Qed.

Lemma filter_all {A : Type} (f : A -> bool) (l : list A) :
  (forall x, In x l -> f x = true) -> List.filter f l = l.
Proof.
  induction l as [|x l IH]; [done|]. intros Hall. simpl.
  rewrite (Hall x) by (by left). f_equal. apply IH. intros y Hy. apply Hall. by right.
Qed.

Lemma existsb_incl {A : Type} (f : A -> bool) (l l' : list A) :
  (forall x, In x l -> In x l') -> existsb f l = true -> existsb f l' = true.
Proof.
  intros Hincl (x & Hx & Hfx)%existsb_exists.
  apply existsb_exists. exists x. split; [by apply Hincl|done].
Qed.

(** With fewer terms, fewer terms have a subclass among them. *)
Lemma has_subclass_among_incl (terms terms' : list string) (t : string) :
  (forall x, In x terms -> In x terms') ->
  has_subclass_among ontology terms' t = false ->
  has_subclass_among ontology terms t = false.
Proof.
  intros Hincl. unfold has_subclass_among.
  destruct (search_one ontology t) as [cla|]; [|done].
  destruct (subclasses ontology cla) as [subs|]; [|done].
  intros Hnone. destruct (existsb (class_among ontology terms) subs) eqn:Hsome; [|done].
  apply existsb_exists in Hsome as (subcla & Hin & Hamong).
  assert (existsb (class_among ontology terms') subs = true) as Hsome'; [|congruence].
  apply existsb_exists. exists subcla. split; [done|].
  unfold class_among in *. by apply (existsb_incl _ terms terms').
Qed.

Lemma reduce_ontology_terms_nonempty (terms : list string) :
  terms <> [] ->
  reduce_ontology_terms ontology terms
  = (new_classes ← new_classes ontology (omap id (map (search_one ontology) terms));
     traverse (fun cla => of_option IndexError (PyStr.index (label ontology cla) 0))
              new_classes).
Proof. by destruct terms. Qed.

(** When terms are returned, every [subclasses()] call returned or raised
    an [Exception]. *)
Lemma reduce_ontology_terms_Ok_caught (terms kept : list string) :
  reduce_ontology_terms ontology terms = Ok kept ->
  forall t cla, In t terms -> search_one ontology t = Some cla -> caught ontology cla.
Proof.
  intros Hkept. apply caught_classes.
  destruct (decide (terms = [])) as [->|Hne]; [by constructor|].
  rewrite reduce_ontology_terms_nonempty in Hkept by done.
  destruct (new_classes ontology _) as [classes|] eqn:Hnew; [|done].
  by apply new_classes_Ok in Hnew.
Qed.

(** X14: for terms that are the first label of their class, the terms
    returned are terms of the list, in the order of the list, and reducing
    them again changes nothing. *)
Theorem reduce_ontology_terms_idempotent (terms kept : list string) :
  (forall t cla, In t terms -> search_one ontology t = Some cla ->
                 exists others, label ontology cla = t :: others) ->
  reduce_ontology_terms ontology terms = Ok kept ->
  sublist kept terms /\ reduce_ontology_terms ontology kept = Ok kept.
Proof.
  intros Hlabels Hkept.
  pose proof (reduce_ontology_terms_Ok_caught terms kept Hkept) as Hcaught.
  rewrite reduce_ontology_terms_general in Hkept by done.
  injection Hkept as <-.
  set (keep := fun t => match search_one ontology t with
                        | Some cla =>
                            match subclasses ontology cla with
                            | Ok _ => negb (has_subclass_among ontology terms t)
                            | Raise _ => false
                            end
                        | None => false
                        end).
  split; [apply filter_sublist|].
  rewrite reduce_ontology_terms_general.
  - f_equal. apply filter_all. intros t [Ht Hkeep]%filter_In.
    unfold keep in Hkeep.
    destruct (search_one ontology t) as [cla|]; [|done].
    destruct (subclasses ontology cla) as [subs|]; [|done].
    apply negb_true_iff in Hkeep. apply negb_true_iff.
    apply (has_subclass_among_incl _ terms); [|done].
    by intros x [? _]%filter_In.
  - intros t cla [Ht _]%filter_In. by apply Hlabels.
  - intros t cla [Ht _]%filter_In. by apply Hcaught.
Qed.

Lemma traverse_Raise_inv {A B : Type} (f : A -> result B) (l : list A) (e : exn) :
  traverse f l = Raise e -> exists a, In a l /\ f a = Raise e.
Proof.
  induction l as [|a l IH]; [done|]. simpl.
  destruct (f a) as [b|e'] eqn:Ha.
  - simpl. destruct (traverse f l) as [bs|e'']; [done|].
    simpl. intros [= <-]. destruct (IH eq_refl) as (a' & Hin & Ha').
    exists a'. split; [by right|done].
  - simpl. intros [= <-]. exists a. split; [by left|done].
Qed.

Lemma traverse_Raise {A B : Type} (f : A -> result B) (l : list A) (a : A) (e : exn) :
  (forall a' e', f a' = Raise e' -> e' = e) ->
  In a l -> f a = Raise e -> traverse f l = Raise e.
Proof.
  intros Honly Hin Ha. induction l as [|a' l IH]; [done|]. simpl.
  destruct (f a') as [b|e'] eqn:Ha'.
  - simpl. destruct Hin as [->|Hin]; [congruence|]. by rewrite (IH Hin).
  - simpl. f_equal. by apply (Honly a').
Qed.

Lemma first_label_Raise (cla : C) (e : exn) :
  of_option IndexError (PyStr.index (label ontology cla) 0) = Raise e
  <-> e = IndexError /\ label ontology cla = [].
Proof.
  destruct (label ontology cla) as [|l ls]; [split; [by intros [= <-]|by intros [-> _]]|].
  unfold PyStr.index. simpl.
  replace (0 <? Z.pos (Pos.of_succ_nat (length ls))) with true
    by (symmetry; apply Z.ltb_lt; lia).
  simpl. split; [done|]. by intros [_ ?].
Qed.

Lemma omap_id_In (l : list (option C)) (cla : C) :
  In cla (omap id l) <-> In (Some cla) l.
Proof.
  rewrite <- !list_elem_of_In, list_elem_of_omap. split.
  - intros (o & Ho & Hcla). destruct o as [c|]; [|done]. simpl in Hcla. by injection Hcla as ->.
  - intros Hin. by exists (Some cla).
Qed.

(** X15: what [reduce_ontology_terms] raises. An [Exception] of
    [subclasses()] never comes out, its class is left out. What comes out is
    the first exception of [subclasses()] that is no [Exception], which the
    [except] clause does not catch, or else the [IndexError] of [label[0]],
    exactly when a class that is kept has no label. *)
Theorem reduce_ontology_terms_raises (terms : list string) (e : exn) :
  reduce_ontology_terms ontology terms = Raise e
  <-> (exists pre cla post,
         omap id (map (search_one ontology) terms) = pre ++ cla :: post
         /\ Forall (caught ontology) pre
         /\ subclasses ontology cla = Raise e /\ is_Exception e = false)
      \/ (Forall (caught ontology) (omap id (map (search_one ontology) terms))
          /\ e = IndexError
          /\ exists term cla,
               In term terms /\ search_one ontology term = Some cla
               /\ keeps_class ontology (omap id (map (search_one ontology) terms)) cla
                  = true
               /\ label ontology cla = []).
Proof.
  destruct (decide (terms = [])) as [->|Hne].
  { split; [done|]. intros [([] & ? & ? & ? & _)|(_ & _ & ? & ? & [] & _)]; done. }
  rewrite reduce_ontology_terms_nonempty by done.
  set (check_classes := omap id (map (search_one ontology) terms)).
  destruct (new_classes ontology check_classes) as [classes|e'] eqn:Hnew; simpl.
  - pose proof (new_classes_Ok _ _ _ Hnew) as Hcaught.
    rewrite new_classes_filter in Hnew by done. injection Hnew as <-.
    split.
    + intros (cla & Hin & Hcla)%traverse_Raise_inv. right.
      apply first_label_Raise in Hcla as [-> Hlabel].
      split; [done|]. split; [done|].
      apply filter_In in Hin as [Hin Hkeep].
      apply classes_of_terms in Hin as (term & Hin & Hterm).
      by exists term, cla.
    + intros [Hescape|(_ & -> & term & cla & Hin & Hterm & Hkeep & Hlabel)].
      * apply new_classes_Raise in Hescape.
        rewrite new_classes_filter in Hescape by done. done.
      * apply (traverse_Raise _ _ cla).
        -- by intros a' e' [-> _]%first_label_Raise.
        -- apply filter_In. split; [|done].
           apply classes_of_terms. by exists term.
        -- by apply first_label_Raise.
  - split.
    + intros [= <-]. left. by apply new_classes_Raise.
    + intros [Hescape|(Hcaught & _)].
      * apply new_classes_Raise in Hescape. congruence.
      * rewrite new_classes_filter in Hnew by done. done.
Qed.

End ReduceOntologyTermsMore.

Lemma reduce_ontology_terms_idempotent_witness :
  sublist ["Sequence analysis"; "Visualisation"]
          ["Analysis"; "Sequence analysis"; "Visualisation"]
  /\ reduce_ontology_terms mini_edam ["Sequence analysis"; "Visualisation"]
     = Ok ["Sequence analysis"; "Visualisation"].
Proof.
  apply (reduce_ontology_terms_idempotent mini_edam
           ["Analysis"; "Sequence analysis"; "Visualisation"]
           ["Sequence analysis"; "Visualisation"]).
  - intros t cla Hin. simpl in Hin.
    destruct Hin as [<-|[<-|[<-|[]]]]; intros [= <-]; by eexists.
  - reflexivity.
Defined.

(** ** Exporting what was loaded *)

Section ReExport.

Lemma key_order_trans {V : Type} :
  Transitive (fun x y : string * V => String.le x.1 y.1).
Proof. intros x y z Hxy Hyz. by etrans. Qed.

(** Sorting the items of a dict that are sorted leaves them as they are. *)
Lemma sorted_items_fixed {V : Type} (d : list (string * V)) :
  NoDup d.*1 ->
  Sorted (fun x y => String.le x.1 y.1) d ->
  PyDictOps.sorted_items d = d.
Proof.
  intros Hnd Hsorted.
  apply (Sorted_unique_strong (fun x y : string * V => String.le x.1 y.1)
           (Transitive0 := key_order_trans)).
  - intros [k1 v1] [k2 v2] H1 H2 H12 H21. simpl in *.
    rewrite PyDictFacts.sorted_items_Permutation in H1.
    assert (k1 = k2) as <- by (by apply (anti_symm String.le)).
    apply list_elem_of_In in H1, H2.
    pose proof (PyDictFacts.get_In d k1 v1 Hnd H1) as Hg1.
    pose proof (PyDictFacts.get_In d k1 v2 Hnd H2) as Hg2.
    congruence.
  - apply PyDictFacts.sorted_items_Sorted.
  - done.
  - apply PyDictFacts.sorted_items_Permutation.
Qed.

Lemma sorted_items_keys {V : Type} (d : list (string * V)) :
  (PyDictOps.sorted_items d).*1 ≡ₚ d.*1.
Proof. by rewrite PyDictFacts.sorted_items_Permutation. Qed.

(** The document of a value dumped, loaded and dumped again is the document
    of the first dump. *)
Lemma json_dump_reloaded (v : pyval) :
  distinct_keys v = true ->
  json_dump true (json_load (json_dump true v)) = json_dump true v.
Proof.
  assert (forall l : list pyval,
            Forall (fun x => distinct_keys x = true ->
                             json_dump true (json_load (json_dump true x))
                             = json_dump true x) l ->
            forallb distinct_keys l = true ->
            json_dump true (PyList (map json_load (map (json_dump true) l)))
            = JArray (map (json_dump true) l)) as Hseq.
  { intros l IH Hl. simpl. f_equal.
    induction IH as [|x l Hx _ IHl]; [done|].
    simpl in Hl. apply andb_true_iff in Hl as [Hdx Hdl].
    simpl. by rewrite Hx, IHl. }
  induction v as [|b|z|x|s|l IH|l IH|l IH|items IH] using pyval_ind; intros Hd;
    try done; try by apply Hseq.
  simpl in Hd. apply andb_true_iff in Hd as [Hnd Hvals].
  apply bool_decide_eq_true in Hnd.
  rewrite json_dump_dict.
  set (members := PyDictOps.sorted_items
                    (map (fun kv => (kv.1, json_dump true kv.2)) items)).
  assert (Hkeys : NoDup members.*1).
  { subst members. rewrite sorted_items_keys.
    change (map ?f ?l) with (f <$> l). rewrite <- list_fmap_compose.
    by erewrite list_fmap_ext; [exact Hnd|]. }
  rewrite json_load_object, PyDictFacts.of_pairs_distinct.
  - rewrite json_dump_dict. f_equal.
    assert (map (fun kv : string * pyval => (kv.1, json_dump true kv.2))
                (map (fun kv : string * json => (kv.1, json_load kv.2)) members)
            = members) as ->.
    { rewrite map_map. rewrite <- (map_id members) at 2.
      apply map_ext_in. intros [k x] Hin. simpl. f_equal.
      apply list_elem_of_In in Hin. subst members.
      rewrite PyDictFacts.sorted_items_Permutation in Hin.
      apply list_elem_of_In, in_map_iff in Hin as ([k' y] & [= <- <-] & Hin).
      rewrite Forall_forall in IH. apply (IH (k', y)).
      - by apply list_elem_of_In.
      - rewrite forallb_forall in Hvals. by apply (Hvals (k', y)). }
    apply sorted_items_fixed; [done|]. apply PyDictFacts.sorted_items_Sorted.
  - change (map ?f ?l) with (f <$> l). rewrite <- list_fmap_compose.
    by erewrite list_fmap_ext; [exact Hkeys|].
Qed.

(** A collection loaded from an export can be exported to the same path
    again. *)
Lemma export_reloaded_Ok (data : pyval) (output_fp : string) (fs fs1 : filesystem) :
  distinct_keys data = true ->
  export_to_json data output_fp true fs = Ok fs1 ->
  export_to_json (json_load (json_dump true data)) output_fp true fs1 = Ok fs1.
Proof.
  intros Hd Hexport.
  destruct (load_json_export_to_json data output_fp true fs fs1 Hexport)
    as (Hopen & Hcovered & -> & _).
  destruct (open_w_Ok _ _ Hopen) as [Hnul _].
  rewrite export_to_json_Ok.
  - by rewrite json_dump_reloaded, write_write.
  - eapply open_w_file; [done|apply lookup_write].
  - by rewrite json_dump_reloaded.
Qed.

(** X16: a collection loaded from an export is exported as the same text,
    character for character: an export of it, to any path, writes what the
    file loaded holds, and an export to the path it was loaded from leaves
    every file as it is. *)
Theorem export_reloaded_same_text (data reloaded : pyval) (output_fp : string)
    (fs fs1 : filesystem) :
  distinct_keys data = true ->
  export_to_json data output_fp true fs = Ok fs1 ->
  load_json output_fp fs1 = Ok reloaded ->
  exists text : string,
    fs1 !! output_fp = Some (RegularFile text) /\
    (forall fs2 : filesystem,
       export_to_json reloaded output_fp true fs1 = Ok fs2 -> fs2 = fs1) /\
    (forall (fp : string) (fs2 fs3 : filesystem),
       export_to_json reloaded fp true fs2 = Ok fs3 ->
       fs3 !! fp = Some (RegularFile text)).
Proof.
  intros Hd Hexport Hload.
  pose proof (export_reloaded_Ok data output_fp fs fs1 Hd Hexport) as Hagain.
  destruct (load_json_export_to_json data output_fp true fs fs1 Hexport)
    as (_ & _ & Hfs1 & Hload').
  rewrite Hload in Hload'. injection Hload' as ->.
  exists (JsonText.json_text 0 (json_dump true data)).
  split; [rewrite Hfs1; apply lookup_write|]. split.
  - intros fs2 Hfs2. congruence.
  - intros fp fs2 fs3 Hfs3.
    destruct (load_json_export_to_json _ fp true fs2 fs3 Hfs3) as (_ & _ & -> & _).
    rewrite json_dump_reloaded by done. apply lookup_write.
Qed.


(** X18: without [sort_keys] the keys come back in the order they had: what
    is loaded from a file exported so is the collection itself, with every
    tuple and set turned into a list, and the very collection when it has
    none. *)
Theorem export_unsorted_reload (data : pyval) (output_fp : string)
    (fs fs' : filesystem) :
  distinct_keys data = true ->
  export_to_json data output_fp false fs = Ok fs' ->
  load_json output_fp fs' = Ok (listified data) /\
  (json_native data = true -> load_json output_fp fs' = Ok data).
Proof.
  intros Hd Hexport.
  destruct (load_json_export_to_json data output_fp false fs fs' Hexport)
    as (_ & _ & _ & Hload).
  rewrite Hload, reload_unsorted by done.
  split; [done|]. by intros [-> _]%native_listified.
Qed.

End ReExport.

Lemma export_reloaded_same_text_witness :
  exists text : string,
    (<["all_tools.json" :=
         RegularFile (JsonText.json_text 0 (json_dump true collection_with_set))]>
       sample_fs) !! "all_tools.json"
    = Some (RegularFile text) /\
    (forall fs2 : filesystem,
       export_to_json (json_load (json_dump true collection_with_set))
         "all_tools.json" true
         (<["all_tools.json" :=
              RegularFile (JsonText.json_text 0 (json_dump true collection_with_set))]>
            sample_fs)
       = Ok fs2 ->
       fs2 = <["all_tools.json" :=
                 RegularFile (JsonText.json_text 0 (json_dump true collection_with_set))]>
               sample_fs) /\
    (forall (fp : string) (fs2 fs3 : filesystem),
       export_to_json (json_load (json_dump true collection_with_set)) fp true fs2
       = Ok fs3 ->
       fs3 !! fp = Some (RegularFile text)).
Proof.
  apply (export_reloaded_same_text collection_with_set
           (json_load (json_dump true collection_with_set)) "all_tools.json"
           sample_fs).
  - vm_compute. reflexivity.
  - vm_compute. reflexivity.
  - vm_compute. reflexivity.
Defined.


(** The two spellings of the path of an export name one file. *)
Example export_to_json_spellings :
  (fs ← export_to_json sample_collection "./filtered.json" true sample_fs;
   Ok (is_file fs "filtered.json", is_file fs "data//filtered.json"))
  = Ok (true, false).
Proof. vm_compute. reflexivity. Qed.

Lemma export_unsorted_reload_witness :
  load_json "all_tools.json"
    (<["all_tools.json" :=
         RegularFile (JsonText.json_text 0 (json_dump false sample_collection))]>
       sample_fs)
  = Ok (listified sample_collection) /\
  (json_native sample_collection = true ->
   load_json "all_tools.json"
     (<["all_tools.json" :=
          RegularFile (JsonText.json_text 0 (json_dump false sample_collection))]>
        sample_fs)
   = Ok sample_collection).
Proof.
  apply (export_unsorted_reload sample_collection "all_tools.json" sample_fs).
  - vm_compute. reflexivity.
  - vm_compute. reflexivity.
Defined.

(** ** The suite table per tool id *)

Section SuitePerToolId.

Lemma fold_result_invariant {A S : Type} (P : S -> Prop)
    (f : S -> A -> result S) (l : list A) (s s' : S) :
  (forall s x s', In x l -> P s -> f s x = Ok s' -> P s') ->
  P s -> fold_result f l s = Ok s' -> P s'.
Proof.
  revert s. induction l as [|x l IH]; intros s Hstep Hs; simpl.
  - by intros [= <-].
  - destruct (f s x) as [s1|e] eqn:Hf; [|done]. simpl.
    apply IH.
    + intros s2 y s3 Hy. apply Hstep. by right.
    + apply (Hstep s x); [by left|done..].
Qed.

Lemma py_eqb_tuple (l1 l2 : list pyval) :
  py_eqb (PyTuple l1) (PyTuple l2) = py_eqb (PyList l1) (PyList l2).
Proof. reflexivity. Qed.

(** A hashable value is equal to itself. *)
Lemma py_eqb_refl (v : pyval) : hashable v = true -> py_eqb v v = true.
Proof.
  induction v as [|b|z|x|s|l IH|l IH|l IH|items IH] using pyval_ind; try done.
  - intros _. simpl. by destruct b.
  - intros _. simpl. apply Z.eqb_refl.
  - intros _. simpl. apply PyFloatFacts.eqb_refl.
  - intros _. simpl. apply String.eqb_refl.
  - intros Hl. rewrite py_eqb_tuple. apply py_eqb_list.
    simpl in Hl. induction IH as [|x l Hx _ IHl]; [constructor|].
    simpl in Hl. apply andb_true_iff in Hl as [Hhx Hhl].
    constructor; [by apply Hx|by apply IHl].
Qed.

Lemma set_In {V : Type} (d : list (pyval * V)) (k k' : pyval) (v v' : V) :
  In (k', v') (PyKeyDict.set d k v) ->
  In (k', v') d
  \/ (v' = v /\ (k' = k \/ (py_eqb k' k = true /\ exists v0, In (k', v0) d))).
Proof.
  induction d as [|[k0 v0] d IH]; simpl.
  - intros [[= <- <-]|[]]. right. split; [done|by left].
  - destruct (py_eqb k0 k) eqn:Hk.
    + intros [[= <- <-]|Hin]; [|left; by right].
      right. split; [done|]. right. split; [done|]. exists v0. by left.
    + intros [[= <- <-]|Hin]; [left; by left|].
      destruct (IH Hin) as [Hd|(-> & [->|(Heq & v1 & Hv1)])].
      * left. by right.
      * right. split; [done|by left].
      * right. split; [done|]. right. split; [done|]. exists v1. by right.
Qed.

Lemma tool_entry_Ok (suite entry : pyval) :
  tool_entry suite = Ok entry ->
  exists wrapper_id edam_operation,
    py_getitem suite "Galaxy wrapper id" = Ok wrapper_id /\
    py_getitem suite "EDAM operation" = Ok edam_operation /\
    entry = entry_of wrapper_id edam_operation.
Proof.
  unfold tool_entry.
  destruct (py_getitem suite "Galaxy wrapper id") as [w|]; [|done].
  destruct (py_getitem suite "EDAM operation") as [e|]; [|done].
  simpl. intros [= <-]. by exists w, e.
Qed.

Lemma add_suite_recorded (suites : list pyval) (suite : pyval)
    (tools tools' : list (pyval * pyval)) :
  In suite suites ->
  (forall tool entry, In (tool, entry) tools -> recorded suites tool entry) ->
  add_suite tools suite = Ok tools' ->
  forall tool entry, In (tool, entry) tools' -> recorded suites tool entry.
Proof.
  intros Hsuite Htools. unfold add_suite.
  destruct (py_getitem suite "Galaxy tool ids") as [v|] eqn:Hv; [|done]. simpl.
  destruct (py_iter v) as [tool_ids|] eqn:Hiter; [|done]. simpl.
  assert (Hids : suite_tool_ids suite = Ok tool_ids)
    by (unfold suite_tool_ids; by rewrite Hv).
  intros Hfold. revert Htools Hfold.
  apply (fold_result_invariant
           (fun tools => forall tool entry,
                           In (tool, entry) tools -> recorded suites tool entry)).
  intros d listed d' Hlisted Hd. unfold add_tool.
  destruct (tool_entry suite) as [new|] eqn:Hentry; [|done]. simpl.
  destruct (hashable listed) eqn:Hhash; [|done]. intros [= <-].
  apply tool_entry_Ok in Hentry as (w & e & Hw & He & ->).
  assert (Hnew : forall tool, hashable tool = true -> py_eqb tool listed = true ->
                              recorded suites tool (entry_of w e)).
  { intros tool Hh Heq. split; [done|].
    by exists suite, tool_ids, listed, w, e. }
  intros tool entry [Hin|(-> & [->|(Heq & v0 & Hv0)])]%set_In.
  - by apply Hd.
  - apply Hnew; [done|]. by apply py_eqb_refl.
  - apply Hnew; [|done]. by destruct (Hd tool v0 Hv0).
Qed.

(** X19: every entry of the dictionary returned is the entry of a suite of
    the table that lists its tool id. The entry has three keys, and the
    owner it records is the wrapper id of the suite: the table's own
    [Galaxy wrapper owner] is not read. *)
Theorem read_suite_per_tool_id_entries (tool_fp : string) (fs : filesystem)
    (tools : list (pyval * pyval)) (tool entry : pyval) :
  read_suite_per_tool_id tool_fp fs = Ok tools ->
  In (tool, entry) tools ->
  exists (tool_suites : pyval) (suites : list pyval),
    load_json tool_fp fs = Ok tool_suites /\
    py_iter tool_suites = Ok suites /\
    recorded suites tool entry /\
    py_getitem entry "Galaxy wrapper owner" = py_getitem entry "Galaxy wrapper id".
Proof.
  unfold read_suite_per_tool_id.
  destruct (load_json tool_fp fs) as [tool_suites|]; [|done]. simpl.
  destruct (py_iter tool_suites) as [suites|] eqn:Hiter; [|done]. simpl.
  intros Hfold Hin. exists tool_suites, suites. split; [done|]. split; [done|].
  assert (Hrec : recorded suites tool entry).
  { revert Hfold tool entry Hin.
    apply (fold_result_invariant
             (fun tools => forall tool entry,
                             In (tool, entry) tools -> recorded suites tool entry)).
    - intros d suite d' Hsuite Hd Hadd. by apply (add_suite_recorded suites suite d).
    - by intros tool entry []. }
  split; [done|].
  by destruct Hrec as (_ & _ & _ & _ & w & e & _ & _ & _ & _ & _ & _ & ->).
Qed.

Lemma py_eqb_PyStr_r (x : pyval) (t : string) :
  py_eqb x (PyStr t) = true -> x = PyStr t.
Proof. destruct x; try done. simpl. by intros ->%String.eqb_eq. Qed.

Lemma py_eqb_PyStr_l (x : pyval) (t : string) :
  py_eqb (PyStr t) x = true -> x = PyStr t.
Proof. destruct x; try done. simpl. by intros ->%String.eqb_eq. Qed.

Lemma existsb_PyStr (l : list pyval) (t : string) :
  existsb (fun y => py_eqb y (PyStr t)) l = true <-> In (PyStr t) l.
Proof.
  rewrite existsb_exists. split.
  - by intros (y & Hy & ->%py_eqb_PyStr_r).
  - intros Hin. exists (PyStr t). split; [done|]. simpl. apply String.eqb_refl.
Qed.

(** Looking up a string after a store. *)
Lemma get_set_PyStr {V : Type} (d : list (pyval * V)) (k : pyval) (v : V) (t : string) :
  PyKeyDict.get (PyKeyDict.set d k v) (PyStr t)
  = if py_eqb k (PyStr t) then Some v else PyKeyDict.get d (PyStr t).
Proof.
  induction d as [|[k0 v0] d IH]; [done|]. simpl.
  destruct (py_eqb k0 k) eqn:Hk0; simpl.
  - destruct (py_eqb k0 (PyStr t)) eqn:Ht.
    + apply py_eqb_PyStr_r in Ht as ->. apply py_eqb_PyStr_l in Hk0 as ->.
      simpl. by rewrite String.eqb_refl.
    + destruct (py_eqb k (PyStr t)) eqn:Hkt; [|done].
      apply py_eqb_PyStr_r in Hkt as ->. congruence.
  - destruct (py_eqb k0 (PyStr t)) eqn:Ht; [|done].
    destruct (py_eqb k (PyStr t)) eqn:Hkt; [|done].
    apply py_eqb_PyStr_r in Ht as ->. apply py_eqb_PyStr_r in Hkt as ->.
    simpl in Hk0. by rewrite String.eqb_refl in Hk0.
Qed.

Lemma fold_result_app {A S : Type} (f : S -> A -> result S) (l1 l2 : list A) (s : S) :
  fold_result f (l1 ++ l2) s = (s1 ← fold_result f l1 s; fold_result f l2 s1).
Proof.
  revert s. induction l1 as [|x l1 IH]; intros s; [done|]. simpl.
  destruct (f s x) as [s'|]; [|done]. simpl. apply IH.
Qed.

(** The tools of one suite: a tool id the suite lists gets the entry of the
    suite, the others keep theirs. *)
Lemma add_suite_get (suite : pyval) (tool_ids : list pyval)
    (d d' : list (pyval * pyval)) (t : string) :
  suite_tool_ids suite = Ok tool_ids ->
  add_suite d suite = Ok d' ->
  (~ In (PyStr t) tool_ids -> PyKeyDict.get d' (PyStr t) = PyKeyDict.get d (PyStr t)) /\
  (In (PyStr t) tool_ids ->
   exists entry, tool_entry suite = Ok entry /\ PyKeyDict.get d' (PyStr t) = Some entry).
Proof.
  unfold suite_tool_ids, add_suite.
  destruct (py_getitem suite "Galaxy tool ids") as [v|]; [|done]. simpl.
  intros ->. simpl. clear v. revert d.
  induction tool_ids as [|id ids IH]; intros d; cbn [fold_result].
  - intros [= <-]. split; [done|]. by intros [].
  - destruct (add_tool suite d id) as [d1|] eqn:Hadd; [|done]. simpl.
    unfold add_tool in Hadd.
    destruct (tool_entry suite) as [entry|] eqn:Hentry; [|done]. simpl in Hadd.
    destruct (hashable id); [|done]. injection Hadd as <-. intros Hfold.
    destruct (IH _ Hfold) as [Hout Hin]. split.
    + intros Hnot. rewrite Hout by tauto. rewrite get_set_PyStr.
      destruct (py_eqb id (PyStr t)) eqn:Hid; [|done].
      apply py_eqb_PyStr_r in Hid. tauto.
    + intros Hlisted. exists entry. split; [done|].
      destruct (existsb (fun y => py_eqb y (PyStr t)) ids) eqn:Hrest.
      * apply existsb_PyStr in Hrest.
        destruct (Hin Hrest) as (entry' & Hentry' & Hget). congruence.
      * assert (~ In (PyStr t) ids) as Hnot by (rewrite <- existsb_PyStr; congruence).
        rewrite (Hout Hnot), get_set_PyStr.
        destruct Hlisted as [->|?]; [|done]. simpl. by rewrite String.eqb_refl.
Qed.

(** X20: a tool id that several suites list gets the entry of the last of
    them: for a tool id of the table, a string, the dictionary returned has
    under it the wrapper id and the EDAM operations of the last suite that
    lists it. *)
Theorem read_suite_per_tool_id_last_suite (tool_fp : string) (fs : filesystem)
    (tools : list (pyval * pyval)) (tool_suites suite : pyval)
    (before after tool_ids : list pyval) (tool : string) :
  read_suite_per_tool_id tool_fp fs = Ok tools ->
  load_json tool_fp fs = Ok tool_suites ->
  py_iter tool_suites = Ok (before ++ suite :: after) ->
  suite_tool_ids suite = Ok tool_ids ->
  In (PyStr tool) tool_ids ->
  (forall later ids, In later after -> suite_tool_ids later = Ok ids ->
                     ~ In (PyStr tool) ids) ->
  exists wrapper_id edam_operation,
    py_getitem suite "Galaxy wrapper id" = Ok wrapper_id /\
    py_getitem suite "EDAM operation" = Ok edam_operation /\
    PyKeyDict.get tools (PyStr tool) = Some (entry_of wrapper_id edam_operation).
Proof.
  unfold read_suite_per_tool_id. intros Hrun Hload Hiter Hids Hlisted Hafter.
  rewrite Hload in Hrun. simpl in Hrun. rewrite Hiter in Hrun. simpl in Hrun.
  rewrite fold_result_app in Hrun.
  destruct (fold_result add_suite before []) as [d0|]; [|done].
  simpl in Hrun.
  destruct (add_suite d0 suite) as [d1|] eqn:Hsuite; [|done]. simpl in Hrun.
  destruct (add_suite_get suite tool_ids d0 d1 tool Hids Hsuite) as [_ Hin].
  destruct (Hin Hlisted) as (entry & Hentry & Hget).
  apply tool_entry_Ok in Hentry as (w & e & Hw & He & ->).
  exists w, e. split; [done|]. split; [done|].
  rewrite <- Hget. clear Hget Hin Hsuite Hiter. revert d1 Hrun Hafter.
  induction after as [|later after IH]; intros d1; simpl.
  - by intros [= <-].
  - destruct (add_suite d1 later) as [d2|] eqn:Hlater; [|done]. simpl.
    intros Hrun Hafter.
    rewrite (IH d2 Hrun (fun l ids Hl => Hafter l ids (or_intror Hl))).
    assert (exists ids, suite_tool_ids later = Ok ids) as [ids Hlids].
    { unfold add_suite, suite_tool_ids in *.
      destruct (py_getitem later "Galaxy tool ids") as [v|]; [|done]. simpl in *.
      destruct (py_iter v) as [ids|]; [|done]. by exists ids. }
    destruct (add_suite_get later ids d1 d2 tool Hlids Hlater) as [Hout _].
    apply Hout. apply (Hafter later ids); [by left|done].
Qed.

End SuitePerToolId.

(** ** The EDAM operations of the selected tools *)

Section EdamOperations.

Lemma set_like_snoc (s : list pyval) (x : pyval) :
  set_like s = true -> existsb (fun y => py_eqb y x) s = false ->
  set_like (s ++ [x]) = true.
Proof.
  induction s as [|y s IH]; [done|]. simpl.
  intros [Hy Hs]%andb_true_iff [Hyx Hsx]%orb_false_iff.
  rewrite existsb_app. simpl. rewrite Hyx, orb_false_r, Hy. simpl. by apply IH.
Qed.

Lemma set_insert_set_like (s : list pyval) (x : pyval) :
  set_like s = true -> set_like (set_insert s x) = true.
Proof.
  intros Hs. unfold set_insert.
  destruct (existsb (fun y => py_eqb y x) s) eqn:Hx; [done|].
  by apply set_like_snoc.
Qed.

Lemma set_insert_In (s : list pyval) (x y : pyval) :
  In y (set_insert s x) -> In y s \/ y = x.
Proof.
  unfold set_insert. destruct (existsb (fun y => py_eqb y x) s); [by left|].
  intros [?|[<-|[]]]%in_app_or; [by left|by right].
Qed.

Lemma set_insert_incl (s : list pyval) (x y : pyval) :
  In y s -> In y (set_insert s x).
Proof.
  unfold set_insert. destruct (existsb (fun y => py_eqb y x) s); [done|].
  intros Hy. apply in_or_app. by left.
Qed.

Lemma set_insert_PyStr (s : list pyval) (t : string) :
  In (PyStr t) (set_insert s (PyStr t)).
Proof.
  unfold set_insert.
  destruct (existsb (fun y => py_eqb y (PyStr t)) s) eqn:Hx.
  - by apply existsb_PyStr.
  - apply in_or_app. right. by left.
Qed.

(** [s.update(l)] *)
Lemma update_elements (l s : list pyval) :
  (set_like s = true -> set_like (fold_left set_insert l s) = true) /\
  (forall y, In y (fold_left set_insert l s) -> In y s \/ In y l) /\
  (forall y, In y s -> In y (fold_left set_insert l s)) /\
  (forall t : string, In (PyStr t) l -> In (PyStr t) (fold_left set_insert l s)).
Proof.
  revert s. induction l as [|x l IH]; intros s; simpl.
  - split; [done|]. split; [by left|]. split; [done|]. by intros t [].
  - destruct (IH (set_insert s x)) as (Hlike & Hfrom & Hincl & Hstr).
    split; [|split; [|split]].
    + intros Hs. by apply Hlike, set_insert_set_like.
    + intros y [[?| ->]%set_insert_In|?]%Hfrom; [by left|right; by left|right; by right].
    + intros y Hy. by apply Hincl, set_insert_incl.
    + intros t [->|Ht]; [|by apply Hstr]. apply Hincl, set_insert_PyStr.
Qed.

Lemma py_set_fold (l s ops : list pyval) :
  fold_result (fun s x => if hashable x then Ok (set_insert s x) else Raise TypeError) l s
  = Ok ops ->
  ops = fold_left set_insert l s.
Proof.
  revert s. induction l as [|x l IH]; intros s; simpl.
  - by intros [= <-].
  - destruct (hashable x); [|done]. simpl. apply IH.
Qed.

Lemma add_edam_operation_Ok (all_tools : list (pyval * pyval))
    (acc acc' : list pyval) (t : pyval) :
  add_edam_operation all_tools acc t = Ok acc' ->
  (PyKeyDict.get all_tools t = None /\ acc' = acc) \/
  (exists entry operations listed,
     PyKeyDict.get all_tools t = Some entry /\
     py_getitem entry "EDAM operation" = Ok operations /\
     py_iter operations = Ok listed /\
     acc' = fold_left set_insert (fold_left set_insert listed []) acc).
Proof.
  unfold add_edam_operation. destruct (hashable t); [|done].
  destruct (PyKeyDict.get all_tools t) as [entry|]; [|intros [= <-]; by left].
  destruct (py_getitem entry "EDAM operation") as [operations|] eqn:Hops; [|done].
  simpl. unfold py_set.
  destruct (py_iter operations) as [listed|] eqn:Hiter; [|done]. simpl.
  destruct (fold_result _ listed []) as [ops|] eqn:Hset; [|done]. simpl.
  intros [= <-]. apply py_set_fold in Hset as ->.
  right. by exists entry, operations, listed.
Qed.

Lemma get_edam_operation_loop (all_tools : list (pyval * pyval))
    (selected_tools acc ops : list pyval) :
  fold_result (add_edam_operation all_tools) selected_tools acc = Ok ops ->
  (set_like acc = true -> set_like ops = true) /\
  (forall y, In y ops ->
     In y acc \/
     exists t entry operations listed,
       In t selected_tools /\ PyKeyDict.get all_tools t = Some entry /\
       py_getitem entry "EDAM operation" = Ok operations /\
       py_iter operations = Ok listed /\ In y listed) /\
  (forall y, In y acc -> In y ops) /\
  (forall t entry operations listed (x : string),
     In t selected_tools -> PyKeyDict.get all_tools t = Some entry ->
     py_getitem entry "EDAM operation" = Ok operations ->
     py_iter operations = Ok listed ->
     In (PyStr x) listed -> In (PyStr x) ops).
Proof.
  revert acc. induction selected_tools as [|t0 sel IH]; intros acc; cbn [fold_result].
  - intros [= <-]. split; [done|]. split; [by left|]. split; [done|].
    by intros t entry operations listed x [].
  - destruct (add_edam_operation all_tools acc t0) as [acc'|] eqn:Hadd; [|done].
    simpl. intros Hloop.
    destruct (IH acc' Hloop) as (Hlike & Hfrom & Hincl & Hstr).
    apply add_edam_operation_Ok in Hadd
      as [[Hnone ->]|(entry0 & operations0 & listed0 & Hget0 & Hops0 & Hiter0 & ->)].
    + split; [done|]. split; [|split; [done|]].
      * intros y [?|(t & entry & operations & listed & Ht & Hrest)]%Hfrom; [by left|].
        right. exists t, entry, operations, listed. split; [by right|done].
      * intros t entry operations listed x [<-|Ht] Hget; [congruence|].
        by apply (Hstr t entry operations listed x).
    + destruct (update_elements listed0 []) as (Hlike0 & Hfrom0 & _ & Hstr0).
      destruct (update_elements (fold_left set_insert listed0 []) acc)
        as (Hlike1 & Hfrom1 & Hincl1 & Hstr1).
      split; [|split; [|split]].
      * intros Hacc. by apply Hlike, Hlike1.
      * intros y [Hy|(t & entry & operations & listed & Ht & Hrest)]%Hfrom.
        -- apply Hfrom1 in Hy as [?|Hy]; [by left|].
           apply Hfrom0 in Hy as [[]|Hy].
           right. exists t0, entry0, operations0, listed0. split; [by left|done].
        -- right. exists t, entry, operations, listed. split; [by right|done].
      * intros y Hy. by apply Hincl, Hincl1.
      * intros t entry operations listed x [<-|Ht] Hget Hops Hiter Hx;
          [|by apply (Hstr t entry operations listed x)].
        apply Hincl, Hstr1, Hstr0.
        rewrite Hget0 in Hget. injection Hget as <-.
        rewrite Hops0 in Hops. injection Hops as <-.
        rewrite Hiter0 in Hiter. by injection Hiter as <-.
Qed.

(** X21: the operations returned are those of the selected tools that are
    in the dictionary: each one returned is listed among the EDAM operations
    of such a tool, each string listed for such a tool is returned, and none
    is returned twice. A selected tool that is not in the dictionary is
    passed over. *)
Theorem get_edam_operation_from_tools_spec (selected_tools : list pyval)
    (all_tools : list (pyval * pyval)) (ops : list pyval) :
  get_edam_operation_from_tools selected_tools all_tools = Ok ops ->
  set_like ops = true /\
  (forall y, In y ops ->
     exists t entry operations listed,
       In t selected_tools /\ PyKeyDict.get all_tools t = Some entry /\
       py_getitem entry "EDAM operation" = Ok operations /\
       py_iter operations = Ok listed /\ In y listed) /\
  (forall t entry operations listed (x : string),
     In t selected_tools -> PyKeyDict.get all_tools t = Some entry ->
     py_getitem entry "EDAM operation" = Ok operations ->
     py_iter operations = Ok listed ->
     In (PyStr x) listed -> In (PyStr x) ops).
Proof.
  intros Hrun.
  destruct (get_edam_operation_loop all_tools selected_tools [] ops Hrun)
    as (Hlike & Hfrom & _ & Hstr).
  split; [by apply Hlike|]. split; [|done].
  intros y [[]|?]%Hfrom. done.
Qed.

End EdamOperations.

Example read_suite_per_tool_id_sample :
  read_suite_per_tool_id "all_tools.json" suite_table_fs = Ok sample_tools_per_id.
Proof. vm_compute. reflexivity. Qed.

Example read_suite_per_tool_id_missing_key :
  read_suite_per_tool_id "all_tools.json"
    (working_directory
       [("all_tools.json",
         RegularFile (JsonText.json_text 0
           (json_dump true
              (PyList [PyDict [("Galaxy tool ids", PyList [PyStr "abricate"]);
                               ("Galaxy wrapper id", PyStr "abricate")]]))))])
  = Raise KeyError.
Proof. vm_compute. reflexivity. Qed.

Lemma read_suite_per_tool_id_entries_witness :
  exists (tool_suites : pyval) (suites : list pyval),
    load_json "all_tools.json" suite_table_fs = Ok tool_suites /\
    py_iter tool_suites = Ok suites /\
    recorded suites (PyStr "abricate")
      (entry_of (PyStr "abricate_summary")
         (PyList [PyStr "Antimicrobial resistance prediction";
                  PyStr "Genome annotation"])) /\
    py_getitem
      (entry_of (PyStr "abricate_summary")
         (PyList [PyStr "Antimicrobial resistance prediction";
                  PyStr "Genome annotation"]))
      "Galaxy wrapper owner"
    = py_getitem
        (entry_of (PyStr "abricate_summary")
           (PyList [PyStr "Antimicrobial resistance prediction";
                    PyStr "Genome annotation"]))
        "Galaxy wrapper id".
Proof.
  apply (read_suite_per_tool_id_entries "all_tools.json" suite_table_fs
           sample_tools_per_id).
  - vm_compute. reflexivity.
  - left. reflexivity.
Defined.

Lemma read_suite_per_tool_id_last_suite_witness :
  exists wrapper_id edam_operation,
    py_getitem abricate_summary_row "Galaxy wrapper id" = Ok wrapper_id /\
    py_getitem abricate_summary_row "EDAM operation" = Ok edam_operation /\
    PyKeyDict.get sample_tools_per_id (PyStr "abricate")
    = Some (entry_of wrapper_id edam_operation).
Proof.
  apply (read_suite_per_tool_id_last_suite "all_tools.json" suite_table_fs
           sample_tools_per_id sample_suite_table abricate_summary_row
           [abricate_row] [] [PyStr "abricate"] "abricate").
  - vm_compute. reflexivity.
  - vm_compute. reflexivity.
  - reflexivity.
  - reflexivity.
  - left. reflexivity.
  - intros later ids [].
Defined.

Example get_edam_operation_from_tools_sample :
  get_edam_operation_from_tools
    [PyStr "abricate"; PyStr "missing"; PyStr "abricate_list"] sample_tools_per_id
  = Ok [PyStr "Antimicrobial resistance prediction"; PyStr "Genome annotation"].
Proof. vm_compute. reflexivity. Qed.

Example get_edam_operation_from_tools_unhashable :
  get_edam_operation_from_tools [PyList [PyStr "abricate"]] sample_tools_per_id
  = Raise TypeError.
Proof. reflexivity. Qed.

Lemma get_edam_operation_from_tools_spec_witness :
  set_like [PyStr "Antimicrobial resistance prediction"; PyStr "Genome annotation"]
  = true /\
  (forall y,
     In y [PyStr "Antimicrobial resistance prediction"; PyStr "Genome annotation"] ->
     exists t entry operations listed,
       In t [PyStr "abricate"; PyStr "missing"; PyStr "abricate_list"] /\
       PyKeyDict.get sample_tools_per_id t = Some entry /\
       py_getitem entry "EDAM operation" = Ok operations /\
       py_iter operations = Ok listed /\ In y listed) /\
  (forall t entry operations listed (x : string),
     In t [PyStr "abricate"; PyStr "missing"; PyStr "abricate_list"] ->
     PyKeyDict.get sample_tools_per_id t = Some entry ->
     py_getitem entry "EDAM operation" = Ok operations ->
     py_iter operations = Ok listed ->
     In (PyStr x) listed ->
     In (PyStr x)
        [PyStr "Antimicrobial resistance prediction"; PyStr "Genome annotation"]).
Proof.
  apply (get_edam_operation_from_tools_spec
           [PyStr "abricate"; PyStr "missing"; PyStr "abricate_list"]
           sample_tools_per_id).
  vm_compute. reflexivity.
Defined.

(** ** The filter command without a status table *)

Example filter_command_sample :
  filter_command import_sample suite_ids (read_csv_status sample_parse_status)
    write_suite_ids
    (filter_args "all_tools.json" (Some "categories.txt") "filtered.json"
       "filtered.tsv" None)
    pipeline_fs
  = Ok (<["filtered.tsv" := RegularFile (text_of_lines ["abricate"; "bakta"])]>
          (<["filtered.json" :=
               RegularFile (JsonText.json_text 0
                              (json_dump true (suite_ids [abricate; bakta])))]>
             pipeline_fs)).
Proof. vm_compute. reflexivity. Qed.

Section FilterWithoutStatus.
Variable init_by_importing : pyval -> result (list suite).
Variable export_tools_to_dict : list suite -> pyval.
Variable export_tools_to_tsv :
  list suite -> option string -> option (list string) -> filesystem ->
  result filesystem.

(** X22: without [--status], or with an empty one, the status table is not
    read: the command does the same whatever reading it would give, a
    failure included, and filters with the empty table. *)
Theorem filter_command_without_status
    (read_status read_status' :
       option string -> filesystem -> result (gmap string status_entry))
    (all : string) (categories : option string) (filtered tsv_filtered : string)
    (status_fp : option string) (fs : filesystem) :
  truthy status_fp = false ->
  filter_command init_by_importing export_tools_to_dict read_status
    export_tools_to_tsv
    (filter_args all categories filtered tsv_filtered status_fp) fs
  = filter_command init_by_importing export_tools_to_dict read_status'
      export_tools_to_tsv
      (filter_args all categories filtered tsv_filtered status_fp) fs.
Proof.
  intros Hstatus. unfold filter_command.
  rewrite !(getattr_filter_args _ _ _ _ _ "all" (Some all)) by done. simpl.
  destruct (load_json all fs) as [data|]; [|done]. simpl.
  destruct (init_by_importing data) as [tools|]; [|done]. simpl.
  rewrite !(getattr_filter_args _ _ _ _ _ "categories" categories) by done. simpl.
  rewrite !(getattr_filter_args _ _ _ _ _ "status" status_fp) by done. simpl.
  by rewrite Hstatus.
Qed.

End FilterWithoutStatus.

Lemma filter_command_without_status_witness :
  filter_command import_sample suite_ids (fun _ _ => Raise FileNotFoundError)
    write_suite_ids
    (filter_args "all_tools.json" (Some "categories.txt") "filtered.json"
       "filtered.tsv" None)
    pipeline_fs
  = filter_command import_sample suite_ids (read_csv_status sample_parse_status)
      write_suite_ids
      (filter_args "all_tools.json" (Some "categories.txt") "filtered.json"
         "filtered.tsv" None)
      pipeline_fs.
Proof.
  apply (filter_command_without_status import_sample suite_ids write_suite_ids
           (fun _ _ => Raise FileNotFoundError)
           (read_csv_status sample_parse_status)).
  reflexivity.
Defined.

(** ** What [load_json] returns *)

Example load_json_numbers :
  load_json "numbers.json" pipeline_fs
  = Ok (PyList [PyFloat (float_literal 15 (-1)); PyFloat (float_literal 1 2);
                PyFloat (Double true 0 0); PyInt 0; PyFloat (Inf false);
                PyDict [("a", PyNone)]]).
Proof. vm_compute. reflexivity. Qed.

Example load_json_outside :
  load_json "nan.json" pipeline_fs = Raise Unmodelled
  /\ load_json "missing.json" pipeline_fs = Raise FileNotFoundError
  /\ load_json "numbers.json/x" pipeline_fs = Raise NotADirectoryError.
Proof. split; [|split]; vm_compute; reflexivity. Qed.

Section LoadJsonNative.







End LoadJsonNative.


(** ** What the filter command writes *)

Section FilterCommandFrame.
Variable init_by_importing : pyval -> result (list suite).
Variable export_tools_to_dict : list suite -> pyval.
Variable read_status :
  option string -> filesystem -> result (gmap string status_entry).
Variable export_tools_to_tsv :
  list suite -> option string -> option (list string) -> filesystem ->
  result filesystem.


End FilterCommandFrame.

